(** * WattsApp energy dashboard: the [EnergyDataManager] of [js/data.js]

    A shallow embedding of the data model class and of the operations the
    specification makes promises about: snapshot generation, the rolling
    historical series, alert checking, device toggling and report
    statistics.

    Numbers.  A JavaScript number that is finite is modelled by an exact
    rational ([Q]); binary rounding error and overflow are outside the
    model.  The special values (NaN and the two infinities) are modelled
    explicitly by [Num]; in this class they can only arise from a division
    and from [Math.max] of no arguments.

    Runtime.  What the class obtains from the JavaScript runtime rather
    than from its own code (the random generator, the clock, local time
    fields, the sine, locale formatting and date parsing) is gathered in a
    [Runtime] record, over which every definition is parametric. *)

From Stdlib Require Import ZArith QArith Qround Lqa Lia Bool Ascii String List.
From Stdlib Require DecimalString.
Import ListNotations.

Local Open Scope string_scope.
Local Open Scope Z_scope.
Local Open Scope Q_scope.

(* ================================================================== *)
(** ** Numbers *)
(* ================================================================== *)

Inductive Num : Type :=
| Fin (q : Q)
| PInf
| NInf
| NaN.

Definition Qltb (x y : Q) : bool := negb (Qle_bool y x).

(** [Math.round] on a finite number: the nearest integer, halves going up. *)
Definition Math_round (x : Q) : Q := inject_Z (Qfloor (x + (1 # 2))).

(** [Math.round(x * 100) / 100]. *)
Definition round2 (x : Q) : Q := Math_round (x * 100) / 100.

(** [Math.round(x * 10) / 10]. *)
Definition round1 (x : Q) : Q := Math_round (x * 10) / 10.

Definition Math_min (x y : Q) : Q := if Qle_bool x y then x else y.
Definition Math_max (x y : Q) : Q := if Qle_bool x y then y else x.
Definition Math_abs (x : Q) : Q := if Qle_bool 0 x then x else - x.

(** IEEE division, with a zero divisor taken as [+0]. *)
Definition num_div (a b : Num) : Num :=
  match a, b with
  | NaN, _ | _, NaN => NaN
  | Fin x, Fin y =>
      if Qeq_bool y 0 then
        if Qltb 0 x then PInf else if Qltb x 0 then NInf else NaN
      else Fin (x / y)
  | Fin _, (PInf | NInf) => Fin 0
  | PInf, Fin y => if Qltb y 0 then NInf else PInf
  | NInf, Fin y => if Qltb y 0 then PInf else NInf
  | (PInf | NInf), (PInf | NInf) => NaN
  end.

Definition num_mul (a b : Num) : Num :=
  match a, b with
  | NaN, _ | _, NaN => NaN
  | Fin x, Fin y => Fin (x * y)
  | Fin x, PInf | PInf, Fin x =>
      if Qltb 0 x then PInf else if Qltb x 0 then NInf else NaN
  | Fin x, NInf | NInf, Fin x =>
      if Qltb 0 x then NInf else if Qltb x 0 then PInf else NaN
  | PInf, PInf | NInf, NInf => PInf
  | PInf, NInf | NInf, PInf => NInf
  end.

(** [a > b]; every comparison with NaN is false. *)
Definition num_gt (a b : Num) : bool :=
  match a, b with
  | NaN, _ | _, NaN => false
  | Fin x, Fin y => Qltb y x
  | PInf, (Fin _ | NInf) => true
  | Fin _, NInf => true
  | _, _ => false
  end.

Definition num_min (a b : Num) : Num :=
  match a, b with
  | NaN, _ | _, NaN => NaN
  | NInf, _ | _, NInf => NInf
  | PInf, c | c, PInf => c
  | Fin x, Fin y => Fin (Math_min x y)
  end.

Definition num_max (a b : Num) : Num :=
  match a, b with
  | NaN, _ | _, NaN => NaN
  | PInf, _ | _, PInf => PInf
  | NInf, c | c, NInf => c
  | Fin x, Fin y => Fin (Math_max x y)
  end.

Definition num_round (a : Num) : Num :=
  match a with
  | Fin x => Fin (Math_round x)
  | other => other
  end.

(** [Math.max(...xs)]: minus infinity when there is no argument. *)
Definition Math_max_spread (xs : list Q) : Num :=
  fold_left (fun acc x => num_max acc (Fin x)) xs NInf.

(** [xs.reduce((a, b) => a + b, 0)]. *)
Definition sum_reduce (xs : list Q) : Q := fold_left Qplus xs 0.

(* ================================================================== *)
(** ** The runtime *)
(* ================================================================== *)

(** The services of the JavaScript runtime the class calls.  The random
    generator and the clock are oracles read in program order: the n-th
    call of [Math.random()] returns [Math_random n], the n-th reading of
    the clock ([new Date()], [Date.now()]) returns [system_clock n], in
    milliseconds since the epoch.  [Math_sin_pi x] is
    [Math.sin(x * Math.PI)].  The three formatters are
    [toLocaleTimeString] and [toLocaleDateString] for locale en-US with
    the option objects of [formatTimeForPeriod]; [Date_parse] is the
    [Date] constructor applied to a string, [None] being an invalid date,
    whose time value is NaN. *)
Record Runtime : Type := mkRuntime {
  Math_random : nat -> Q;
  system_clock : nat -> Z;
  getHours : Z -> Z;
  getDay : Z -> Z;
  Math_sin_pi : Q -> Q;
  toLocaleTimeString_HM : Z -> string;
  toLocaleDateString_WH : Z -> string;
  toLocaleDateString_MD : Z -> string;
  Date_parse : string -> option Z;
  Number_toString : Q -> string
}.

(** What the language guarantees of [Math.random] and what holds of the
    sine on the half period the class uses. *)
Definition random_in_range (rt : Runtime) : Prop :=
  forall n, 0 <= Math_random rt n /\ Math_random rt n < 1.

Definition sine_in_range (rt : Runtime) : Prop :=
  forall x, 0 <= x -> x <= 1 -> 0 <= Math_sin_pi rt x /\ Math_sin_pi rt x <= 1.

(** How many random numbers and clock readings have been consumed. *)
Record World : Type := mkWorld {
  rand_ix : nat;
  clock_ix : nat
}.

Definition M (A : Type) : Type := World -> A * World.

Definition ret {A} (a : A) : M A := fun w => (a, w).

Definition bind {A B} (c : M A) (k : A -> M B) : M B :=
  fun w => let (a, w') := c w in k a w'.

Declare Scope m_scope.
Delimit Scope m_scope with M.
Notation "x <- c ;; k" := (bind c (fun x => k))
  (at level 61, c at next level, right associativity) : m_scope.
Notation "c ;;; k" := (bind c (fun _ => k))
  (at level 61, right associativity) : m_scope.

Definition random (rt : Runtime) : M Q :=
  fun w => (Math_random rt (rand_ix w), mkWorld (S (rand_ix w)) (clock_ix w)).

Definition Date_now (rt : Runtime) : M Z :=
  fun w => (system_clock rt (clock_ix w), mkWorld (rand_ix w) (S (clock_ix w))).

Fixpoint mapM {A B} (f : A -> M B) (l : list A) : M (list B) :=
  match l with
  | [] => ret []
  | a :: r => (b <- f a ;; bs <- mapM f r ;; ret (b :: bs))%M
  end.

(* ================================================================== *)
(** ** Data model *)
(* ================================================================== *)

Record Device : Type := mkDevice {
  dev_name : string;
  dev_power : Q;
  dev_status : string;
  dev_priority : string
}.

Record Household : Type := mkHousehold {
  hh_id : string;
  hh_name : string;
  hh_status : string;
  hh_currentUsage : Q;
  hh_devices : list Device
}.

Inductive Health : Type := Good | Warning | Critical.
Inductive GridStatus : Type := ON | OFF.

Record GenerationData : Type := mkGeneration {
  solar : Q;
  wind : Q;
  gen_total : Q
}.

Record ConsumptionData : Type := mkConsumption {
  households : Q;
  cons_total : Q
}.

Record BatteryData : Type := mkBattery {
  percentage : Q;
  health : Health;
  voltage : Q;
  temperature : Q
}.

Record GridData : Type := mkGrid {
  grid_status : GridStatus;
  load : Q
}.

Record DailySummary : Type := mkSummary {
  totalGenerated : Q;
  totalConsumed : Q;
  efficiency : Num
}.

Record Snapshot : Type := mkSnapshot {
  timestamp : Z;
  generation : GenerationData;
  consumption : ConsumptionData;
  battery : BatteryData;
  grid : GridData;
  dailySummary : DailySummary
}.

(** One period's series: three arrays that are pushed and shifted together. *)
Record Series : Type := mkSeries {
  s_labels : list string;
  s_generation : list Q;
  s_consumption : list Q
}.

(** The keys of [historicalData]. *)
Inductive Period : Type := P24h | P7d | P30d.

Record HistoricalData : Type := mkHistorical {
  hist_24h : Series;
  hist_7d : Series;
  hist_30d : Series
}.

Record Alert : Type := mkAlert {
  alert_id : Z;
  alert_type : string;
  alert_title : string;
  alert_message : string;
  alert_timestamp : Z;
  alert_dismissed : bool
}.

Record SystemControls : Type := mkSystemControls {
  gridConnection : bool;
  autoLoadBalancing : bool;
  batteryCharging : bool
}.

Record EnergyLimits : Type := mkEnergyLimits {
  maxGridImport : Q;
  batteryDischargeLimit : Q;
  loadPriority : string
}.

Record ControlsData : Type := mkControls {
  systemControls : SystemControls;
  energyLimits : EnergyLimits
}.

Record Schedule : Type := mkSchedule {
  sch_id : Z;
  sch_name : string;
  sch_active : bool;
  sch_time : string;
  sch_action : string;
  sch_conditions : string
}.

Record EnergyDataManager : Type := mkManager {
  currentData : Snapshot;
  historicalData : HistoricalData;
  householdData : list Household;
  alertsData : list Alert;
  controlsData : ControlsData;
  schedules : list Schedule
}.

(** Field updates of the manager. *)
Definition set_currentData (m : EnergyDataManager) (c : Snapshot) :=
  mkManager c (historicalData m) (householdData m) (alertsData m)
            (controlsData m) (schedules m).

Definition set_historicalData (m : EnergyDataManager) (h : HistoricalData) :=
  mkManager (currentData m) h (householdData m) (alertsData m)
            (controlsData m) (schedules m).

Definition set_householdData (m : EnergyDataManager) (hs : list Household) :=
  mkManager (currentData m) (historicalData m) hs (alertsData m)
            (controlsData m) (schedules m).

Definition set_alertsData (m : EnergyDataManager) (a : list Alert) :=
  mkManager (currentData m) (historicalData m) (householdData m) a
            (controlsData m) (schedules m).

Definition set_controlsData (m : EnergyDataManager) (c : ControlsData) :=
  mkManager (currentData m) (historicalData m) (householdData m)
            (alertsData m) c (schedules m).

Definition get_series (h : HistoricalData) (p : Period) : Series :=
  match p with
  | P24h => hist_24h h
  | P7d => hist_7d h
  | P30d => hist_30d h
  end.

Definition set_series (h : HistoricalData) (p : Period) (s : Series) :=
  match p with
  | P24h => mkHistorical s (hist_7d h) (hist_30d h)
  | P7d => mkHistorical (hist_24h h) s (hist_30d h)
  | P30d => mkHistorical (hist_24h h) (hist_7d h) s
  end.

(** [hour >= a && hour <= b]. *)
Definition hour_between (a b hour : Z) : bool :=
  ((a <=? hour) && (hour <=? b))%Z.

(* ================================================================== *)
(** ** Historical series *)
(* ================================================================== *)

Section WithRuntime.

Variable rt : Runtime.

Definition formatTimeForPeriod (date : Z) (period : Period) : string :=
  match period with
  | P24h => toLocaleTimeString_HM rt date
  | P7d => toLocaleDateString_WH rt date
  | P30d => toLocaleDateString_MD rt date
  end.

(** The solar term shared by [initializePeriodData] and
    [generateCurrentData]. *)
Definition solar_generation (hour : Z) : M Q :=
  if hour_between 6 18 hour then
    (r <- random rt ;;
     ret (Math_sin_pi rt (inject_Z (hour - 6) / 12) * (8 + r * 4)))%M
  else ret 0.

Definition consumptionBase (hour day : Z) : Q :=
  if hour_between 1 5 day then
    if hour_between 7 9 hour || hour_between 18 22 hour then 8
    else if hour_between 10 17 hour then 6
    else 4
  else
    if hour_between 10 22 hour then 7 else 4.

(** One turn of the loop of [initializePeriodData], for the index [i]. *)
Definition initializePoint (now : Z) (period : Period) (intervalMinutes : Z)
    (i : nat) (acc : Series) : M Series :=
  (let time := (now - Z.of_nat i * intervalMinutes * 60 * 1000)%Z in
   let hour := getHours rt time in
   let day := getDay rt time in
   solarGen <- solar_generation hour ;;
   rw <- random rt ;;
   let windGen := 3 + rw * 6 in
   let totalGen := solarGen + windGen in
   rc <- random rt ;;
   let totalCons := consumptionBase hour day + rc * 3 in
   ret (mkSeries (s_labels acc ++ [formatTimeForPeriod time period])
                 (s_generation acc ++ [round2 totalGen])
                 (s_consumption acc ++ [round2 totalCons])))%M.

(** The loop [for (i = points - 1; i >= 0; i--)], [n] turns remaining. *)
Fixpoint initializeLoop (now : Z) (period : Period) (intervalMinutes : Z)
    (n : nat) (acc : Series) : M Series :=
  match n with
  | O => ret acc
  | S i =>
      (acc' <- initializePoint now period intervalMinutes i acc ;;
       initializeLoop now period intervalMinutes i acc')%M
  end.

Definition initializePeriodData (period : Period) (points : nat)
    (intervalMinutes : Z) (h : HistoricalData) : M HistoricalData :=
  (now <- Date_now rt ;;
   s <- initializeLoop now period intervalMinutes points (mkSeries [] [] []) ;;
   ret (set_series h period s))%M.

Definition initializeHistoricalData (h : HistoricalData) : M HistoricalData :=
  (h1 <- initializePeriodData P24h 48 30 h ;;
   h2 <- initializePeriodData P7d 168 60 h1 ;;
   initializePeriodData P30d 720 60 h2)%M.

(** The threshold of [shouldUpdateData], in milliseconds. *)
Definition cadence (period : Period) : Z :=
  match period with
  | P24h => (30 * 60 * 1000)%Z
  | P7d | P30d => (60 * 60 * 1000)%Z
  end.

(** [currentTime - lastTime >= threshold], where [lastTime] is the date
    made from the last label; when that date is invalid the difference is
    NaN and the comparison is false. *)
Definition shouldUpdateData (m : EnergyDataManager) (period : Period)
    (currentTime : Z) : bool :=
  let data := get_series (historicalData m) period in
  match rev (s_labels data) with
  | [] => true
  | lastLabel :: _ =>
      match Date_parse rt lastLabel with
      | None => false
      | Some lastTime => (cadence period <=? currentTime - lastTime)%Z
      end
  end.

Definition maxPoints (period : Period) : nat :=
  match period with
  | P24h => 48
  | P7d => 168
  | P30d => 720
  end.

(** [shift()] on each array when the labels are at the limit, then
    [push]. *)
Definition addDataPoint (m : EnergyDataManager) (period : Period)
    (time : Z) : EnergyDataManager :=
  let data := get_series (historicalData m) period in
  let data1 :=
    if (maxPoints period <=? List.length (s_labels data))%nat
    then mkSeries (tl (s_labels data)) (tl (s_generation data))
                  (tl (s_consumption data))
    else data in
  let data2 :=
    mkSeries (s_labels data1 ++ [formatTimeForPeriod time period])
             (s_generation data1 ++ [gen_total (generation (currentData m))])
             (s_consumption data1 ++ [cons_total (consumption (currentData m))]) in
  set_historicalData m (set_series (historicalData m) period data2).

Definition updatePeriod (period : Period) (currentTime : Z)
    (m : EnergyDataManager) : EnergyDataManager :=
  if shouldUpdateData m period currentTime
  then addDataPoint m period currentTime
  else m.

Definition updateHistoricalData (m : EnergyDataManager) : EnergyDataManager :=
  let currentTime := timestamp (currentData m) in
  updatePeriod P30d currentTime
    (updatePeriod P7d currentTime
      (updatePeriod P24h currentTime m)).

(* ================================================================== *)
(** ** Household consumption *)
(* ================================================================== *)

Definition set_power (d : Device) (p : Q) : Device :=
  mkDevice (dev_name d) p (dev_status d) (dev_priority d).

Definition set_status (d : Device) (s : string) : Device :=
  mkDevice (dev_name d) (dev_power d) s (dev_priority d).

Definition set_devices (h : Household) (ds : list Device) : Household :=
  mkHousehold (hh_id h) (hh_name h) (hh_status h) (hh_currentUsage h) ds.

(** [hour >= 22 || hour <= 6]. *)
Definition night (hour : Z) : bool := ((22 <=? hour) || (hour <=? 6))%Z.

(** [hour <= 7 || hour >= 18]. *)
Definition dark (hour : Z) : bool := ((hour <=? 7) || (18 <=? hour))%Z.

(** The body of the inner [forEach] of [updateHouseholdConsumption]: the
    new power of one device. *)
Definition devicePower (hour : Z) (device : Device) : M Q :=
  if String.eqb (dev_status device) "on" then
    if String.eqb (dev_name device) "HVAC"
       || String.eqb (dev_name device) "Heat Pump" then
      (r <- random rt ;;
       let power := (5 # 2) + r * 2 in
       ret (if night hour then power * (7 # 10) else power))%M
    else if String.eqb (dev_name device) "Water Heater" then
      if hour_between 6 8 hour || hour_between 18 20 hour
      then (r <- random rt ;; ret (3 + r * 1))%M
      else ret (1 # 2)
    else if String.eqb (dev_name device) "Electric Vehicle" then
      if night hour && String.eqb (dev_status device) "on"
      then (r <- random rt ;; ret (6 + r * 2))%M
      else ret 0
    else if String.eqb (dev_name device) "Lighting" then
      if dark hour
      then (r <- random rt ;; ret ((1 # 2) + r * (3 # 10)))%M
      else ret (1 # 10)
    else if String.eqb (dev_name device) "Pool Pump" then
      ret (if hour_between 10 16 hour then 3 # 2 else 0)
    else
      (r <- random rt ;; ret ((1 # 2) + r * 1))%M
  else if String.eqb (dev_status device) "auto" then
    ret (if dark hour then 3 # 10 else 0)
  else ret 0.

Definition updateDevice (hour : Z) (device : Device) : M Device :=
  (p <- devicePower hour device ;; ret (set_power device p))%M.

(** [totalUsage] after the inner loop. *)
Definition totalUsage (ds : list Device) : Q :=
  fold_left (fun total d => total + dev_power d) ds 0.

Definition updateHousehold (hour : Z) (h : Household) : M Household :=
  (ds <- mapM (updateDevice hour) (hh_devices h) ;;
   ret (mkHousehold (hh_id h) (hh_name h) (hh_status h)
                    (round2 (totalUsage ds)) ds))%M.

Definition updateHouseholdConsumption (hour day : Z)
    (m : EnergyDataManager) : M EnergyDataManager :=
  (hs <- mapM (updateHousehold hour) (householdData m) ;;
   ret (set_householdData m hs))%M.

Definition getTotalHouseholdConsumption (m : EnergyDataManager) : Q :=
  fold_left (fun total h => total + hh_currentUsage h) (householdData m) 0.

(* ================================================================== *)
(** ** Alerts *)
(* ================================================================== *)

(** The test of [alertsData.some(...)] in [checkAlerts]. *)
Definition sameRecentAlert (newAlert alert : Alert) : bool :=
  String.eqb (alert_title alert) (alert_title newAlert)
  && (Z.abs (alert_timestamp alert - alert_timestamp newAlert)
        <? 5 * 60 * 1000)%Z.

Definition alertExists (data : list Alert) (newAlert : Alert) : bool :=
  existsb (sameRecentAlert newAlert) data.

(** One turn of [alerts.forEach]: [unshift] unless the alert exists. *)
Definition insertAlert (data : list Alert) (newAlert : Alert) : list Alert :=
  if alertExists data newAlert then data else newAlert :: data.

Definition batteryAlerts (m : EnergyDataManager) : M (list Alert) :=
  let pct := percentage (battery (currentData m)) in
  if Qltb pct 20 then
    (id <- Date_now rt ;;
     ts <- Date_now rt ;;
     ret [mkAlert id "critical" "Critical Battery Level"
            ("Battery level is " ++ Number_toString rt pct
               ++ "%. Immediate action required.")
            ts false])%M
  else if Qltb pct 30 then
    (id <- Date_now rt ;;
     ts <- Date_now rt ;;
     ret [mkAlert (id + 1) "warning" "Low Battery Warning"
            ("Battery level is " ++ Number_toString rt pct
               ++ "%. Consider reducing loads.")
            ts false])%M
  else ret [].

Definition gridAlerts (m : EnergyDataManager) : M (list Alert) :=
  let gl := load (grid (currentData m)) in
  if Qltb 80 gl then
    (id <- Date_now rt ;;
     ts <- Date_now rt ;;
     ret [mkAlert (id + 2) "warning" "High Grid Load"
            ("Grid load is " ++ Number_toString rt gl
               ++ "%. System under stress.")
            ts false])%M
  else ret [].

Definition checkAlerts (m : EnergyDataManager) : M EnergyDataManager :=
  (a1 <- batteryAlerts m ;;
   a2 <- gridAlerts m ;;
   let alerts := (a1 ++ a2)%list in
   let data := fold_left insertAlert alerts (alertsData m) in
   ret (set_alertsData m (firstn 50 data)))%M.

Definition generateAlerts (m : EnergyDataManager) : M EnergyDataManager :=
  (t1 <- Date_now rt ;;
   t2 <- Date_now rt ;;
   t3 <- Date_now rt ;;
   ret (set_alertsData m
     [ mkAlert 1 "warning" "Low Battery Alert"
         "Battery level is below 25%. Consider reducing non-essential loads."
         (t1 - 5 * 60 * 1000) false;
       mkAlert 2 "info" "Maintenance Reminder"
         "Solar panel cleaning recommended. Last cleaning: 30 days ago."
         (t2 - 2 * 60 * 60 * 1000) false;
       mkAlert 3 "critical" "Grid Connection Lost"
         "Grid connection has been lost. System running on battery power."
         (t3 - 10 * 60 * 1000) true ]))%M.

Definition set_dismissed (a : Alert) : Alert :=
  mkAlert (alert_id a) (alert_type a) (alert_title a) (alert_message a)
          (alert_timestamp a) true.

(** [find] the first alert with the id and mark it. *)
Fixpoint dismiss_first (alertId : Z) (l : list Alert) : option (list Alert) :=
  match l with
  | [] => None
  | a :: r =>
      if (alert_id a =? alertId)%Z then Some (set_dismissed a :: r)
      else option_map (cons a) (dismiss_first alertId r)
  end.

Definition dismissAlert (m : EnergyDataManager) (alertId : Z)
    : bool * EnergyDataManager :=
  match dismiss_first alertId (alertsData m) with
  | Some l => (true, set_alertsData m l)
  | None => (false, m)
  end.

Definition clearDismissedAlerts (m : EnergyDataManager) : EnergyDataManager :=
  set_alertsData m (filter (fun a => negb (alert_dismissed a)) (alertsData m)).

(* ================================================================== *)
(** ** Snapshot generation *)
(* ================================================================== *)

(** The local variables of [generateCurrentData] from which the stored
    snapshot is built. *)
Record Locals : Type := mkLocals {
  l_now : Z;
  l_hour : Z;
  l_solar : Q;
  l_wind : Q;
  l_totalGeneration : Q;
  l_totalConsumption : Q;
  l_netEnergy : Q;
  l_batteryPercentage : Q;
  l_gridStatus : GridStatus;
  l_gridLoad : Q;
  l_batteryHealth : Health;
  l_efficiency : Num
}.

(** The charging and discharging branches. *)
Definition batteryStep (batteryPercentage netEnergy : Q) : Q :=
  if Qltb 0 netEnergy then
    Math_min 100 (batteryPercentage + netEnergy * (1 # 10))
  else if Qltb netEnergy 0 then
    Math_max 0 (batteryPercentage + netEnergy * (1 # 10))
  else batteryPercentage.

Definition gridStatusOf (batteryPercentage limit totalConsumption
    totalGeneration : Q) : GridStatus :=
  if Qltb batteryPercentage limit || Qltb (totalGeneration + 2) totalConsumption
  then ON else OFF.

Definition gridLoadOf (gridStatus : GridStatus) (netEnergy : Q) : Q :=
  match gridStatus with
  | ON => Math_min 100 (Math_abs netEnergy * 10)
  | OFF => 0
  end.

Definition batteryHealthOf (batteryPercentage : Q) : Health :=
  if Qltb batteryPercentage 10 then Critical
  else if Qltb batteryPercentage 30 then Warning
  else Good.

Definition efficiencyOf (totalGeneration totalConsumption : Q) : Num :=
  if Qltb 0 totalGeneration then
    num_min (Fin 100)
      (num_mul (num_div (Fin totalGeneration) (Fin totalConsumption)) (Fin 100))
  else Fin 0.

(** Everything [generateCurrentData] computes before it builds the new
    [currentData]; [m] already holds the updated households. *)
Definition deriveLocals (m : EnergyDataManager) (now : Z) (solar wind : Q)
    : Locals :=
  let totalGeneration := solar + wind in
  let totalConsumption := getTotalHouseholdConsumption m in
  let netEnergy := totalGeneration - totalConsumption in
  let batteryPercentage :=
    batteryStep (percentage (battery (currentData m))) netEnergy in
  let gridStatus :=
    gridStatusOf batteryPercentage
      (batteryDischargeLimit (energyLimits (controlsData m)))
      totalConsumption totalGeneration in
  mkLocals now (getHours rt now) solar wind totalGeneration totalConsumption
    netEnergy batteryPercentage gridStatus (gridLoadOf gridStatus netEnergy)
    (batteryHealthOf batteryPercentage)
    (efficiencyOf totalGeneration totalConsumption).

(** The object literal assigned to [this.currentData]; [rtemp] is the
    random number drawn for the temperature. *)
Definition makeSnapshot (m : EnergyDataManager) (l : Locals) (rtemp : Q)
    : Snapshot :=
  mkSnapshot (l_now l)
    (mkGeneration (round2 (l_solar l)) (round2 (l_wind l))
                  (round2 (l_totalGeneration l)))
    (mkConsumption (round2 (l_totalConsumption l))
                   (round2 (l_totalConsumption l)))
    (mkBattery (Math_round (l_batteryPercentage l))
               (l_batteryHealth l)
               (round1 (48 + (l_batteryPercentage l / 100) * 6))
               (round1 (25 + rtemp * 10)))
    (mkGrid (l_gridStatus l) (Math_round (l_gridLoad l)))
    (mkSummary
       (round2 (totalGenerated (dailySummary (currentData m))
                + l_totalGeneration l / 48))
       (round2 (totalConsumed (dailySummary (currentData m))
                + l_totalConsumption l / 48))
       (num_round (l_efficiency l))).

(** [generateCurrentData] up to the point where the locals are known. *)
Definition computeLocals (m : EnergyDataManager)
    : M (Locals * EnergyDataManager) :=
  (now <- Date_now rt ;;
   let hour := getHours rt now in
   let day := getDay rt now in
   solar <- solar_generation hour ;;
   rw <- random rt ;;
   let wind := 3 + rw * 6 in
   m1 <- updateHouseholdConsumption hour day m ;;
   ret (deriveLocals m1 now solar wind, m1))%M.

Definition generateCurrentData (m : EnergyDataManager) : M EnergyDataManager :=
  (lm <- computeLocals m ;;
   rtemp <- random rt ;;
   let m2 := set_currentData (snd lm) (makeSnapshot (snd lm) (fst lm) rtemp) in
   checkAlerts (updateHistoricalData m2))%M.

(* ================================================================== *)
(** ** Construction *)
(* ================================================================== *)

Definition initialHouseholds : list Household :=
  [ mkHousehold "house1" "House 1" "Active" 0
      [ mkDevice "HVAC" 0 "on" "high";
        mkDevice "Water Heater" 0 "on" "medium";
        mkDevice "Refrigerator" (8 # 10) "on" "high";
        mkDevice "Lighting" 0 "on" "low" ];
    mkHousehold "house2" "House 2" "Active" 0
      [ mkDevice "HVAC" 0 "on" "high";
        mkDevice "Electric Vehicle" 0 "off" "low";
        mkDevice "Washer/Dryer" 0 "off" "low";
        mkDevice "Kitchen Appliances" 0 "on" "medium" ];
    mkHousehold "house3" "House 3" "Active" 0
      [ mkDevice "Heat Pump" 0 "on" "high";
        mkDevice "Pool Pump" 0 "off" "low";
        mkDevice "Electronics" 0 "on" "medium";
        mkDevice "Outdoor Lighting" 0 "auto" "low" ] ].

Definition initialSnapshot (now : Z) : Snapshot :=
  mkSnapshot now (mkGeneration 0 0 0) (mkConsumption 0 0)
    (mkBattery 75 Good 0 0) (mkGrid OFF 0) (mkSummary 0 0 (Fin 0)).

Definition initialControls : ControlsData :=
  mkControls (mkSystemControls true true true)
             (mkEnergyLimits 10 20 "normal").

Definition initialSchedules : list Schedule :=
  [ mkSchedule 1 "Night Charging" true "22:00 - 06:00" "Charge EV"
      "Low grid rates";
    mkSchedule 2 "Peak Shaving" true "16:00 - 20:00"
      "Reduce non-essential loads" "High grid rates" ].

Definition emptyHistorical : HistoricalData :=
  mkHistorical (mkSeries [] [] []) (mkSeries [] [] []) (mkSeries [] [] []).

(** [new EnergyDataManager()]. *)
Definition constructor : M EnergyDataManager :=
  (now <- Date_now rt ;;
   let m0 := mkManager (initialSnapshot now) emptyHistorical
               initialHouseholds [] initialControls initialSchedules in
   h <- initializeHistoricalData (historicalData m0) ;;
   generateAlerts (set_historicalData m0 h))%M.

(* ================================================================== *)
(** ** Mutators of households and controls *)
(* ================================================================== *)

(** [device.status === 'on' ? 'off' : 'on']. *)
Definition toggledStatus (status : string) : string :=
  if String.eqb status "on" then "off" else "on".

(** [devices.find(d => d.name === deviceName)], with the found device's
    status replaced in place. *)
Fixpoint toggle_in_devices (deviceName : string) (ds : list Device)
    : option (list Device) :=
  match ds with
  | [] => None
  | d :: r =>
      if String.eqb (dev_name d) deviceName
      then Some (set_status d (toggledStatus (dev_status d)) :: r)
      else option_map (cons d) (toggle_in_devices deviceName r)
  end.

(** [households.find(h => h.id === householdId)]: only the first
    household with the id is looked into. *)
Fixpoint toggle_in_households (householdId deviceName : string)
    (hs : list Household) : option (list Household) :=
  match hs with
  | [] => None
  | h :: r =>
      if String.eqb (hh_id h) householdId then
        match toggle_in_devices deviceName (hh_devices h) with
        | Some ds => Some (set_devices h ds :: r)
        | None => None
        end
      else option_map (cons h) (toggle_in_households householdId deviceName r)
  end.

Definition toggleDevice (m : EnergyDataManager) (householdId deviceName : string)
    : bool * EnergyDataManager :=
  match toggle_in_households householdId deviceName (householdData m) with
  | Some hs => (true, set_householdData m hs)
  | None => (false, m)
  end.

(** The calls of [updateControlSetting] with a value of the type the
    setting holds, as [js/control.js] makes them; [UnknownSetting] is any
    category or setting name the controls do not have.  Names that
    every JavaScript object inherits ('constructor', '__proto__'), which
    no caller passes, are not among them. *)
Inductive Setting : Type :=
| SetGridConnection (b : bool)
| SetAutoLoadBalancing (b : bool)
| SetBatteryCharging (b : bool)
| SetMaxGridImport (q : Q)
| SetBatteryDischargeLimit (q : Q)
| SetLoadPriority (s : string)
| UnknownSetting (category setting : string).

Definition updateControlSetting (m : EnergyDataManager) (s : Setting)
    : bool * EnergyDataManager :=
  let c := controlsData m in
  let sc := systemControls c in
  let el := energyLimits c in
  match s with
  | SetGridConnection b =>
      (true, set_controlsData m
         (mkControls (mkSystemControls b (autoLoadBalancing sc)
                        (batteryCharging sc)) el))
  | SetAutoLoadBalancing b =>
      (true, set_controlsData m
         (mkControls (mkSystemControls (gridConnection sc) b
                        (batteryCharging sc)) el))
  | SetBatteryCharging b =>
      (true, set_controlsData m
         (mkControls (mkSystemControls (gridConnection sc)
                        (autoLoadBalancing sc) b) el))
  | SetMaxGridImport q =>
      (true, set_controlsData m
         (mkControls sc (mkEnergyLimits q (batteryDischargeLimit el)
                           (loadPriority el))))
  | SetBatteryDischargeLimit q =>
      (true, set_controlsData m
         (mkControls sc (mkEnergyLimits (maxGridImport el) q
                           (loadPriority el))))
  | SetLoadPriority p =>
      (true, set_controlsData m
         (mkControls sc (mkEnergyLimits (maxGridImport el)
                           (batteryDischargeLimit el) p)))
  | UnknownSetting _ _ => (false, m)
  end.

(* ================================================================== *)
(** ** Reports *)
(* ================================================================== *)

Record Statistics : Type := mkStatistics {
  avgGeneration : Num;
  avgConsumption : Num;
  st_efficiency : Num;
  peakGeneration : Num;
  peakConsumption : Num;
  totalGeneration : Num;
  totalConsumption : Num
}.

Record Report : Type := mkReport {
  rep_period : Period;
  rep_data : Series;
  statistics : Statistics
}.

Definition getHistoricalData (m : EnergyDataManager) (period : Period) : Series :=
  get_series (historicalData m) period.

(** [xs.length] as a number. *)
Definition length_num {A} (xs : list A) : Num :=
  Fin (inject_Z (Z.of_nat (List.length xs))).

(** [Math.round(x * 100) / 100] on any number. *)
Definition num_round2 (x : Num) : Num :=
  num_div (num_round (num_mul x (Fin 100))) (Fin 100).

Definition getReportData (m : EnergyDataManager) (period : Period) : Report :=
  let data := getHistoricalData m period in
  let avgGen :=
    num_div (Fin (sum_reduce (s_generation data)))
            (length_num (s_generation data)) in
  let avgCons :=
    num_div (Fin (sum_reduce (s_consumption data)))
            (length_num (s_consumption data)) in
  let eff :=
    if num_gt avgGen (Fin 0)
    then num_mul (num_div avgGen avgCons) (Fin 100)
    else Fin 0 in
  let peakGen := Math_max_spread (s_generation data) in
  let peakCons := Math_max_spread (s_consumption data) in
  mkReport period data
    (mkStatistics
       (num_round2 avgGen)
       (num_round2 avgCons)
       (num_round eff)
       (num_round2 peakGen)
       (num_round2 peakCons)
       (num_round2 (Fin (sum_reduce (s_generation data))))
       (num_round2 (Fin (sum_reduce (s_consumption data))))).

(* ================================================================== *)
(** ** Runs of the manager *)
(* ================================================================== *)

(** The calls a client of the class makes on it. *)
Inductive Op : Type :=
| OpGenerateCurrentData
| OpToggleDevice (householdId deviceName : string)
| OpUpdateControlSetting (s : Setting)
| OpDismissAlert (alertId : Z)
| OpClearDismissedAlerts
| OpAddDataPoint (period : Period) (time : Z).

Definition step (op : Op) (m : EnergyDataManager) : M EnergyDataManager :=
  match op with
  | OpGenerateCurrentData => generateCurrentData m
  | OpToggleDevice h d => ret (snd (toggleDevice m h d))
  | OpUpdateControlSetting s => ret (snd (updateControlSetting m s))
  | OpDismissAlert a => ret (snd (dismissAlert m a))
  | OpClearDismissedAlerts => ret (clearDismissedAlerts m)
  | OpAddDataPoint p t => ret (addDataPoint m p t)
  end.

Fixpoint run (ops : list Op) (m : EnergyDataManager) : M EnergyDataManager :=
  match ops with
  | [] => ret m
  | op :: rest => (m' <- step op m ;; run rest m')%M
  end.

(** A manager as it is after construction and any calls. *)
Definition session (ops : list Op) : M EnergyDataManager :=
  (m <- constructor ;; run ops m)%M.

End WithRuntime.

(* ================================================================== *)
(** ** A concrete runtime *)
(* ================================================================== *)

(** A runtime on which the class can be run: the local time zone is UTC,
    the formatters print the en-US forms ("10:00", "Tue 10 AM",
    "Nov 3"; whether a comma follows the weekday depends on the locale
    data of the engine, and no statement reads such a label), and the
    date parser accepts the month-and-day form only, which it reads as
    that day of 2001, the year V8 supplies when a date string names
    none; a time of day alone is an invalid date.  The sine is
    Bhaskara's rational approximation, which is exact at the hours 6, 8,
    12, 16 and 18 and within 0.002 of the sine elsewhere, so that at
    another daylight hour a generation value can differ from the
    engine's in its last digit. *)
Module Sample.

Local Open Scope Z_scope.

Definition ms_per_day : Z := 86400000.

(** Days since 1970-01-01 to year, month, day, and back (proleptic
    Gregorian calendar). *)
Definition civil_from_days (days : Z) : Z * Z * Z :=
  let z := days + 719468 in
  let era := z / 146097 in
  let doe := z - era * 146097 in
  let yoe := (doe - doe / 1460 + doe / 36524 - doe / 146096) / 365 in
  let doy := doe - (365 * yoe + yoe / 4 - yoe / 100) in
  let mp := (5 * doy + 2) / 153 in
  let d := doy - (153 * mp + 2) / 5 + 1 in
  let m := if mp <? 10 then mp + 3 else mp - 9 in
  let y := yoe + era * 400 + (if m <=? 2 then 1 else 0) in
  (y, m, d).

Definition days_from_civil (y m d : Z) : Z :=
  let y' := if m <=? 2 then y - 1 else y in
  let era := y' / 400 in
  let yoe := y' - era * 400 in
  let doy := (153 * (if 2 <? m then m - 3 else m + 9) + 2) / 5 + d - 1 in
  let doe := yoe * 365 + yoe / 4 - yoe / 100 + doy in
  era * 146097 + doe - 719468.

Definition month_names : list string :=
  ["Jan"; "Feb"; "Mar"; "Apr"; "May"; "Jun";
   "Jul"; "Aug"; "Sep"; "Oct"; "Nov"; "Dec"]%string.

Definition weekday_names : list string :=
  ["Sun"; "Mon"; "Tue"; "Wed"; "Thu"; "Fri"; "Sat"]%string.

Definition decimal (n : Z) : string :=
  DecimalString.NilZero.string_of_int (Z.to_int n).

Definition two_digits (n : Z) : string :=
  if n <? 10 then ("0" ++ decimal n)%string else decimal n.

Definition hours (t : Z) : Z := (t / 3600000) mod 24.
Definition minutes (t : Z) : Z := (t / 60000) mod 60.
Definition weekday (t : Z) : Z := (t / ms_per_day + 4) mod 7.

Definition time_HM (t : Z) : string :=
  (two_digits (hours t) ++ ":" ++ two_digits (minutes t))%string.

Definition date_WH (t : Z) : string :=
  let h := hours t in
  let h12 := if h mod 12 =? 0 then 12 else h mod 12 in
  (nth (Z.to_nat (weekday t)) weekday_names "" ++ " " ++ two_digits h12
     ++ (if (h <? 12)%Z then " AM" else " PM"))%string.

Definition date_MD (t : Z) : string :=
  let '(_, m, d) := civil_from_days (t / ms_per_day) in
  (nth (Z.to_nat (m - 1)) month_names "" ++ " " ++ decimal d)%string.

Fixpoint month_index (name : string) (names : list string) (i : Z) : option Z :=
  match names with
  | [] => None
  | n :: r => if String.eqb n name then Some i else month_index name r (i + 1)
  end.

Definition parse (s : string) : option Z :=
  match month_index (substring 0 3 s) month_names 1 with
  | None => None
  | Some m =>
      if String.eqb (substring 3 1 s) " " then
        match DecimalString.NilZero.uint_of_string
                (substring 4 (String.length s - 4) s) with
        | Some u =>
            let d := Z.of_uint u in
            if (1 <=? d) && (d <=? 31)
            then Some (days_from_civil 2001 m d * ms_per_day)
            else None
        | None => None
        end
      else None
  end.

(** sin (pi x) on [0, 1], after Bhaskara. *)
Definition sin_pi (x : Q) : Q :=
  (16 * x * (1 - x) / (5 - 4 * x * (1 - x)))%Q.

Definition random_numbers (n : nat) : Q :=
  (inject_Z ((37 * Z.of_nat n + 11) mod 100) / 100)%Q.

(** 2026-11-03 10:00:00 UTC. *)
Definition start : Z := days_from_civil 2026 11 3 * ms_per_day + 10 * 3600000.

(** A reading of the clock every five seconds, the update period of the
    dashboard. *)
Definition clock (n : nat) : Z := start + 5000 * Z.of_nat n.

(** The runtime with a given random generator and clock. *)
Definition runtime_with (rnd : nat -> Q) (clk : nat -> Z) : Runtime :=
  mkRuntime rnd clk hours weekday sin_pi
            time_HM date_WH date_MD parse
            (fun q => decimal (Qfloor q)).

Definition runtime : Runtime := runtime_with random_numbers clock.

(** The same from 23:00 on, when there is no sun and the vehicle
    charges. *)
Definition night_clock (n : nat) : Z := start + 13 * 3600000 + 5000 * Z.of_nat n.

Definition night_runtime : Runtime := runtime_with random_numbers night_clock.

(** A random generator stuck just below one. *)
Definition high_numbers (n : nat) : Q := 9993 # 10000.

Definition high_runtime : Runtime := runtime_with high_numbers clock.

(** The same from 12:00 on, when the sine is exactly 1. *)
Definition noon_clock (n : nat) : Z := start + 2 * 3600000 + 5000 * Z.of_nat n.

Definition high_noon_runtime : Runtime := runtime_with high_numbers noon_clock.

Definition world0 : World := mkWorld 0 0.

End Sample.

(* ================================================================== *)
(** ** Observations and sessions used in the statements *)
(* ================================================================== *)

(** The device the two [find] calls of [toggleDevice] arrive at. *)
Definition find_device (m : EnergyDataManager) (householdId deviceName : string)
    : option Device :=
  match find (fun h => String.eqb (hh_id h) householdId) (householdData m) with
  | Some h => find (fun d => String.eqb (dev_name d) deviceName) (hh_devices h)
  | None => None
  end.

(** The status of the [j]-th device of the [i]-th household. *)
Definition status_at (m : EnergyDataManager) (i j : nat) : option string :=
  match nth_error (householdData m) i with
  | Some h => option_map dev_status (nth_error (hh_devices h) j)
  | None => None
  end.

(** A sequence of [toggleDevice] calls, each given by its two arguments. *)
Definition toggleDevices (calls : list (string * string))
    (m : EnergyDataManager) : EnergyDataManager :=
  fold_left (fun m c => snd (toggleDevice m (fst c) (snd c))) calls m.

(** The stored battery percentage is a percentage. *)
Definition percentage_in_range (m : EnergyDataManager) : Prop :=
  0 <= percentage (battery (currentData m)) /\
  percentage (battery (currentData m)) <= 100.

(** The three arrays of a series all have [n] elements. *)
Definition series_lengths (s : Series) (n : nat) : Prop :=
  List.length (s_labels s) = n /\
  List.length (s_generation s) = n /\
  List.length (s_consumption s) = n.

(** Every period's series is exactly at its limit. *)
Definition history_full (m : EnergyDataManager) : Prop :=
  forall p, series_lengths (get_series (historicalData m) p) (maxPoints p).

(** A computation that does not read the clock. *)
Definition clock_free {A} (c : M A) : Prop :=
  forall w, clock_ix (snd (c w)) = clock_ix w.




(** Every device is switched off, one call for each device that is 'on'
    and two for the one that is 'auto'; then snapshots are generated for
    an hour. *)
Definition all_off : list Op :=
  [ OpToggleDevice "house1" "HVAC";
    OpToggleDevice "house1" "Water Heater";
    OpToggleDevice "house1" "Refrigerator";
    OpToggleDevice "house1" "Lighting";
    OpToggleDevice "house2" "HVAC";
    OpToggleDevice "house2" "Kitchen Appliances";
    OpToggleDevice "house3" "Heat Pump";
    OpToggleDevice "house3" "Electronics";
    OpToggleDevice "house3" "Outdoor Lighting";
    OpToggleDevice "house3" "Outdoor Lighting" ].

Definition idle_hour : list Op := all_off ++ repeat OpGenerateCurrentData 720.

(** The label of the last stored point, as [shouldUpdateData] reads it. *)
Definition lastLabel (m : EnergyDataManager) (p : Period) : option string :=
  hd_error (rev (s_labels (get_series (historicalData m) p))).

(* ================================================================== *)
(** ** Schedules, and the callers of the class in the other modules *)
(* ================================================================== *)

Definition set_schedules (m : EnergyDataManager) (l : list Schedule) :=
  mkManager (currentData m) (historicalData m) (householdData m)
            (alertsData m) (controlsData m) l.

(** [schedule.active = !schedule.active]. *)
Definition flip_active (s : Schedule) : Schedule :=
  mkSchedule (sch_id s) (sch_name s) (negb (sch_active s)) (sch_time s)
             (sch_action s) (sch_conditions s).

(** [schedules.find(s => s.id === scheduleId)], the found schedule
    flipped in place. *)
Fixpoint toggle_first_schedule (scheduleId : Z) (l : list Schedule)
    : option (list Schedule) :=
  match l with
  | [] => None
  | s :: r =>
      if (sch_id s =? scheduleId)%Z then Some (flip_active s :: r)
      else option_map (cons s) (toggle_first_schedule scheduleId r)
  end.

Definition toggleSchedule (m : EnergyDataManager) (scheduleId : Z)
    : bool * EnergyDataManager :=
  match toggle_first_schedule scheduleId (schedules m) with
  | Some l => (true, set_schedules m l)
  | None => (false, m)
  end.

(** The argument of [addSchedule]: the four fields the dialog of
    [js/control.js] collects, and an [id] when the caller's object has
    one, which the spread then puts in place of the clock's. *)
Record ScheduleSpec : Type := mkScheduleSpec {
  spec_id : option Z;
  spec_name : string;
  spec_time : string;
  spec_action : string;
  spec_conditions : string
}.

(** [{ id: Date.now(), ...schedule, active: true }], pushed and
    returned. *)
Definition addSchedule (rt : Runtime) (m : EnergyDataManager)
    (schedule : ScheduleSpec) : M (Schedule * EnergyDataManager) :=
  (now <- Date_now rt ;;
   let newSchedule :=
     mkSchedule (match spec_id schedule with Some i => i | None => now end)
                (spec_name schedule) true (spec_time schedule)
                (spec_action schedule) (spec_conditions schedule) in
   ret (newSchedule, set_schedules m (schedules m ++ [newSchedule])))%M.

(** [HouseholdManager.countActiveDevices]. *)
Definition countActiveDevices (hs : list Household) : nat :=
  fold_left
    (fun total h =>
       (total + List.length
                  (filter (fun d => String.eqb (dev_status d) "on")
                          (hh_devices h)))%nat)
    hs 0%nat.

(** [HouseholdManager.getTotalUsage]. *)
Definition getTotalUsage (hs : list Household) : Q :=
  round2 (fold_left (fun sum h => sum + hh_currentUsage h) hs 0).

(** [HouseholdManager.getFilteredHouseholds]; [selectedHousehold] is the
    field of the page. *)
Definition getFilteredHouseholds (selectedHousehold : string)
    (households : list Household) : list Household :=
  if String.eqb selectedHousehold "all" then households
  else filter (fun h => String.eqb (hh_id h) selectedHousehold) households.

(** The three figures [HouseholdManager.updateUsageOverview] shows. *)
Record UsageOverview : Type := mkOverview {
  ov_totalHouseholds : nat;
  ov_activeDevices : nat;
  ov_currentUsage : Q
}.

Definition updateUsageOverview (selectedHousehold : string)
    (m : EnergyDataManager) : UsageOverview :=
  let households := getFilteredHouseholds selectedHousehold (householdData m) in
  mkOverview (List.length households) (countActiveDevices households)
             (getTotalUsage households).

(** [ControlManager.getDeviceCount]. *)
Definition getDeviceCount (m : EnergyDataManager) : nat :=
  fold_left (fun total h => (total + List.length (hh_devices h))%nat)
            (householdData m) 0%nat.

(** The alerts [Dashboard.updateAlertBadge] counts: the badge shows their
    number and is displayed when there is one at least. *)
Definition activeAlerts (m : EnergyDataManager) : list Alert :=
  filter (fun a => negb (alert_dismissed a)) (alertsData m).

Definition badgeCount (m : EnergyDataManager) : nat :=
  List.length (activeAlerts m).

(** The inner loop of [ControlManager.handleEmergencyStop]. *)
Definition stopDevice (d : Device) : Device :=
  if String.eqb (dev_priority d) "low" then set_status d "off" else d.

(** [ControlManager.handleEmergencyStop]; [confirmed] is the answer to
    the confirmation dialog.  The households it walks are the manager's
    own objects, which [getHouseholdData] hands out in a shallow copy, so
    the assignments land in the manager. *)
Definition handleEmergencyStop (confirmed : bool) (m : EnergyDataManager)
    : EnergyDataManager :=
  if confirmed then
    let m1 := snd (updateControlSetting m (SetGridConnection false)) in
    let m2 := snd (updateControlSetting m1 (SetAutoLoadBalancing false)) in
    set_householdData m2
      (map (fun h => set_devices h (map stopDevice (hh_devices h)))
           (householdData m2))
  else m.

(** The 'efficiency' branch of [ChartManager.updateTrendsChart]: the
    value for the generation [gen] at index [i]; a consumption array that
    has no element there gives [undefined], for which the test is
    false. *)
Definition pointEfficiency (consumption : list Q) (i : nat) (gen : Q) : Q :=
  match nth_error consumption i with
  | Some cons_i =>
      if Qltb 0 cons_i then Math_min 100 ((gen / cons_i) * 100) else 0
  | None => 0
  end.

(** [generation.map((gen, i) => ...)], from index [i] on. *)
Fixpoint mapIndexed {A B} (f : nat -> A -> B) (i : nat) (l : list A) : list B :=
  match l with
  | [] => []
  | a :: r => f i a :: mapIndexed f (S i) r
  end.

(** The data set the trends chart is given for the type 'efficiency'. *)
Definition trendsEfficiencyData (m : EnergyDataManager) (period : Period)
    : list Q :=
  let data := rep_data (getReportData m period) in
  map round2
      (mapIndexed (pointEfficiency (s_consumption data)) 0 (s_generation data)).

(** [a - b] and [a >= b] on all numbers. *)
Definition num_sub (a b : Num) : Num :=
  match a, b with
  | NaN, _ | _, NaN => NaN
  | Fin x, Fin y => Fin (x - y)
  | PInf, PInf | NInf, NInf => NaN
  | PInf, _ | _, NInf => PInf
  | NInf, _ | _, PInf => NInf
  end.

Definition num_ge (a b : Num) : bool :=
  match a, b with
  | NaN, _ | _, NaN => false
  | Fin x, Fin y => Qle_bool y x
  | PInf, _ => true
  | _, NInf => true
  | _, _ => false
  end.

(** [ReportsManager.calculateTrend]. *)
Definition calculateTrend (current baseline : Num) : Num :=
  num_mul (num_div (num_sub current baseline) baseline) (Fin 100).

(** [ReportsManager.getEfficiencyRating]. *)
Definition getEfficiencyRating (efficiency : Num) : string :=
  if num_ge efficiency (Fin 90) then "Excellent"
  else if num_ge efficiency (Fin 80) then "Very Good"
  else if num_ge efficiency (Fin 70) then "Good"
  else if num_ge efficiency (Fin 60) then "Average"
  else "Needs Improvement".

(** The trend [ReportsManager.updatePerformanceSummary] shows for a
    period, and whether it is shown with a plus sign and in green. *)
Definition efficiencyTrend (m : EnergyDataManager) (period : Period) : Num :=
  calculateTrend (st_efficiency (statistics (getReportData m period))) (Fin 75).

Definition trendShownPositive (m : EnergyDataManager) (period : Period) : bool :=
  num_gt (efficiencyTrend m period) (Fin 0).

(** ** Predicates used in the further properties *)

(** The condition under which [checkAlerts] makes an alert of each
    title, on the snapshot [c]. *)
Definition alertCondition (c : Snapshot) (a : Alert) : Prop :=
  (alert_title a = "Critical Battery Level" /\ alert_type a = "critical" /\
   percentage (battery c) < 20)
  \/
  (alert_title a = "Low Battery Warning" /\ alert_type a = "warning" /\
   20 <= percentage (battery c) /\ percentage (battery c) < 30)
  \/
  (alert_title a = "High Grid Load" /\ alert_type a = "warning" /\
   80 < load (grid c)).


(** The number of devices of a list that are 'on'. *)
Definition activeIn (ds : list Device) : nat :=
  List.length (filter (fun d => String.eqb (dev_status d) "on") ds).

(** A snapshot gives a device a new power and nothing else. *)
Definition device_refreshed (d d' : Device) : Prop :=
  dev_name d' = dev_name d /\
  dev_status d' = dev_status d /\
  dev_priority d' = dev_priority d.

(** A snapshot keeps a household's identity and its devices, in their
    order, and sets its usage to the sum of the devices' new powers,
    rounded to 2 decimals. *)
Definition household_refreshed (h h' : Household) : Prop :=
  hh_id h' = hh_id h /\
  hh_name h' = hh_name h /\
  hh_status h' = hh_status h /\
  Forall2 device_refreshed (hh_devices h) (hh_devices h') /\
  hh_currentUsage h' = round2 (totalUsage (hh_devices h')).

(** The bounds of a refreshed device's power. *)
Definition power_in_bounds (d : Device) : Prop :=
  0 <= dev_power d /\ dev_power d <= 8 /\
  (dev_status d <> "on" -> dev_status d <> "auto" -> dev_power d = 0) /\
  (dev_status d = "auto" -> dev_power d <= 3 # 10).

(** What holds of a household after a snapshot. *)
Definition household_in_bounds (h : Household) : Prop :=
  0 <= hh_currentUsage h /\ Forall power_in_bounds (hh_devices h).

(** The stored percentage and the stored grid load are whole. *)
Definition whole_percentages (m : EnergyDataManager) : Prop :=
  exists p l : Z,
    (0 <= p <= 100)%Z /\ (0 <= l <= 100)%Z /\
    percentage (battery (currentData m)) = inject_Z p /\
    load (grid (currentData m)) = inject_Z l.

(** The ranges of the generation and consumption values that
    [initializePeriodData] draws. *)
Definition generation_plausible (g : Q) : Prop := 3 <= g /\ g <= 21.

Definition consumption_plausible (c : Q) : Prop := 4 <= c /\ c <= 11.

Definition series_plausible (s : Series) : Prop :=
  Forall generation_plausible (s_generation s) /\
  Forall consumption_plausible (s_consumption s).

(** What the emergency stop does to a device. *)
Definition device_stopped (d d' : Device) : Prop :=
  dev_name d' = dev_name d /\
  dev_power d' = dev_power d /\
  dev_priority d' = dev_priority d /\
  (dev_priority d = "low" -> dev_status d' = "off") /\
  (dev_priority d <> "low" -> dev_status d' = dev_status d).

(** The emergency stop keeps a household and stops its devices. *)
Definition household_stopped (h h' : Household) : Prop :=
  hh_id h' = hh_id h /\ hh_name h' = hh_name h /\
  hh_status h' = hh_status h /\ hh_currentUsage h' = hh_currentUsage h /\
  Forall2 device_stopped (hh_devices h) (hh_devices h').

(** Every low-priority device is off and draws nothing. *)
Definition low_priority_idle (h : Household) : Prop :=
  Forall (fun d => dev_priority d = "low" ->
                   dev_status d = "off" /\ dev_power d = 0)
         (hh_devices h).

(** Every low-priority device is off. *)
Definition low_priority_off (h : Household) : Prop :=
  Forall (fun d => dev_priority d = "low" -> dev_status d = "off")
         (hh_devices h).

(** The device lists' lengths, household by household. *)
Definition deviceCounts (hs : list Household) : list nat :=
  map (fun h => List.length (hh_devices h)) hs.

(* ================================================================== *)
(** * Properties *)
(* ================================================================== *)

Local Open Scope list_scope.

(** ** Arithmetic of the number model *)

Lemma Qltb_lt (x y : Q) : Qltb x y = true <-> x < y.
Proof.
  unfold Qltb. rewrite negb_true_iff.
  split; intro H.
  - apply Qnot_le_lt. intro Hle. apply Qle_bool_iff in Hle. congruence.
  - destruct (Qle_bool y x) eqn:E; [|reflexivity].
    apply Qle_bool_iff in E. exfalso. apply (Qlt_not_le _ _ H E).
Qed.

Lemma Qltb_ge (x y : Q) : Qltb x y = false <-> y <= x.
Proof.
  unfold Qltb. rewrite negb_false_iff. apply Qle_bool_iff.
Qed.

Lemma Qle_bool_false (x y : Q) : Qle_bool x y = false -> y < x.
Proof.
  intro H. apply Qnot_le_lt. intro Hle. apply Qle_bool_iff in Hle. congruence.
Qed.

Lemma Math_min_spec (x y : Q) :
  (x <= y /\ Math_min x y = x) \/ (y < x /\ Math_min x y = y).
Proof.
  unfold Math_min. destruct (Qle_bool x y) eqn:E.
  - left. split; [now apply Qle_bool_iff | reflexivity].
  - right. split; [now apply Qle_bool_false | reflexivity].
Qed.

Lemma Math_max_spec (x y : Q) :
  (x <= y /\ Math_max x y = y) \/ (y < x /\ Math_max x y = x).
Proof.
  unfold Math_max. destruct (Qle_bool x y) eqn:E.
  - left. split; [now apply Qle_bool_iff | reflexivity].
  - right. split; [now apply Qle_bool_false | reflexivity].
Qed.

Lemma Math_round_Z (z : Z) : Math_round (inject_Z z) = inject_Z z.
Proof.
  unfold Math_round. f_equal.
  assert (H1 : inject_Z z <= inject_Z z + (1 # 2)) by lra.
  assert (H2 : inject_Z z + (1 # 2) < inject_Z (z + 1)).
  { rewrite inject_Z_plus. change (inject_Z 1) with 1. lra. }
  pose proof (Qfloor_resp_le _ _ H1) as L1. rewrite Qfloor_Z in L1.
  pose proof (Qlt_floor (inject_Z z + (1 # 2))) as L2.
  pose proof (Qfloor_le (inject_Z z + (1 # 2))) as L3.
  assert (L4 : (inject_Z (Qfloor (inject_Z z + (1 # 2))) < inject_Z (z + 1))).
  { eapply Qle_lt_trans; eassumption. }
  rewrite <- Zlt_Qlt in L4. lia.
Qed.

Lemma Math_round_le (x y : Q) : x <= y -> Math_round x <= Math_round y.
Proof.
  intro H. unfold Math_round. rewrite <- Zle_Qle.
  apply Qfloor_resp_le. lra.
Qed.

Lemma Math_round_between (a b : Z) (x : Q) :
  inject_Z a <= x -> x <= inject_Z b ->
  inject_Z a <= Math_round x /\ Math_round x <= inject_Z b.
Proof.
  intros Ha Hb. split.
  - rewrite <- (Math_round_Z a). now apply Math_round_le.
  - rewrite <- (Math_round_Z b). now apply Math_round_le.
Qed.

Lemma Math_round_upper (x : Q) (b : Z) :
  x <= inject_Z b -> Math_round x <= inject_Z b.
Proof.
  intro H. rewrite <- (Math_round_Z b). now apply Math_round_le.
Qed.

Lemma Math_round_lower (x : Q) (a : Z) :
  inject_Z a <= x -> inject_Z a <= Math_round x.
Proof.
  intro H. rewrite <- (Math_round_Z a). now apply Math_round_le.
Qed.

Lemma round2_le (x y : Q) : x <= y -> round2 x <= round2 y.
Proof.
  intro H. unfold round2.
  assert (Hm : Math_round (x * 100) <= Math_round (y * 100))
    by (apply Math_round_le; lra).
  unfold Qdiv. change (/ 100) with (1 # 100). lra.
Qed.

Lemma Math_round_comp (x y : Q) : x == y -> Math_round x = Math_round y.
Proof.
  intro H. unfold Math_round. f_equal. apply Qfloor_comp. rewrite H. reflexivity.
Qed.

Lemma round2_Z (z : Z) : round2 (inject_Z z) == inject_Z z.
Proof.
  unfold round2.
  rewrite (Math_round_comp _ (inject_Z (z * 100))).
  - rewrite Math_round_Z, inject_Z_mult. change (inject_Z 100) with 100. field.
  - rewrite inject_Z_mult. reflexivity.
Qed.


(** ** Device toggling *)

Lemma toggle_in_devices_spec (deviceName : string) (ds : list Device) :
  match toggle_in_devices deviceName ds with
  | Some ds' =>
      exists ds1 d ds2,
        ds = ds1 ++ d :: ds2 /\
        (forall d', In d' ds1 -> dev_name d' <> deviceName) /\
        dev_name d = deviceName /\
        ds' = ds1 ++ set_status d (toggledStatus (dev_status d)) :: ds2
  | None => forall d, In d ds -> dev_name d <> deviceName
  end.
Proof.
  induction ds as [|d r IH]; simpl.
  - intros d [].
  - destruct (String.eqb (dev_name d) deviceName) eqn:E.
    + apply String.eqb_eq in E.
      exists [], d, r. simpl. repeat split; auto; intros ? [].
    + apply String.eqb_neq in E.
      destruct (toggle_in_devices deviceName r) as [r'|]; simpl.
      * destruct IH as (ds1 & d0 & ds2 & -> & Hpre & Hname & ->).
        exists (d :: ds1), d0, ds2. simpl. repeat split; auto.
        intros d' [<- | Hin]; auto.
      * intros d' [<- | Hin]; auto.
Qed.

Lemma toggle_in_households_spec (householdId deviceName : string)
    (hs : list Household) :
  match toggle_in_households householdId deviceName hs with
  | Some hs' =>
      exists hs1 h hs2 ds',
        hs = hs1 ++ h :: hs2 /\
        (forall h', In h' hs1 -> hh_id h' <> householdId) /\
        hh_id h = householdId /\
        toggle_in_devices deviceName (hh_devices h) = Some ds' /\
        hs' = hs1 ++ set_devices h ds' :: hs2
  | None =>
      (forall h, In h hs -> hh_id h <> householdId) \/
      (exists hs1 h hs2,
         hs = hs1 ++ h :: hs2 /\
         (forall h', In h' hs1 -> hh_id h' <> householdId) /\
         hh_id h = householdId /\
         toggle_in_devices deviceName (hh_devices h) = None)
  end.
Proof.
  induction hs as [|h r IH]; simpl.
  - left. intros h [].
  - destruct (String.eqb (hh_id h) householdId) eqn:E.
    + apply String.eqb_eq in E.
      destruct (toggle_in_devices deviceName (hh_devices h)) as [ds'|] eqn:T.
      * exists [], h, r, ds'. simpl. repeat split; auto; intros ? [].
      * right. exists [], h, r. simpl. repeat split; auto; intros ? [].
    + apply String.eqb_neq in E.
      destruct (toggle_in_households householdId deviceName r) as [r'|]; simpl.
      * destruct IH as (hs1 & h0 & hs2 & ds' & -> & Hpre & Hid & T & ->).
        exists (h :: hs1), h0, hs2, ds'. simpl. repeat split; auto.
        intros h' [<- | Hin]; auto.
      * destruct IH as [Hno | (hs1 & h0 & hs2 & -> & Hpre & Hid & T)].
        -- left. intros h' [<- | Hin]; auto.
        -- right. exists (h :: hs1), h0, hs2. simpl. repeat split; auto.
           intros h' [<- | Hin]; auto.
Qed.

Lemma toggledStatus_cases (s : string) :
  (s = "on" /\ toggledStatus s = "off") \/ (s <> "on" /\ toggledStatus s = "on").
Proof.
  unfold toggledStatus. destruct (String.eqb s "on") eqn:E.
  - left. apply String.eqb_eq in E. auto.
  - right. apply String.eqb_neq in E. auto.
Qed.

(** C9.  [toggleDevice] either finds the first household with the id and
    in it the first device with the name, returns [true] and yields the
    manager in which that one device has its status flipped: 'off' when
    it was 'on', and 'on' when it was anything else, so that the new
    status always differs from the old; the device's other fields, the
    devices before and after it, the households before and after it and
    every other field of the manager are the same.  Or there is no
    household with the id, or the first one has no device of the name,
    and it returns [false] with the manager unchanged. *)
Theorem toggleDevice_frame (m : EnergyDataManager)
    (householdId deviceName : string) :
  (exists hs1 h hs2 ds1 d ds2 status',
     householdData m = hs1 ++ h :: hs2 /\
     (forall h', In h' hs1 -> hh_id h' <> householdId) /\
     hh_id h = householdId /\
     hh_devices h = ds1 ++ d :: ds2 /\
     (forall d', In d' ds1 -> dev_name d' <> deviceName) /\
     dev_name d = deviceName /\
     (dev_status d = "on" -> status' = "off") /\
     (dev_status d <> "on" -> status' = "on") /\
     status' <> dev_status d /\
     toggleDevice m householdId deviceName =
       (true,
        mkManager (currentData m) (historicalData m)
          (hs1 ++
           mkHousehold (hh_id h) (hh_name h) (hh_status h) (hh_currentUsage h)
             (ds1 ++
              mkDevice (dev_name d) (dev_power d) status' (dev_priority d)
              :: ds2)
           :: hs2)
          (alertsData m) (controlsData m) (schedules m)))
  \/
  ((forall h, In h (householdData m) -> hh_id h <> householdId) /\
   toggleDevice m householdId deviceName = (false, m))
  \/
  (exists hs1 h hs2,
     householdData m = hs1 ++ h :: hs2 /\
     (forall h', In h' hs1 -> hh_id h' <> householdId) /\
     hh_id h = householdId /\
     (forall d, In d (hh_devices h) -> dev_name d <> deviceName) /\
     toggleDevice m householdId deviceName = (false, m)).
Proof.
  unfold toggleDevice.
  pose proof (toggle_in_households_spec householdId deviceName (householdData m))
    as H.
  destruct (toggle_in_households householdId deviceName (householdData m))
    as [hs'|].
  - left. destruct H as (hs1 & h & hs2 & ds' & Hhs & Hpre & Hid & T & ->).
    pose proof (toggle_in_devices_spec deviceName (hh_devices h)) as D.
    rewrite T in D. destruct D as (ds1 & d & ds2 & Hds & Hdpre & Hname & ->).
    exists hs1, h, hs2, ds1, d, ds2, (toggledStatus (dev_status d)).
    split; [exact Hhs|]. split; [exact Hpre|]. split; [exact Hid|].
    split; [exact Hds|]. split; [exact Hdpre|]. split; [exact Hname|].
    destruct (toggledStatus_cases (dev_status d)) as [[Hs ->] | [Hs ->]].
    + split; [reflexivity|]. split; [contradiction|].
      split; [rewrite Hs; discriminate|reflexivity].
    + split; [contradiction|]. split; [reflexivity|].
      split; [intro E; apply Hs; now rewrite <- E|reflexivity].
  - right. destruct H as [Hno | (hs1 & h & hs2 & Hhs & Hpre & Hid & T)].
    + left. split; auto.
    + right. exists hs1, h, hs2. repeat split; auto.
      pose proof (toggle_in_devices_spec deviceName (hh_devices h)) as D.
      rewrite T in D. exact D.
Qed.

Lemma toggledStatus_not_auto (s : string) : toggledStatus s <> "auto".
Proof.
  destruct (toggledStatus_cases s) as [[_ ->] | [_ ->]]; discriminate.
Qed.

Lemma toggle_in_devices_find (deviceName : string) (ds : list Device) :
  match find (fun d => String.eqb (dev_name d) deviceName) ds with
  | Some d =>
      exists ds',
        toggle_in_devices deviceName ds = Some ds' /\
        find (fun d => String.eqb (dev_name d) deviceName) ds'
          = Some (set_status d (toggledStatus (dev_status d)))
  | None => toggle_in_devices deviceName ds = None
  end.
Proof.
  induction ds as [|d r IH]; simpl; [reflexivity|].
  destruct (String.eqb (dev_name d) deviceName) eqn:E.
  - eexists; split; [reflexivity|]. simpl. rewrite E. reflexivity.
  - destruct (find _ r) as [d0|].
    + destruct IH as (r' & -> & F). eexists; split; [reflexivity|].
      simpl. rewrite E. exact F.
    + rewrite IH. reflexivity.
Qed.

Lemma toggleDevice_find (m : EnergyDataManager) (householdId deviceName : string) :
  match find_device m householdId deviceName with
  | Some d =>
      fst (toggleDevice m householdId deviceName) = true /\
      find_device (snd (toggleDevice m householdId deviceName))
                  householdId deviceName
        = Some (set_status d (toggledStatus (dev_status d)))
  | None => toggleDevice m householdId deviceName = (false, m)
  end.
Proof.
  unfold find_device, toggleDevice.
  induction (householdData m) as [|h r IH]; simpl; [reflexivity|].
  destruct (String.eqb (hh_id h) householdId) eqn:E.
  - pose proof (toggle_in_devices_find deviceName (hh_devices h)) as D.
    destruct (find _ (hh_devices h)) as [d|].
    + destruct D as (ds' & -> & F). simpl. rewrite E. simpl. auto.
    + rewrite D. reflexivity.
  - destruct (find (fun h0 => String.eqb (hh_id h0) householdId) r) as [h0|].
    + destruct (find _ (hh_devices h0)) as [d|].
      * destruct (toggle_in_households householdId deviceName r) as [r'|];
          simpl in *; [|destruct IH; discriminate].
        rewrite E. exact IH.
      * destruct (toggle_in_households householdId deviceName r) as [r'|];
          simpl in *; [inversion IH | reflexivity].
    + destruct (toggle_in_households householdId deviceName r) as [r'|];
        simpl in *; [inversion IH | reflexivity].
Qed.

Lemma toggle_in_devices_auto (deviceName : string) (ds ds' : list Device)
    (j : nat) :
  toggle_in_devices deviceName ds = Some ds' ->
  option_map dev_status (nth_error ds' j) = Some "auto" ->
  option_map dev_status (nth_error ds j) = Some "auto".
Proof.
  revert ds' j. induction ds as [|d r IH]; simpl; intros ds' j T H.
  - discriminate.
  - destruct (String.eqb (dev_name d) deviceName).
    + inversion T; subst ds'; clear T.
      destruct j as [|j]; simpl in *; [|exact H].
      inversion H as [Hs]. exfalso. exact (toggledStatus_not_auto _ Hs).
    + destruct (toggle_in_devices deviceName r) as [r'|]; simpl in T;
        [|discriminate].
      inversion T; subst ds'; clear T.
      destruct j as [|j]; simpl in *; [exact H|].
      apply (IH r' j); auto.
Qed.

Lemma toggle_in_households_auto (householdId deviceName : string)
    (hs hs' : list Household) (i j : nat) :
  toggle_in_households householdId deviceName hs = Some hs' ->
  match nth_error hs' i with
  | Some h => option_map dev_status (nth_error (hh_devices h) j)
  | None => None
  end = Some "auto" ->
  match nth_error hs i with
  | Some h => option_map dev_status (nth_error (hh_devices h) j)
  | None => None
  end = Some "auto".
Proof.
  revert hs' i. induction hs as [|h r IH]; simpl; intros hs' i T H.
  - discriminate.
  - destruct (String.eqb (hh_id h) householdId).
    + destruct (toggle_in_devices deviceName (hh_devices h)) as [ds'|] eqn:D;
        [|discriminate].
      inversion T; subst hs'; clear T.
      destruct i as [|i]; simpl in *; [|exact H].
      eapply toggle_in_devices_auto; eauto.
    + destruct (toggle_in_households householdId deviceName r) as [r'|];
        simpl in T; [|discriminate].
      inversion T; subst hs'; clear T.
      destruct i as [|i]; simpl in *; [exact H|].
      apply (IH r' i); auto.
Qed.

Lemma toggleDevice_auto (m : EnergyDataManager)
    (householdId deviceName : string) (i j : nat) :
  status_at (snd (toggleDevice m householdId deviceName)) i j = Some "auto" ->
  status_at m i j = Some "auto".
Proof.
  unfold toggleDevice, status_at.
  destruct (toggle_in_households householdId deviceName (householdData m))
    as [hs'|] eqn:T; simpl; [|auto].
  apply toggle_in_households_auto with (1 := T).
Qed.

(** C10.  On the device it finds, [toggleDevice] leaves the status 'off'
    exactly when it was 'on' and 'on' in every other case, so that 'auto'
    becomes 'on'; and a device whose status is not 'auto' does not have
    the status 'auto' after any sequence of [toggleDevice] calls. *)
Theorem toggleDevice_never_auto :
  (forall m householdId deviceName d,
     find_device m householdId deviceName = Some d ->
     exists d',
       find_device (snd (toggleDevice m householdId deviceName))
                   householdId deviceName = Some d' /\
       (dev_status d' = "off" <-> dev_status d = "on") /\
       (dev_status d <> "on" -> dev_status d' = "on") /\
       (dev_status d = "auto" -> dev_status d' = "on") /\
       dev_status d' <> "auto")
  /\
  (forall calls m i j,
     status_at m i j <> Some "auto" ->
     status_at (toggleDevices calls m) i j <> Some "auto").
Proof.
  split.
  - intros m householdId deviceName d F.
    pose proof (toggleDevice_find m householdId deviceName) as H.
    rewrite F in H. destruct H as [_ H].
    eexists; split; [exact H|]. simpl.
    destruct (toggledStatus_cases (dev_status d)) as [[Hs ->] | [Hs ->]].
    + repeat split; auto; try discriminate.
      * intro Hn; contradiction.
      * intro Ha; rewrite Ha in Hs; discriminate.
    + repeat split; auto; try discriminate.
      intro Ha; contradiction.
  - induction calls as [|c calls IH]; simpl; intros m i j H; [exact H|].
    apply IH. intro Ha. apply H. now apply toggleDevice_auto in Ha.
Qed.

(** ** The shape of a snapshot generation *)

Section Shapes.

Variable rt : Runtime.

Lemma solar_generation_value (hour : Z) (w : World) :
  fst (solar_generation rt hour w)
  = if hour_between 6 18 hour
    then Math_sin_pi rt (inject_Z (hour - 6) / 12)
         * (8 + Math_random rt (rand_ix w) * 4)
    else 0.
Proof.
  unfold solar_generation. destruct (hour_between 6 18 hour); reflexivity.
Qed.

Lemma updateHouseholdConsumption_shape (hour day : Z) (m : EnergyDataManager)
    (w : World) :
  exists hs,
    fst (updateHouseholdConsumption rt hour day m w) = set_householdData m hs.
Proof.
  unfold updateHouseholdConsumption, bind.
  destruct (mapM (updateHousehold rt hour) (householdData m) w) as [hs w'].
  exists hs. reflexivity.
Qed.

(** The locals are derived from the manager with refreshed households,
    the clock reading, a solar term that is zero outside the daylight
    hours, and a wind term drawn from one random number. *)
Lemma computeLocals_shape (m : EnergyDataManager) (w : World) :
  exists hs k k',
    let now := system_clock rt (clock_ix w) in
    let hour := getHours rt now in
    let solar :=
      if hour_between 6 18 hour
      then Math_sin_pi rt (inject_Z (hour - 6) / 12)
           * (8 + Math_random rt k * 4)
      else 0 in
    let wind := 3 + Math_random rt k' * 6 in
    fst (computeLocals rt m w)
    = (deriveLocals rt (set_householdData m hs) now solar wind,
       set_householdData m hs).
Proof.
  unfold computeLocals, bind, Date_now. simpl.
  set (now := system_clock rt (clock_ix w)).
  set (w0 := mkWorld (rand_ix w) (S (clock_ix w))).
  pose proof (solar_generation_value (getHours rt now) w0) as Hs.
  destruct (solar_generation rt (getHours rt now) w0) as [sol w1].
  simpl in Hs.
  set (w2 := mkWorld (S (rand_ix w1)) (clock_ix w1)).
  destruct (updateHouseholdConsumption_shape (getHours rt now)
              (getDay rt now) m w2) as [hs Hh].
  destruct (updateHouseholdConsumption rt (getHours rt now) (getDay rt now) m w2)
    as [m1 w3].
  simpl in Hh. subst m1. simpl.
  exists hs, (rand_ix w), (rand_ix w1). simpl. rewrite Hs. reflexivity.
Qed.

Lemma checkAlerts_shape (m : EnergyDataManager) (w : World) :
  exists alerts, fst (checkAlerts rt m w) = set_alertsData m alerts.
Proof.
  unfold checkAlerts, bind.
  destruct (batteryAlerts rt m w) as [a1 w1].
  destruct (gridAlerts rt m w1) as [a2 w2].
  eexists. reflexivity.
Qed.

Lemma generateCurrentData_shape (m : EnergyDataManager) (w : World) :
  exists rtemp alerts,
    let l := fst (fst (computeLocals rt m w)) in
    let m1 := snd (fst (computeLocals rt m w)) in
    fst (generateCurrentData rt m w)
    = set_alertsData
        (updateHistoricalData rt (set_currentData m1 (makeSnapshot m1 l rtemp)))
        alerts.
Proof.
  unfold generateCurrentData, bind.
  destruct (computeLocals rt m w) as [[l m1] w1]. simpl.
  destruct (checkAlerts_shape
              (updateHistoricalData rt
                 (set_currentData m1
                    (makeSnapshot m1 l (Math_random rt (rand_ix w1)))))
              (mkWorld (S (rand_ix w1)) (clock_ix w1))) as [alerts Ha].
  exists (Math_random rt (rand_ix w1)), alerts. exact Ha.
Qed.

Lemma updatePeriod_currentData (p : Period) (t : Z) (m : EnergyDataManager) :
  currentData (updatePeriod rt p t m) = currentData m.
Proof.
  unfold updatePeriod. destruct (shouldUpdateData rt m p t); reflexivity.
Qed.

Lemma updateHistoricalData_currentData (m : EnergyDataManager) :
  currentData (updateHistoricalData rt m) = currentData m.
Proof.
  unfold updateHistoricalData. now rewrite !updatePeriod_currentData.
Qed.

(** The snapshot a generation stores, in terms of its locals. *)
Lemma generateCurrentData_currentData (m : EnergyDataManager) (w : World) :
  exists rtemp,
    currentData (fst (generateCurrentData rt m w))
    = makeSnapshot (snd (fst (computeLocals rt m w)))
                   (fst (fst (computeLocals rt m w))) rtemp.
Proof.
  destruct (generateCurrentData_shape m w) as (rtemp & alerts & H).
  exists rtemp. simpl in H. rewrite H. simpl.
  now rewrite updateHistoricalData_currentData.
Qed.

(** An invariant that holds of the constructed manager and is kept by
    every call holds throughout a session. *)
Lemma session_invariant (I : EnergyDataManager -> Prop) :
  (forall w, I (fst (constructor rt w))) ->
  (forall op m w, I m -> I (fst (step rt op m w))) ->
  forall ops w, I (fst (session rt ops w)).
Proof.
  intros Hc Hs ops w. unfold session, bind.
  specialize (Hc w). destruct (constructor rt w) as [m w']. simpl in Hc.
  revert m w' Hc. induction ops as [|op ops IH]; simpl; intros m w' Hm.
  - exact Hm.
  - unfold bind. specialize (Hs op m w' Hm).
    destruct (step rt op m w') as [m' w'']. simpl in Hs. now apply IH.
Qed.

End Shapes.

(** ** Calls that leave the snapshot and the history alone *)

Lemma toggleDevice_fields (m : EnergyDataManager) (h d : string) :
  currentData (snd (toggleDevice m h d)) = currentData m /\
  historicalData (snd (toggleDevice m h d)) = historicalData m /\
  alertsData (snd (toggleDevice m h d)) = alertsData m /\
  controlsData (snd (toggleDevice m h d)) = controlsData m.
Proof.
  unfold toggleDevice.
  destruct (toggle_in_households h d (householdData m)); simpl; auto.
Qed.

Lemma updateControlSetting_fields (m : EnergyDataManager) (s : Setting) :
  currentData (snd (updateControlSetting m s)) = currentData m /\
  historicalData (snd (updateControlSetting m s)) = historicalData m /\
  alertsData (snd (updateControlSetting m s)) = alertsData m /\
  householdData (snd (updateControlSetting m s)) = householdData m.
Proof.
  destruct s; simpl; auto.
Qed.

Lemma dismissAlert_fields (m : EnergyDataManager) (a : Z) :
  currentData (snd (dismissAlert m a)) = currentData m /\
  historicalData (snd (dismissAlert m a)) = historicalData m /\
  householdData (snd (dismissAlert m a)) = householdData m /\
  controlsData (snd (dismissAlert m a)) = controlsData m.
Proof.
  unfold dismissAlert. destruct (dismiss_first a (alertsData m)); simpl; auto.
Qed.

Lemma constructor_shape (rt : Runtime) (w : World) :
  exists now h alerts,
    fst (constructor rt w)
    = mkManager (initialSnapshot now) h initialHouseholds alerts
                initialControls initialSchedules /\
    h = fst (initializeHistoricalData rt emptyHistorical
               (mkWorld (rand_ix w) (S (clock_ix w)))).
Proof.
  unfold constructor, bind, Date_now. simpl.
  destruct (initializeHistoricalData rt emptyHistorical
              (mkWorld (rand_ix w) (S (clock_ix w)))) as [h w1].
  simpl. do 3 eexists. split; reflexivity.
Qed.

(** ** Battery percentage *)

Lemma batteryStep_range (p n : Q) :
  0 <= p -> p <= 100 -> 0 <= batteryStep p n /\ batteryStep p n <= 100.
Proof.
  intros H0 H1. unfold batteryStep.
  destruct (Qltb 0 n) eqn:E1.
  - apply Qltb_lt in E1.
    destruct (Math_min_spec 100 (p + n * (1 # 10))) as [[Hc ->] | [Hc ->]];
      split; lra.
  - destruct (Qltb n 0) eqn:E2.
    + apply Qltb_lt in E2.
      destruct (Math_max_spec 0 (p + n * (1 # 10))) as [[Hc ->] | [Hc ->]];
        split; lra.
    + split; assumption.
Qed.

Lemma generateCurrentData_percentage (rt : Runtime) (m : EnergyDataManager)
    (w : World) :
  percentage_in_range m ->
  percentage_in_range (fst (generateCurrentData rt m w)).
Proof.
  intros [H0 H1]. unfold percentage_in_range.
  destruct (generateCurrentData_currentData rt m w) as [rtemp ->].
  destruct (computeLocals_shape rt m w) as (hs & k & k' & Hl).
  simpl in Hl. rewrite Hl. simpl.
  apply (Math_round_between 0 100); apply batteryStep_range; assumption.
Qed.

(** C7.  Whatever the runtime supplies (random numbers, clock, local
    time) and whatever calls are made, after construction and any
    sequence of calls the stored battery percentage lies in [0, 100]. *)
Theorem battery_percentage_clamped (rt : Runtime) (ops : list Op) (w : World) :
  0 <= percentage (battery (currentData (fst (session rt ops w)))) /\
  percentage (battery (currentData (fst (session rt ops w)))) <= 100.
Proof.
  apply (session_invariant rt percentage_in_range).
  - intro w0. destruct (constructor_shape rt w0) as (now & h & al & -> & _).
    unfold percentage_in_range. simpl. split; lra.
  - intros op m w0 Hm. destruct op; simpl.
    + now apply generateCurrentData_percentage.
    + unfold percentage_in_range.
      now rewrite (proj1 (toggleDevice_fields m householdId deviceName)).
    + unfold percentage_in_range.
      now rewrite (proj1 (updateControlSetting_fields m s)).
    + unfold percentage_in_range.
      now rewrite (proj1 (dismissAlert_fields m alertId)).
    + exact Hm.
    + exact Hm.
Qed.

(** ** Historical series *)

Lemma get_set_series (h : HistoricalData) (p q : Period) (s : Series) :
  get_series (set_series h p s) q
  = if match p, q with
       | P24h, P24h | P7d, P7d | P30d, P30d => true
       | _, _ => false
       end
    then s else get_series h q.
Proof.
  destruct p, q; reflexivity.
Qed.

Lemma get_set_series_same (h : HistoricalData) (p : Period) (s : Series) :
  get_series (set_series h p s) p = s.
Proof.
  destruct p; reflexivity.
Qed.

Section History.

Variable rt : Runtime.

Lemma initializeLoop_lengths (now : Z) (p : Period) (iv : Z) (n : nat) :
  forall acc k w,
    series_lengths acc k ->
    series_lengths (fst (initializeLoop rt now p iv n acc w)) (k + n).
Proof.
  induction n as [|n IH]; intros acc k w Hk; simpl.
  - now rewrite Nat.add_0_r.
  - unfold bind.
    destruct (initializePoint rt now p iv n acc w) as [acc' w'] eqn:E.
    replace (k + S n)%nat with (S k + n)%nat by lia.
    apply IH.
    unfold initializePoint, bind in E.
    destruct (solar_generation rt _ w) as [sg w1].
    destruct Hk as (La & Lb & Lc).
    simpl in E. inversion E; subst acc'; clear E.
    unfold series_lengths; simpl. rewrite !length_app; simpl. lia.
Qed.

Lemma initializePeriodData_series (p : Period) (points : nat) (iv : Z)
    (h : HistoricalData) (w : World) :
  exists s,
    fst (initializePeriodData rt p points iv h w) = set_series h p s /\
    series_lengths s points.
Proof.
  unfold initializePeriodData, bind, Date_now. simpl.
  pose proof (initializeLoop_lengths (system_clock rt (clock_ix w)) p iv points
                (mkSeries [] [] []) 0
                (mkWorld (rand_ix w) (S (clock_ix w)))) as H.
  destruct (initializeLoop rt (system_clock rt (clock_ix w)) p iv points
              (mkSeries [] [] []) (mkWorld (rand_ix w) (S (clock_ix w))))
    as [s w'].
  exists s. split; [reflexivity|]. apply H. repeat split.
Qed.

Lemma constructor_history_full (w : World) :
  history_full (fst (constructor rt w)).
Proof.
  destruct (constructor_shape rt w) as (now & h & al & -> & Hh).
  unfold history_full. cbn [historicalData]. subst h.
  unfold initializeHistoricalData, bind.
  set (w0 := mkWorld (rand_ix w) (S (clock_ix w))).
  destruct (initializePeriodData_series P24h 48 30 emptyHistorical w0)
    as (s1 & E1 & L1).
  destruct (initializePeriodData rt P24h 48 30 emptyHistorical w0) as [h1 w1].
  simpl in E1. subst h1.
  destruct (initializePeriodData_series P7d 168 60
              (set_series emptyHistorical P24h s1) w1) as (s2 & E2 & L2).
  destruct (initializePeriodData rt P7d 168 60 _ w1) as [h2 w2].
  simpl in E2. subst h2.
  destruct (initializePeriodData_series P30d 720 60
              (set_series (set_series emptyHistorical P24h s1) P7d s2) w2)
    as (s3 & E3 & L3).
  simpl in E3. simpl. rewrite E3. intros [| |]; simpl; assumption.
Qed.

(** What [addDataPoint] does to the series of its period: the oldest
    point leaves when the labels are at the limit, the new point goes to
    the end. *)
Lemma addDataPoint_series (m : EnergyDataManager) (p : Period) (t : Z) :
  let s := get_series (historicalData m) p in
  let s' := get_series (historicalData (addDataPoint rt m p t)) p in
  let full := (maxPoints p <=? List.length (s_labels s))%nat in
  s_labels s'
    = (if full then tl (s_labels s) else s_labels s)
      ++ [formatTimeForPeriod rt t p] /\
  s_generation s'
    = (if full then tl (s_generation s) else s_generation s)
      ++ [gen_total (generation (currentData m))] /\
  s_consumption s'
    = (if full then tl (s_consumption s) else s_consumption s)
      ++ [cons_total (consumption (currentData m))].
Proof.
  unfold addDataPoint. cbn [historicalData set_historicalData].
  rewrite get_set_series_same.
  destruct (maxPoints p <=? List.length (s_labels (get_series (historicalData m) p)))%nat;
    cbn [s_labels s_generation s_consumption]; auto.
Qed.

Lemma addDataPoint_other (m : EnergyDataManager) (p q : Period) (t : Z) :
  p <> q ->
  get_series (historicalData (addDataPoint rt m p t)) q
  = get_series (historicalData m) q.
Proof.
  intro H. unfold addDataPoint. simpl. rewrite get_set_series.
  destruct p, q; try reflexivity; contradiction.
Qed.

Lemma length_tl_app {A} (l : list A) (x : A) (n : nat) :
  List.length l = S n -> List.length (tl l ++ [x]) = S n.
Proof.
  destruct l; simpl; intro H; [discriminate|].
  rewrite length_app. simpl. lia.
Qed.

Lemma addDataPoint_full (m : EnergyDataManager) (p : Period) (t : Z) :
  history_full m -> history_full (addDataPoint rt m p t).
Proof.
  intros H q.
  assert (D : p = q \/ p <> q) by (destruct p, q; auto; right; discriminate).
  destruct D as [<- | Hne].
  - destruct (addDataPoint_series m p t) as (E1 & E2 & E3).
    destruct (H p) as (L1 & L2 & L3).
    unfold series_lengths. rewrite E1, E2, E3, L1, Nat.leb_refl.
    destruct p; simpl maxPoints in *;
      repeat split; apply length_tl_app; assumption.
  - rewrite addDataPoint_other by assumption. apply H.
Qed.

Lemma updateHistoricalData_full (m : EnergyDataManager) :
  history_full m -> history_full (updateHistoricalData rt m).
Proof.
  intro H. unfold updateHistoricalData, updatePeriod.
  repeat match goal with
  | |- context [if shouldUpdateData rt ?a ?b ?c then _ else _] =>
      destruct (shouldUpdateData rt a b c)
  end; repeat apply addDataPoint_full; assumption.
Qed.

Lemma step_history_full (op : Op) (m : EnergyDataManager) (w : World) :
  history_full m -> history_full (fst (step rt op m w)).
Proof.
  intro H. destruct op; simpl.
  - destruct (generateCurrentData_shape rt m w) as (rtemp & alerts & E).
    simpl in E. rewrite E. clear E.
    destruct (computeLocals_shape rt m w) as (hs & k & k' & Hl).
    simpl in Hl. rewrite Hl. simpl.
    unfold history_full. simpl.
    apply (updateHistoricalData_full
             (set_currentData (set_householdData m hs) _)).
    exact H.
  - unfold history_full.
    now rewrite (proj1 (proj2 (toggleDevice_fields m householdId deviceName))).
  - unfold history_full.
    now rewrite (proj1 (proj2 (updateControlSetting_fields m s))).
  - unfold history_full.
    now rewrite (proj1 (proj2 (dismissAlert_fields m alertId))).
  - exact H.
  - now apply addDataPoint_full.
Qed.

End History.

(** C6.  After construction and any sequence of calls, the labels,
    generation and consumption arrays of each period have the same
    length, which is the period's limit (48, 168, 720) and so never
    exceeds it; and an append to a series at its limit drops exactly the
    first element of each array and puts the new point last, the points
    in between keeping their order. *)
Theorem historical_series_bounded (rt : Runtime) :
  (forall ops w p,
     let s := get_series (historicalData (fst (session rt ops w))) p in
     List.length (s_labels s) = List.length (s_generation s) /\
     List.length (s_generation s) = List.length (s_consumption s) /\
     (List.length (s_labels s) <= maxPoints p)%nat /\
     maxPoints p = match p with P24h => 48 | P7d => 168 | P30d => 720 end%nat)
  /\
  (forall m p t,
     let s := get_series (historicalData m) p in
     let s' := get_series (historicalData (addDataPoint rt m p t)) p in
     (maxPoints p <= List.length (s_labels s))%nat ->
     s_labels s' = tl (s_labels s) ++ [formatTimeForPeriod rt t p] /\
     s_generation s'
       = tl (s_generation s) ++ [gen_total (generation (currentData m))] /\
     s_consumption s'
       = tl (s_consumption s) ++ [cons_total (consumption (currentData m))]).
Proof.
  split.
  - intros ops w p.
    assert (F : history_full (fst (session rt ops w))).
    { apply (session_invariant rt history_full).
      - apply constructor_history_full.
      - intros op m w0. apply step_history_full. }
    destruct (F p) as (L1 & L2 & L3). simpl.
    rewrite L1, L2, L3. repeat split; auto; destruct p; reflexivity.
  - intros m p t s s' Hfull.
    destruct (addDataPoint_series rt m p t) as (E1 & E2 & E3).
    apply Nat.leb_le in Hfull. fold s in E1, E2, E3. rewrite Hfull in *.
    auto.
Qed.

(** ** The stored snapshot and the locals it is built from *)

Lemma batteryHealthOf_spec (bp : Q) :
  (batteryHealthOf bp = Critical <-> bp < 10) /\
  (batteryHealthOf bp = Warning <-> 10 <= bp /\ bp < 30) /\
  (batteryHealthOf bp = Good <-> 30 <= bp).
Proof.
  unfold batteryHealthOf.
  destruct (Qltb bp 10) eqn:E1; [|destruct (Qltb bp 30) eqn:E2].
  - apply Qltb_lt in E1. repeat split; try discriminate; auto; intros; lra.
  - apply Qltb_ge in E1. apply Qltb_lt in E2.
    repeat split; try discriminate; auto; intros; lra.
  - apply Qltb_ge in E1. apply Qltb_ge in E2.
    repeat split; try discriminate; auto; intros; lra.
Qed.

Lemma gridStatusOf_spec (bp limit tc tg : Q) :
  gridStatusOf bp limit tc tg = ON <-> (bp < limit \/ tg + 2 < tc).
Proof.
  unfold gridStatusOf.
  destruct (Qltb bp limit) eqn:E1; simpl.
  - apply Qltb_lt in E1. split; auto.
  - destruct (Qltb (tg + 2) tc) eqn:E2.
    + apply Qltb_lt in E2. split; auto.
    + apply Qltb_ge in E1. apply Qltb_ge in E2.
      split; [discriminate|]. intros [H | H]; lra.
Qed.

(** C4, as the code has it.  The health stored with a snapshot is
    decided by the battery percentage before it is rounded for storage:
    'Critical' exactly when that value is below 10, 'Warning' exactly when
    it is in [10, 30), 'Good' exactly when it is 30 or more.  The stored
    percentage is that value rounded to the nearest integer, so it is at
    most 10 when the health is 'Critical', in [10, 30] when it is
    'Warning' and at least 30 when it is 'Good'. *)
Theorem battery_health_of_unrounded (rt : Runtime) (m : EnergyDataManager)
    (w : World) :
  let bp := l_batteryPercentage (fst (fst (computeLocals rt m w))) in
  let b := battery (currentData (fst (generateCurrentData rt m w))) in
  percentage b = Math_round bp /\
  (health b = Critical <-> bp < 10) /\
  (health b = Warning <-> 10 <= bp /\ bp < 30) /\
  (health b = Good <-> 30 <= bp) /\
  (health b = Critical -> percentage b <= 10) /\
  (health b = Warning -> 10 <= percentage b /\ percentage b <= 30) /\
  (health b = Good -> 30 <= percentage b).
Proof.
  intros bp b. subst b.
  destruct (generateCurrentData_currentData rt m w) as [rtemp ->].
  destruct (computeLocals_shape rt m w) as (hs & k & k' & Hl).
  simpl in Hl. subst bp. rewrite Hl. simpl.
  set (bp := batteryStep _ _).
  destruct (batteryHealthOf_spec bp) as (Hc & Hw & Hg).
  split; [reflexivity|]. split; [exact Hc|]. split; [exact Hw|].
  split; [exact Hg|].
  split; [|split].
  - intro H. apply Hc in H. apply (Math_round_upper bp 10).
    change (bp <= 10). lra.
  - intro H. apply Hw in H. destruct H as [H1 H2]. split.
    + apply (Math_round_lower bp 10). exact H1.
    + apply (Math_round_upper bp 30). change (bp <= 30). lra.
  - intro H. apply Hg in H. apply (Math_round_lower bp 30). exact H.
Qed.

(** C5, as the code has it.  The grid status stored with a snapshot is
    'ON' exactly when the battery percentage before rounding is below the
    configured [batteryDischargeLimit], or the unrounded total
    consumption exceeds the unrounded total generation by more than 2;
    otherwise it is 'OFF', and then the stored grid load is 0. *)
Theorem grid_status_of_unrounded (rt : Runtime) (m : EnergyDataManager)
    (w : World) :
  let l := fst (fst (computeLocals rt m w)) in
  let g := grid (currentData (fst (generateCurrentData rt m w))) in
  let limit := batteryDischargeLimit (energyLimits (controlsData m)) in
  (grid_status g = ON <->
     (l_batteryPercentage l < limit \/
      l_totalGeneration l + 2 < l_totalConsumption l)) /\
  (grid_status g <> ON -> grid_status g = OFF /\ load g == 0) /\
  l_totalGeneration l = l_solar l + l_wind l /\
  l_totalConsumption l
    = getTotalHouseholdConsumption (snd (fst (computeLocals rt m w))).
Proof.
  intros l g limit. subst l g limit.
  destruct (generateCurrentData_currentData rt m w) as [rtemp ->].
  destruct (computeLocals_shape rt m w) as (hs & k & k' & Hl).
  simpl in Hl. rewrite Hl. simpl.
  split; [apply gridStatusOf_spec|].
  split; [|split; reflexivity].
  destruct (gridStatusOf _ _ _ _); simpl.
  - intro H. contradiction.
  - intros _. split; [reflexivity|]. reflexivity.
Qed.

(** C4, counterexample.  At 23:00, with the vehicle of house 2 switched
    on, the battery discharges by about one point per snapshot.  The 54th
    snapshot starts from a stored 11 and computes 9.714: the health is
    'Critical', and the percentage stored with it is 10, which is not
    below 10. *)
Lemma battery_health_stored_counterexample :
  let ops := OpToggleDevice "house2" "Electric Vehicle"
             :: repeat OpGenerateCurrentData 53 in
  let before := session Sample.night_runtime ops Sample.world0 in
  let l := fst (fst (computeLocals Sample.night_runtime (fst before) (snd before))) in
  let m := fst (generateCurrentData Sample.night_runtime (fst before) (snd before)) in
  fst (session Sample.night_runtime (ops ++ [OpGenerateCurrentData]) Sample.world0) = m /\
  percentage (battery (currentData (fst before))) == 11 /\
  l_batteryPercentage l == 9714 # 1000 /\
  health (battery (currentData m)) = Critical /\
  percentage (battery (currentData m)) == 10 /\
  ~ percentage (battery (currentData m)) < 10.
Proof.
  vm_compute. repeat split; intro H; discriminate H.
Qed.

(** C5, counterexample.  With the discharge limit set to 75, the second
    snapshot after construction computes a battery percentage of 74.842,
    below the limit, and so stores the grid status 'ON'; the percentage
    stored with it is 75, which is not below the limit, and the stored
    consumption (14.06) does not exceed the stored generation (12.48) by
    more than 2. *)
Lemma grid_status_stored_counterexample :
  let ops := [OpUpdateControlSetting (SetBatteryDischargeLimit 75);
              OpGenerateCurrentData; OpGenerateCurrentData] in
  let m := fst (session Sample.runtime ops Sample.world0) in
  let c := currentData m in
  grid_status (grid c) = ON /\
  batteryDischargeLimit (energyLimits (controlsData m)) == 75 /\
  percentage (battery c) == 75 /\
  cons_total (consumption c) == 1406 # 100 /\
  gen_total (generation c) == 1248 # 100 /\
  ~ (percentage (battery c)
       < batteryDischargeLimit (energyLimits (controlsData m))
     \/ gen_total (generation c) + 2 < cons_total (consumption c)).
Proof.
  vm_compute. repeat split. intros [H | H]; discriminate H.
Qed.

(** ** Generation components *)

Lemma hour_between_spec (a b hour : Z) :
  hour_between a b hour = true <-> (a <= hour /\ hour <= b)%Z.
Proof.
  unfold hour_between. rewrite andb_true_iff, !Z.leb_le. tauto.
Qed.

Lemma daylight_fraction (hour : Z) :
  (6 <= hour)%Z -> (hour <= 18)%Z ->
  0 <= inject_Z (hour - 6) / 12 /\ inject_Z (hour - 6) / 12 <= 1.
Proof.
  intros H1 H2.
  assert (A : inject_Z 0 <= inject_Z (hour - 6)) by (rewrite <- Zle_Qle; lia).
  assert (B : inject_Z (hour - 6) <= inject_Z 12) by (rewrite <- Zle_Qle; lia).
  change (inject_Z 0) with 0 in A. change (inject_Z 12) with 12 in B.
  unfold Qdiv. change (/ 12) with (1 # 12). split; lra.
Qed.

Lemma round2_lower (x : Q) (a : Z) : inject_Z a <= x -> inject_Z a <= round2 x.
Proof.
  intro H. rewrite <- (round2_Z a). now apply round2_le.
Qed.

Lemma round2_upper (x : Q) (b : Z) : x <= inject_Z b -> round2 x <= inject_Z b.
Proof.
  intro H. rewrite <- (round2_Z b). now apply round2_le.
Qed.

(** C8, as the code has it.  Given random numbers in [0, 1) and a sine
    in [0, 1] on the half period: the stored total is the unrounded solar
    plus the unrounded wind, rounded to 2 decimals, and the stored solar
    and wind are the unrounded ones rounded to 2 decimals, both
    non-negative; the solar term is exactly 0 when the hour is outside
    [6, 18] and in [0, 12] when it is inside; the wind is in [3, 9],
    unrounded and stored, the upper end included. *)
Theorem generation_components (rt : Runtime) (m : EnergyDataManager)
    (w : World) :
  random_in_range rt ->
  sine_in_range rt ->
  let l := fst (fst (computeLocals rt m w)) in
  let g := generation (currentData (fst (generateCurrentData rt m w))) in
  let hour := getHours rt (system_clock rt (clock_ix w)) in
  gen_total g = round2 (l_solar l + l_wind l) /\
  solar g = round2 (l_solar l) /\
  wind g = round2 (l_wind l) /\
  0 <= solar g /\ 0 <= wind g /\
  ((hour < 6 \/ 18 < hour)%Z -> l_solar l = 0 /\ solar g == 0) /\
  ((6 <= hour /\ hour <= 18)%Z ->
     0 <= l_solar l /\ l_solar l <= 12 /\ solar g <= 12) /\
  3 <= l_wind l /\ l_wind l <= 9 /\
  3 <= wind g /\ wind g <= 9.
Proof.
  intros Hr Hs l g hour. subst l g hour.
  destruct (generateCurrentData_currentData rt m w) as [rtemp ->].
  destruct (computeLocals_shape rt m w) as (hs & k & k' & Hl).
  simpl in Hl. rewrite Hl. simpl. clear Hl.
  set (hour := getHours rt (system_clock rt (clock_ix w))).
  set (sol := if hour_between 6 18 hour then _ else _).
  set (wnd := 3 + Math_random rt k' * 6).
  destruct (Hr k) as [Rk0 Rk1]. destruct (Hr k') as [Rk'0 Rk'1].
  assert (Hw : 3 <= wnd /\ wnd <= 9) by (subst wnd; split; lra).
  assert (Hsol : 0 <= sol /\ sol <= 12).
  { subst sol. destruct (hour_between 6 18 hour) eqn:E.
    - apply hour_between_spec in E. destruct E as [E1 E2].
      destruct (daylight_fraction hour E1 E2) as [F0 F1].
      destruct (Hs _ F0 F1) as [S0 S1].
      set (s := Math_sin_pi rt _) in *.
      set (r := Math_random rt k) in *.
      split; nra.
    - split; lra. }
  split; [reflexivity|]. split; [reflexivity|]. split; [reflexivity|].
  split; [apply (round2_lower sol 0); tauto|].
  split; [apply (round2_lower wnd 0); change (0 <= wnd); lra|].
  split.
  { intros Hout. assert (E : hour_between 6 18 hour = false).
    { destruct (hour_between 6 18 hour) eqn:E; [|reflexivity].
      apply hour_between_spec in E. lia. }
    subst sol. rewrite E. split; [reflexivity|]. vm_compute. reflexivity. }
  split.
  { intros _. split; [tauto|]. split; [tauto|].
    apply (round2_upper sol 12). tauto. }
  split; [tauto|]. split; [tauto|].
  split.
  - apply (round2_lower wnd 3). tauto.
  - apply (round2_upper wnd 9). change (wnd <= 9). lra.
Qed.

(** *** The concrete runtime meets the assumptions *)

Lemma sample_random_in_range (clk : nat -> Z) :
  random_in_range (Sample.runtime_with Sample.random_numbers clk).
Proof.
  intro n. simpl. unfold Sample.random_numbers.
  pose proof (Z.mod_pos_bound (37 * Z.of_nat n + 11) 100 eq_refl) as [H0 H1].
  assert (A : inject_Z 0 <= inject_Z ((37 * Z.of_nat n + 11) mod 100))
    by (rewrite <- Zle_Qle; exact H0).
  assert (B : inject_Z ((37 * Z.of_nat n + 11) mod 100) < inject_Z 100)
    by (rewrite <- Zlt_Qlt; exact H1).
  change (inject_Z 0) with 0 in A. change (inject_Z 100) with 100 in B.
  unfold Qdiv. change (/ 100) with (1 # 100). split; lra.
Qed.

Lemma high_random_in_range (clk : nat -> Z) :
  random_in_range (Sample.runtime_with Sample.high_numbers clk).
Proof.
  intro n. simpl. unfold Sample.high_numbers. split; lra.
Qed.

Lemma sample_sine_in_range (rnd : nat -> Q) (clk : nat -> Z) :
  sine_in_range (Sample.runtime_with rnd clk).
Proof.
  intros x H0 H1. simpl. unfold Sample.sin_pi.
  assert (Hy0 : 0 <= x * (1 - x)) by (apply Qmult_le_0_compat; lra).
  assert (Hy1 : 0 <= (x - (1 # 2)) * (x - (1 # 2))).
  { destruct (Qlt_le_dec x (1 # 2)).
    - setoid_replace ((x - (1 # 2)) * (x - (1 # 2)))
        with (((1 # 2) - x) * ((1 # 2) - x)) by ring.
      apply Qmult_le_0_compat; lra.
    - apply Qmult_le_0_compat; lra. }
  assert (Hd : 0 < 5 - 4 * x * (1 - x)) by lra.
  split.
  - apply Qle_shift_div_l; [exact Hd|]. lra.
  - apply Qle_shift_div_r; [exact Hd|]. lra.
Qed.

(** C8, witness: the first snapshot after construction on the concrete
    runtime. *)
Lemma generation_components_witness :
  let rt := Sample.runtime in
  let m := fst (constructor rt Sample.world0) in
  let w := snd (constructor rt Sample.world0) in
  random_in_range rt /\
  sine_in_range rt /\
  (let l := fst (fst (computeLocals rt m w)) in
   let g := generation (currentData (fst (generateCurrentData rt m w))) in
   let hour := getHours rt (system_clock rt (clock_ix w)) in
   gen_total g = round2 (l_solar l + l_wind l) /\
   solar g = round2 (l_solar l) /\
   wind g = round2 (l_wind l) /\
   0 <= solar g /\ 0 <= wind g /\
   ((hour < 6 \/ 18 < hour)%Z -> l_solar l = 0 /\ solar g == 0) /\
   ((6 <= hour /\ hour <= 18)%Z ->
      0 <= l_solar l /\ l_solar l <= 12 /\ solar g <= 12) /\
   3 <= l_wind l /\ l_wind l <= 9 /\
   3 <= wind g /\ wind g <= 9).
Proof.
  intros rt m w.
  split; [apply sample_random_in_range|].
  split; [apply sample_sine_in_range|].
  exact (generation_components rt m w
           (sample_random_in_range Sample.clock)
           (sample_sine_in_range Sample.random_numbers Sample.clock)).
Defined.

(** The approximation of the sine is exact where the sine is rational:
    at the hours 6, 8, 12, 16 and 18. *)
Lemma sin_pi_exact :
  Sample.sin_pi 0 == 0 /\ Sample.sin_pi (1 # 6) == 1 # 2 /\
  Sample.sin_pi (1 # 2) == 1 /\ Sample.sin_pi (5 # 6) == 1 # 2 /\
  Sample.sin_pi 1 == 0.
Proof. vm_compute. repeat split. Qed.

(** C8, counterexample.  At 12:00, where the sine is exactly 1, with
    every random number 0.9993: the unrounded solar 11.9972 is stored as
    12.00 and the unrounded wind 8.9958 as 9.00, which is not below 9;
    and the stored total 20.99 is not the sum of the stored solar and
    the stored wind rounded to 2 decimals, which is 21.00. *)
Lemma generation_stored_counterexample :
  let rt := Sample.high_noon_runtime in
  let s := constructor rt Sample.world0 in
  let l := fst (fst (computeLocals rt (fst s) (snd s))) in
  let m := fst (session rt [OpGenerateCurrentData] Sample.world0) in
  let g := generation (currentData m) in
  random_in_range rt /\
  sine_in_range rt /\
  l_hour l = 12%Z /\
  Math_sin_pi rt (inject_Z (l_hour l - 6) / 12) == 1 /\
  l_solar l == 119972 # 10000 /\
  l_wind l == 89958 # 10000 /\
  solar g == 12 /\
  wind g == 9 /\
  ~ wind g < 9 /\
  gen_total g == 2099 # 100 /\
  round2 (solar g + wind g) == 21 /\
  ~ gen_total g == round2 (solar g + wind g).
Proof.
  split; [apply high_random_in_range|].
  split; [apply sample_sine_in_range|].
  vm_compute. repeat split; intro H; discriminate H.
Qed.

(** ** Alerts *)

Lemma clock_free_ret {A} (a : A) : clock_free (ret a).
Proof. intro w. reflexivity. Qed.

Lemma clock_free_bind {A B} (c : M A) (k : A -> M B) :
  clock_free c -> (forall a, clock_free (k a)) -> clock_free (bind c k).
Proof.
  intros Hc Hk w. unfold bind. specialize (Hc w).
  destruct (c w) as [a w']. simpl in Hc. rewrite Hk. exact Hc.
Qed.

Lemma clock_free_random (rt : Runtime) : clock_free (random rt).
Proof. intro w. reflexivity. Qed.

Lemma clock_free_mapM {A B} (f : A -> M B) (l : list A) :
  (forall a, clock_free (f a)) -> clock_free (mapM f l).
Proof.
  intro Hf. induction l as [|a r IH]; simpl.
  - apply clock_free_ret.
  - apply clock_free_bind; [apply Hf|]. intro b.
    apply clock_free_bind; [exact IH|]. intro bs. apply clock_free_ret.
Qed.

Ltac clock_free_tac :=
  repeat first
    [ apply clock_free_ret
    | apply clock_free_random
    | apply clock_free_bind; [|intro]
    | match goal with
      | |- clock_free (if ?b then _ else _) => destruct b
      end ].

Lemma clock_free_devicePower (rt : Runtime) (hour : Z) (d : Device) :
  clock_free (devicePower rt hour d).
Proof. unfold devicePower. clock_free_tac. Qed.

Lemma clock_free_updateHouseholdConsumption (rt : Runtime) (hour day : Z)
    (m : EnergyDataManager) :
  clock_free (updateHouseholdConsumption rt hour day m).
Proof.
  unfold updateHouseholdConsumption.
  apply clock_free_bind; [|intro; apply clock_free_ret].
  apply clock_free_mapM. intro h. unfold updateHousehold.
  apply clock_free_bind; [|intro; apply clock_free_ret].
  apply clock_free_mapM. intro d. unfold updateDevice.
  apply clock_free_bind; [|intro; apply clock_free_ret].
  apply clock_free_devicePower.
Qed.

Lemma computeLocals_clock (rt : Runtime) (m : EnergyDataManager) (w : World) :
  clock_ix (snd (computeLocals rt m w)) = S (clock_ix w).
Proof.
  unfold computeLocals, bind at 1, Date_now.
  match goal with
  | |- clock_ix (snd (?c ?w0)) = _ =>
      assert (F : clock_free c); [|exact (F w0)]
  end.
  apply clock_free_bind.
  - unfold solar_generation. clock_free_tac.
  - intro sol.
    apply clock_free_bind; [apply clock_free_random|]. intro rw.
    apply clock_free_bind; [apply clock_free_updateHouseholdConsumption|].
    intro m1. apply clock_free_ret.
Qed.



Lemma updatePeriod_alertsData (rt : Runtime) (p : Period) (t : Z)
    (m : EnergyDataManager) :
  alertsData (updatePeriod rt p t m) = alertsData m.
Proof.
  unfold updatePeriod. destruct (shouldUpdateData rt m p t); reflexivity.
Qed.

(** A generation ends with [checkAlerts] on a manager that holds the new
    snapshot and the alerts as they were, two clock readings after the
    generation began. *)
Lemma generateCurrentData_checkAlerts (rt : Runtime) (m : EnergyDataManager)
    (w : World) :
  exists m' w',
    generateCurrentData rt m w = checkAlerts rt m' w' /\
    alertsData m' = alertsData m /\
    currentData m' = currentData (fst (generateCurrentData rt m w)) /\
    clock_ix w' = S (clock_ix w).
Proof.
  pose proof (computeLocals_clock rt m w) as Hc.
  pose proof (computeLocals_shape rt m w) as (hs & k & k' & Hl).
  unfold generateCurrentData, bind.
  destruct (computeLocals rt m w) as [[l m1] w1]. simpl in *.
  injection Hl as El Em. subst l m1.
  eexists. eexists. split; [reflexivity|].
  split; [|split].
  - unfold updateHistoricalData. rewrite !updatePeriod_alertsData. reflexivity.
  - match goal with
    | |- _ = currentData (fst (checkAlerts rt ?a ?b)) =>
        destruct (checkAlerts_shape rt a b) as [al ->]
    end. reflexivity.
  - simpl. exact Hc.
Qed.


Lemma cons_neq {A} (a : A) (l : list A) : a :: l <> l.
Proof.
  intro H. apply (f_equal (@List.length A)) in H. simpl in H. lia.
Qed.






Lemma batteryAlerts_elements (rt : Runtime) (m : EnergyDataManager) (w : World) :
  (List.length (fst (batteryAlerts rt m w)) <= 1)%nat /\
  forall a, In a (fst (batteryAlerts rt m w)) ->
            alert_dismissed a = false /\ alertCondition (currentData m) a.
Proof.
  unfold batteryAlerts, alertCondition.
  destruct (Qltb (percentage (battery (currentData m))) 20) eqn:E1;
    [|destruct (Qltb (percentage (battery (currentData m))) 30) eqn:E2];
    simpl.
  - apply Qltb_lt in E1. split; [lia|]. intros a [<- | []]. simpl.
    split; [reflexivity|]. left. repeat split; auto.
  - apply Qltb_ge in E1. apply Qltb_lt in E2.
    split; [lia|]. intros a [<- | []]. simpl.
    split; [reflexivity|]. right. left. repeat split; auto.
  - split; [lia|]. intros a [].
Qed.

Lemma gridAlerts_elements (rt : Runtime) (m : EnergyDataManager) (w : World) :
  (List.length (fst (gridAlerts rt m w)) <= 1)%nat /\
  forall a, In a (fst (gridAlerts rt m w)) ->
            alert_dismissed a = false /\ alertCondition (currentData m) a.
Proof.
  unfold gridAlerts, alertCondition.
  destruct (Qltb 80 (load (grid (currentData m)))) eqn:E; simpl.
  - apply Qltb_lt in E. split; [lia|]. intros a [<- | []]. simpl.
    split; [reflexivity|]. right. right. repeat split; auto.
  - split; [lia|]. intros a [].
Qed.












(** ** Report statistics *)

Lemma length_num_div {A} (x : Q) (l : list A) :
  l <> [] ->
  0 < inject_Z (Z.of_nat (List.length l)) /\
  num_div (Fin x) (length_num l)
    = Fin (x / inject_Z (Z.of_nat (List.length l))).
Proof.
  intro H.
  assert (P : 0 < inject_Z (Z.of_nat (List.length l))).
  { change 0 with (inject_Z 0). rewrite <- Zlt_Qlt.
    destruct l; [contradiction|]. simpl List.length. lia. }
  split; [exact P|].
  unfold length_num, num_div.
  destruct (Qeq_bool (inject_Z (Z.of_nat (List.length l))) 0) eqn:E;
    [|reflexivity].
  apply Qeq_bool_iff in E. rewrite E in P. exfalso. exact (Qlt_irrefl 0 P).
Qed.

Lemma length_nonempty {A} (l : list A) (n : nat) :
  List.length l = S n -> l <> [].
Proof.
  intros H E. rewrite E in H. discriminate.
Qed.

(** C3, what the code does.  The test before the efficiency ratio is on
    the average generation, not on the divisor: over a series that is not
    empty, whose consumption sums to zero and whose generation sums to
    more than zero, the reported efficiency is plus infinity.  Over an
    empty series both averages are NaN and both peaks are minus
    infinity. *)
Theorem report_statistics_unguarded (m : EnergyDataManager) (p : Period) :
  let d := getHistoricalData m p in
  let st := statistics (getReportData m p) in
  (s_generation d <> [] ->
   s_consumption d <> [] ->
   sum_reduce (s_consumption d) == 0 ->
   0 < sum_reduce (s_generation d) ->
   st_efficiency st = PInf)
  /\
  (s_generation d = [] ->
   s_consumption d = [] ->
   avgGeneration st = NaN /\ avgConsumption st = NaN /\
   peakGeneration st = NInf /\ peakConsumption st = NInf).
Proof.
  intros d st. subst st. unfold getReportData. fold d.
  cbn [statistics st_efficiency avgGeneration avgConsumption
       peakGeneration peakConsumption].
  split.
  - intros Hg Hc Hzero Hpos.
    destruct (length_num_div (sum_reduce (s_generation d)) _ Hg) as [Pg ->].
    destruct (length_num_div (sum_reduce (s_consumption d)) _ Hc) as [Pc ->].
    set (ng := inject_Z (Z.of_nat (List.length (s_generation d)))) in *.
    set (nc := inject_Z (Z.of_nat (List.length (s_consumption d)))) in *.
    assert (Ag : 0 < sum_reduce (s_generation d) / ng).
    { apply Qlt_shift_div_l; [exact Pg|]. lra. }
    assert (Ac : sum_reduce (s_consumption d) / nc == 0).
    { rewrite Hzero. unfold Qdiv. ring. }
    apply Qltb_lt in Ag. apply Qeq_bool_iff in Ac.
    cbn [num_gt]. rewrite Ag. cbn [num_div]. rewrite Ac, Ag.
    reflexivity.
  - intros Hg Hc. rewrite Hg, Hc. vm_compute. auto.
Qed.

(** C3, witness: on the concrete runtime, after every device has been
    switched off and an hour of snapshots, the '30d' report has the
    efficiency plus infinity. *)
Lemma report_statistics_witness :
  let m := fst (session Sample.runtime idle_hour Sample.world0) in
  let d := getHistoricalData m P30d in
  s_generation d <> [] /\
  s_consumption d <> [] /\
  sum_reduce (s_consumption d) == 0 /\
  0 < sum_reduce (s_generation d) /\
  st_efficiency (statistics (getReportData m P30d)) = PInf.
Proof.
  intros m d.
  assert (Hl : List.length (s_generation d) = 720%nat
               /\ List.length (s_consumption d) = 720%nat)
    by (vm_compute; split; reflexivity).
  destruct Hl as [Lg Lc].
  pose proof (length_nonempty _ 719 Lg) as Hg.
  pose proof (length_nonempty _ 719 Lc) as Hc.
  assert (Hz : sum_reduce (s_consumption d) == 0)
    by (vm_compute; reflexivity).
  assert (Hp : 0 < sum_reduce (s_generation d))
    by (vm_compute; reflexivity).
  split; [exact Hg|]. split; [exact Hc|]. split; [exact Hz|].
  split; [exact Hp|].
  exact (proj1 (report_statistics_unguarded m P30d) Hg Hc Hz Hp).
Defined.

(** ** Append cadence *)

Lemma shouldUpdateData_spec (rt : Runtime) (m : EnergyDataManager) (p : Period)
    (l : string) (t : Z) :
  lastLabel m p = Some l ->
  (shouldUpdateData rt m p t = true <->
   exists t0, Date_parse rt l = Some t0 /\ (cadence p <= t - t0)%Z).
Proof.
  unfold lastLabel, shouldUpdateData. intro H.
  destruct (rev (s_labels (get_series (historicalData m) p))) as [|l0 r];
    [discriminate|].
  simpl in H. injection H as ->.
  destruct (Date_parse rt l) as [t0|].
  - rewrite Z.leb_le. split.
    + intro Hle. exists t0. auto.
    + intros (t0' & E & Hle). injection E as <-. exact Hle.
  - split; [discriminate|]. intros (t0 & E & _). discriminate.
Qed.

Lemma addDataPoint_lastLabel (rt : Runtime) (m : EnergyDataManager)
    (p : Period) (t : Z) :
  lastLabel (addDataPoint rt m p t) p = Some (formatTimeForPeriod rt t p).
Proof.
  unfold lastLabel.
  destruct (addDataPoint_series rt m p t) as (E & _ & _).
  rewrite E, rev_app_distr. reflexivity.
Qed.

(** C1, what the code does.  With a last label, a point is appended
    exactly when that label parses to a date and the new time is at least
    the period's threshold (30 minutes for '24h', 60 for '7d' and '30d')
    after it; a label that does not parse never lets a point in.  The
    label is all that is kept of the last point's time: when a point is
    appended at a time that formats to the label already last in the
    series, the test passes again at every later time, however soon. *)
Theorem append_cadence_by_label (rt : Runtime) (m : EnergyDataManager)
    (p : Period) :
  cadence p = match p with
              | P24h => (30 * 60 * 1000)%Z
              | P7d | P30d => (60 * 60 * 1000)%Z
              end /\
  (forall l t,
     lastLabel m p = Some l ->
     (shouldUpdateData rt m p t = true <->
      exists t0, Date_parse rt l = Some t0 /\ (cadence p <= t - t0)%Z)) /\
  (forall t1 t2,
     lastLabel m p = Some (formatTimeForPeriod rt t1 p) ->
     shouldUpdateData rt m p t1 = true ->
     (t1 <= t2)%Z ->
     shouldUpdateData rt (addDataPoint rt m p t1) p t2 = true).
Proof.
  split; [destruct p; reflexivity|].
  split; [intros l t; apply shouldUpdateData_spec|].
  intros t1 t2 Hlast Hdue Hle.
  apply (shouldUpdateData_spec rt m p _ t1 Hlast) in Hdue.
  destruct Hdue as (t0 & Hparse & Hcad).
  apply (shouldUpdateData_spec rt _ p _ t2 (addDataPoint_lastLabel rt m p t1)).
  exists t0. split; [exact Hparse|]. lia.
Qed.

(** C1, witness.  On the concrete runtime the manager is constructed at
    10:00:00 on 3 November 2026 and the first two snapshots are taken at
    10:00:35 and 10:00:40.  The last '30d' label is "Nov 3", which parses
    to a day of 2001: both snapshots append a '30d' point, five seconds
    apart, each pushing out the oldest one. *)
Lemma append_cadence_witness :
  let rt := Sample.runtime in
  let m0 := fst (constructor rt Sample.world0) in
  let t1 := 1793700035000%Z in
  let t2 := 1793700040000%Z in
  let m2 := fst (session rt [OpGenerateCurrentData; OpGenerateCurrentData]
                   Sample.world0) in
  lastLabel m0 P30d = Some (formatTimeForPeriod rt t1 P30d) /\
  shouldUpdateData rt m0 P30d t1 = true /\
  (t1 <= t2)%Z /\
  shouldUpdateData rt (addDataPoint rt m0 P30d t1) P30d t2 = true /\
  timestamp (currentData m2) = t2 /\
  s_labels (hist_30d (historicalData m2))
    = skipn 2 (s_labels (hist_30d (historicalData m0))) ++ ["Nov 3"; "Nov 3"]%string.
Proof.
  intros rt m0 t1 t2 m2.
  assert (H1 : lastLabel m0 P30d = Some (formatTimeForPeriod rt t1 P30d))
    by (vm_compute; reflexivity).
  assert (H2 : shouldUpdateData rt m0 P30d t1 = true)
    by (vm_compute; reflexivity).
  assert (H3 : (t1 <= t2)%Z) by (subst t1 t2; lia).
  split; [exact H1|]. split; [exact H2|]. split; [exact H3|].
  split.
  - exact (proj2 (proj2 (append_cadence_by_label rt m0 P30d)) t1 t2 H1 H2 H3).
  - vm_compute. split; reflexivity.
Defined.

(* ================================================================== *)
(* ================================================================== *)
(** * Further properties *)
(* ================================================================== *)

(** ** Dismissing and clearing alerts *)

Lemma dismiss_first_spec (alertId : Z) (l : list Alert) :
  match dismiss_first alertId l with
  | Some l' =>
      exists l1 a l2,
        l = l1 ++ a :: l2 /\
        (forall a', In a' l1 -> alert_id a' <> alertId) /\
        alert_id a = alertId /\
        l' = l1 ++ set_dismissed a :: l2
  | None => forall a, In a l -> alert_id a <> alertId
  end.
Proof.
  induction l as [|a r IH]; simpl.
  - intros a [].
  - destruct (alert_id a =? alertId)%Z eqn:E.
    + apply Z.eqb_eq in E.
      exists [], a, r. simpl. repeat split; auto; intros ? [].
    + apply Z.eqb_neq in E.
      destruct (dismiss_first alertId r) as [r'|]; simpl.
      * destruct IH as (l1 & a0 & l2 & -> & Hpre & Hid & ->).
        exists (a :: l1), a0, l2. simpl. repeat split; auto.
        intros a' [<- | Hin]; auto.
      * intros a' [<- | Hin]; auto.
Qed.

(** X1.  [dismissAlert] marks the first alert that has the id, and only it:
    the alerts before and after it, its other fields and every other
    field of the manager stay as they are, and the call returns [true];
    when no alert has the id it returns [false] and the manager is
    unchanged. *)
Theorem dismissAlert_frame (m : EnergyDataManager) (alertId : Z) :
  (exists l1 a l2,
     alertsData m = l1 ++ a :: l2 /\
     (forall a', In a' l1 -> alert_id a' <> alertId) /\
     alert_id a = alertId /\
     dismissAlert m alertId =
       (true,
        mkManager (currentData m) (historicalData m) (householdData m)
          (l1 ++
           mkAlert (alert_id a) (alert_type a) (alert_title a)
                   (alert_message a) (alert_timestamp a) true
           :: l2)
          (controlsData m) (schedules m)))
  \/
  ((forall a, In a (alertsData m) -> alert_id a <> alertId) /\
   dismissAlert m alertId = (false, m)).
Proof.
  unfold dismissAlert.
  pose proof (dismiss_first_spec alertId (alertsData m)) as H.
  destruct (dismiss_first alertId (alertsData m)) as [l'|].
  - left. destruct H as (l1 & a & l2 & E & Hpre & Hid & ->).
    exists l1, a, l2. repeat split; auto.
  - right. split; auto.
Qed.

Lemma dismiss_first_again (alertId : Z) (l l' : list Alert) :
  dismiss_first alertId l = Some l' -> dismiss_first alertId l' = Some l'.
Proof.
  revert l'. induction l as [|a r IH]; simpl; intros l' H; [discriminate|].
  destruct (alert_id a =? alertId)%Z eqn:E.
  - injection H as <-. simpl. rewrite E. reflexivity.
  - destruct (dismiss_first alertId r) as [r'|]; simpl in H; [|discriminate].
    injection H as <-. simpl. rewrite E. rewrite (IH r' eq_refl). reflexivity.
Qed.

(** X2.  Dismissing is idempotent, and a second call with the same id
    reports what the first reported: [true] also for the alert that is
    already dismissed. *)
Theorem dismissAlert_idempotent (m : EnergyDataManager) (alertId : Z) :
  dismissAlert (snd (dismissAlert m alertId)) alertId = dismissAlert m alertId.
Proof.
  unfold dismissAlert.
  destruct (dismiss_first alertId (alertsData m)) as [l'|] eqn:E; simpl.
  - rewrite (dismiss_first_again alertId _ _ E). reflexivity.
  - rewrite E. reflexivity.
Qed.

Lemma dismiss_first_find (alertId : Z) (l : list Alert) :
  match find (fun a => (alert_id a =? alertId)%Z) l with
  | Some a =>
      exists l',
        dismiss_first alertId l = Some l' /\
        (List.length (filter (fun a => negb (alert_dismissed a)) l)
         = List.length (filter (fun a => negb (alert_dismissed a)) l')
           + (if alert_dismissed a then 0 else 1))%nat
  | None => dismiss_first alertId l = None
  end.
Proof.
  induction l as [|a r IH]; simpl; [reflexivity|].
  destruct (alert_id a =? alertId)%Z eqn:E.
  - eexists. split; [reflexivity|]. simpl.
    destruct (alert_dismissed a); simpl; lia.
  - destruct (find _ r) as [a0|].
    + destruct IH as (r' & -> & Hc). eexists. split; [reflexivity|].
      simpl. destruct (negb (alert_dismissed a)); simpl; lia.
    + rewrite IH. reflexivity.
Qed.

(** X3.  The alert badge of the dashboard counts the alerts that are not
    dismissed.  A [dismissAlert] that finds an alert lowers the count by
    one when that alert was still active and leaves it when the alert was
    dismissed already; [clearDismissedAlerts] never changes the count,
    and leaves in the list exactly the alerts the badge counts, in their
    order. *)
Theorem alert_badge_count (m : EnergyDataManager) (alertId : Z) :
  match find (fun a => (alert_id a =? alertId)%Z) (alertsData m) with
  | Some a =>
      fst (dismissAlert m alertId) = true /\
      badgeCount m
      = (badgeCount (snd (dismissAlert m alertId))
         + (if alert_dismissed a then 0 else 1))%nat
  | None => dismissAlert m alertId = (false, m)
  end
  /\ alertsData (clearDismissedAlerts m) = activeAlerts m
  /\ activeAlerts (clearDismissedAlerts m) = activeAlerts m
  /\ badgeCount (clearDismissedAlerts m) = badgeCount m.
Proof.
  split.
  - unfold dismissAlert, badgeCount, activeAlerts.
    pose proof (dismiss_first_find alertId (alertsData m)) as H.
    destruct (find _ (alertsData m)) as [a|].
    + destruct H as (l' & -> & Hc). simpl. auto.
    + rewrite H. reflexivity.
  - assert (E : activeAlerts (clearDismissedAlerts m) = activeAlerts m).
    { unfold activeAlerts, clearDismissedAlerts. simpl.
      induction (alertsData m) as [|a r IH]; simpl; [reflexivity|].
      destruct (negb (alert_dismissed a)) eqn:D; simpl; [rewrite D|];
        now rewrite IH. }
    split; [reflexivity|]. split; [exact E|].
    unfold badgeCount. now rewrite E.
Qed.

(** ** What a snapshot adds to the alert list *)

Lemma fold_insertAlert_prefix (alerts data : list Alert) :
  exists new,
    fold_left insertAlert alerts data = new ++ data /\
    (List.length new <= List.length alerts)%nat /\
    (forall a, In a new -> In a alerts).
Proof.
  revert data. induction alerts as [|a r IH]; intro data; simpl.
  - exists []. simpl. repeat split; auto; intros ? [].
  - destruct (IH (insertAlert data a)) as (new & E & Hl & Hin).
    rewrite E. unfold insertAlert. destruct (alertExists data a).
    + exists new. repeat split; auto.
    + exists (new ++ [a]). rewrite <- app_assoc. simpl.
      repeat split; auto.
      * rewrite length_app. simpl. lia.
      * intros a' H. apply in_app_or in H. destruct H as [H | [<- | []]]; auto.
Qed.

Lemma checkAlerts_prepends (rt : Runtime) (m : EnergyDataManager) (w : World) :
  exists new,
    alertsData (fst (checkAlerts rt m w)) = firstn 50 (new ++ alertsData m) /\
    (List.length new <= 2)%nat /\
    forall a, In a new ->
              alert_dismissed a = false /\ alertCondition (currentData m) a.
Proof.
  unfold checkAlerts, bind.
  pose proof (batteryAlerts_elements rt m w) as [Lb Pb].
  destruct (batteryAlerts rt m w) as [a1 w1]. simpl in Lb, Pb.
  pose proof (gridAlerts_elements rt m w1) as [Lg Pg].
  destruct (gridAlerts rt m w1) as [a2 w2]. simpl in Lg, Pg. simpl.
  destruct (fold_insertAlert_prefix (a1 ++ a2) (alertsData m))
    as (new & E & Hl & Hin).
  exists new. rewrite E. split; [reflexivity|]. split.
  - rewrite length_app in Hl. lia.
  - intros a Ha. apply Hin in Ha. apply in_app_or in Ha.
    destruct Ha; auto.
Qed.

(** X4.  A snapshot generation puts at most two new alerts in front of the
    alerts that were there, which keep their order, and cuts the list to
    fifty.  Each new alert is not dismissed and answers to the snapshot
    just stored: 'Critical Battery Level' only when the stored battery
    percentage is below 20, 'Low Battery Warning' only when it is in
    [20, 30), 'High Grid Load' only when the stored grid load is above
    80. *)
Theorem generateCurrentData_alerts (rt : Runtime) (m : EnergyDataManager)
    (w : World) :
  let m' := fst (generateCurrentData rt m w) in
  exists new,
    alertsData m' = firstn 50 (new ++ alertsData m) /\
    (List.length new <= 2)%nat /\
    forall a, In a new ->
              alert_dismissed a = false /\ alertCondition (currentData m') a.
Proof.
  intro m'. subst m'.
  destruct (generateCurrentData_checkAlerts rt m w)
    as (m1 & w1 & E & A & C & _).
  rewrite <- C, <- A, E. apply checkAlerts_prepends.
Qed.

Lemma dismiss_first_length (alertId : Z) (l l' : list Alert) :
  dismiss_first alertId l = Some l' -> List.length l' = List.length l.
Proof.
  intro H. pose proof (dismiss_first_spec alertId l) as S. rewrite H in S.
  destruct S as (l1 & a & l2 & -> & _ & _ & ->).
  rewrite !length_app. reflexivity.
Qed.

(** X5.  The alert list never holds more than fifty alerts: not after a
    snapshot generation on any manager, and not at any point of a
    session. *)
Theorem alerts_at_most_fifty (rt : Runtime) :
  (forall m w,
     (List.length (alertsData (fst (generateCurrentData rt m w))) <= 50)%nat)
  /\
  (forall ops w,
     (List.length (alertsData (fst (session rt ops w))) <= 50)%nat).
Proof.
  assert (G : forall m w,
             (List.length (alertsData (fst (generateCurrentData rt m w)))
              <= 50)%nat).
  { intros m w.
    destruct (generateCurrentData_checkAlerts rt m w) as (m1 & w1 & -> & _).
    destruct (checkAlerts_prepends rt m1 w1) as (new & E & _).
    rewrite E. apply firstn_le_length. }
  split; [exact G|].
  apply (session_invariant rt
           (fun m => (List.length (alertsData m) <= 50)%nat)).
  - intro w. unfold constructor, bind, Date_now. simpl.
    destruct (initializeHistoricalData rt emptyHistorical _) as [h w1].
    simpl. lia.
  - intros op m w H. destruct op; simpl.
    + apply G.
    + now rewrite (proj1 (proj2 (proj2 (toggleDevice_fields m householdId deviceName)))).
    + now rewrite (proj1 (proj2 (proj2 (updateControlSetting_fields m s)))).
    + unfold dismissAlert.
      destruct (dismiss_first alertId (alertsData m)) as [l'|] eqn:E; simpl;
        [|exact H].
      now rewrite (dismiss_first_length _ _ _ E).
    + pose proof (filter_length_le (fun a => negb (alert_dismissed a))
                    (alertsData m)). lia.
    + exact H.
Qed.

(** ** Schedules *)

Lemma flip_active_involutive (s : Schedule) : flip_active (flip_active s) = s.
Proof.
  destruct s. unfold flip_active. simpl. now rewrite negb_involutive.
Qed.

Lemma set_schedules_same (m : EnergyDataManager) (l : list Schedule) :
  set_schedules (set_schedules m l) (schedules m) = m.
Proof. destruct m. reflexivity. Qed.

Lemma toggle_first_schedule_find (scheduleId : Z) (l : list Schedule) :
  match find (fun s => (sch_id s =? scheduleId)%Z) l with
  | Some s =>
      exists l',
        toggle_first_schedule scheduleId l = Some l' /\
        find (fun s => (sch_id s =? scheduleId)%Z) l' = Some (flip_active s) /\
        toggle_first_schedule scheduleId l' = Some l
  | None => toggle_first_schedule scheduleId l = None
  end.
Proof.
  induction l as [|s r IH]; simpl; [reflexivity|].
  destruct (sch_id s =? scheduleId)%Z eqn:E.
  - eexists. split; [reflexivity|]. simpl. rewrite E.
    split; [reflexivity|]. now rewrite flip_active_involutive.
  - destruct (find _ r) as [s0|].
    + destruct IH as (r' & -> & F & T). eexists. split; [reflexivity|].
      simpl. rewrite E, T. auto.
    + rewrite IH. reflexivity.
Qed.

(** X6.  [toggleSchedule] flips the [active] flag of the first schedule that
    has the id and returns [true]; a second call with the same id gives
    back the manager as it was.  When no schedule has the id it returns
    [false] and the manager is unchanged. *)
Theorem toggleSchedule_involution (m : EnergyDataManager) (scheduleId : Z) :
  match find (fun s => (sch_id s =? scheduleId)%Z) (schedules m) with
  | Some s =>
      let m' := snd (toggleSchedule m scheduleId) in
      fst (toggleSchedule m scheduleId) = true /\
      find (fun s => (sch_id s =? scheduleId)%Z) (schedules m')
        = Some (flip_active s) /\
      sch_active (flip_active s) = negb (sch_active s) /\
      toggleSchedule m' scheduleId = (true, m)
  | None => toggleSchedule m scheduleId = (false, m)
  end.
Proof.
  unfold toggleSchedule.
  pose proof (toggle_first_schedule_find scheduleId (schedules m)) as H.
  destruct (find _ (schedules m)) as [s|].
  - destruct H as (l' & -> & F & T). simpl. rewrite T.
    repeat split; auto. now rewrite set_schedules_same.
  - rewrite H. reflexivity.
Qed.

Lemma toggle_first_schedule_last (scheduleId : Z) (l : list Schedule)
    (s : Schedule) :
  sch_id s = scheduleId ->
  toggle_first_schedule scheduleId (l ++ [s])
  = match toggle_first_schedule scheduleId l with
    | Some l' => Some (l' ++ [s])
    | None => Some (l ++ [flip_active s])
    end.
Proof.
  intro Hs. induction l as [|a r IH]; simpl.
  - apply Z.eqb_eq in Hs. rewrite Hs. reflexivity.
  - destruct (sch_id a =? scheduleId)%Z; [reflexivity|].
    rewrite IH. destruct (toggle_first_schedule scheduleId r); reflexivity.
Qed.

(** X7.  [addSchedule] appends one schedule and changes nothing else.  The
    new schedule is active, and its id is the clock reading unless the
    argument brings an id of its own.  The id is not checked against the
    schedules already there: [toggleSchedule] with the id of the new
    schedule always returns [true], but it flips the new schedule only
    when no earlier schedule has the same id; otherwise it flips the
    earlier one and the new schedule stays as it is. *)
Theorem addSchedule_appends (rt : Runtime) (m : EnergyDataManager)
    (schedule : ScheduleSpec) (w : World) :
  let new := fst (fst (addSchedule rt m schedule w)) in
  let m' := snd (fst (addSchedule rt m schedule w)) in
  m' = set_schedules m (schedules m ++ [new]) /\
  sch_active new = true /\
  sch_id new = match spec_id schedule with
               | Some i => i
               | None => system_clock rt (clock_ix w)
               end /\
  fst (toggleSchedule m' (sch_id new)) = true /\
  ((forall s, In s (schedules m) -> sch_id s <> sch_id new) ->
   toggleSchedule m' (sch_id new)
   = (true, set_schedules m (schedules m ++ [flip_active new]))) /\
  ((exists s, In s (schedules m) /\ sch_id s = sch_id new) ->
   exists l',
     toggle_first_schedule (sch_id new) (schedules m) = Some l' /\
     toggleSchedule m' (sch_id new) = (true, set_schedules m (l' ++ [new]))).
Proof.
  intros new m'. subst new m'. unfold addSchedule, bind, Date_now. simpl.
  set (nid := match spec_id schedule with
              | Some i => i
              | None => system_clock rt (clock_ix w)
              end).
  set (new := mkSchedule nid _ _ _ _ _).
  split; [reflexivity|]. split; [reflexivity|]. split; [reflexivity|].
  unfold toggleSchedule.
  change (schedules (set_schedules m (schedules m ++ [new])))
    with (schedules m ++ [new]).
  rewrite (toggle_first_schedule_last nid (schedules m) new eq_refl).
  pose proof (toggle_first_schedule_find nid (schedules m)) as F.
  split; [destruct (toggle_first_schedule _ (schedules m)); reflexivity|].
  split.
  - intro Hno.
    destruct (find (fun s => (sch_id s =? nid)%Z) (schedules m))
      as [s|] eqn:E.
    + apply find_some in E. destruct E as [Hin He].
      apply Z.eqb_eq in He. exfalso. exact (Hno s Hin He).
    + rewrite F. destruct m; reflexivity.
  - intros (s & Hin & Hs).
    destruct (find (fun s => (sch_id s =? nid)%Z) (schedules m))
      as [s0|] eqn:E.
    + destruct F as (l' & -> & _). exists l'. split; [reflexivity|].
      destruct m; reflexivity.
    + exfalso. apply (find_none _ _ E) in Hin.
      apply Z.eqb_neq in Hin. contradiction.
Qed.

(** ** Toggling a device twice, and the count of active devices *)

Lemma toggledStatus_twice (s : string) :
  toggledStatus (toggledStatus s) = s <-> (s = "on" \/ s = "off").
Proof.
  destruct (toggledStatus_cases s) as [[Hs E] | [Hs E]]; rewrite E.
  - subst s. split; auto.
  - change (toggledStatus "on") with "off". split.
    + intro H. auto.
    + intros [H | H]; [contradiction | auto].
Qed.

Lemma toggle_in_devices_twice (deviceName : string) (ds : list Device) :
  match find (fun d => String.eqb (dev_name d) deviceName) ds with
  | Some d =>
      exists ds' ds'',
        toggle_in_devices deviceName ds = Some ds' /\
        toggle_in_devices deviceName ds' = Some ds'' /\
        (ds'' = ds <-> (dev_status d = "on" \/ dev_status d = "off")) /\
        (activeIn ds' + (if String.eqb (dev_status d) "on" then 1 else 0)
         = activeIn ds + (if String.eqb (dev_status d) "on" then 0 else 1))%nat /\
        List.length ds' = List.length ds
  | None => toggle_in_devices deviceName ds = None
  end.
Proof.
  induction ds as [|d r IH]; simpl; [reflexivity|].
  destruct (String.eqb (dev_name d) deviceName) eqn:E.
  - eexists. eexists. split; [reflexivity|]. simpl. rewrite E.
    split; [reflexivity|]. split; [|split; [|reflexivity]].
    + rewrite <- toggledStatus_twice.
      destruct d as [n p st pr]; unfold set_status; simpl.
      split; intro H; [now injection H | now rewrite H].
    + unfold activeIn. simpl. unfold toggledStatus.
      destruct (String.eqb (dev_status d) "on"); simpl; lia.
  - destruct (find _ r) as [d0|].
    + destruct IH as (r' & r'' & -> & T2 & Heq & Hc & Hl).
      eexists. eexists. split; [reflexivity|]. simpl. rewrite E, T2.
      split; [reflexivity|]. split; [|split].
      * rewrite <- Heq. split; intro H; [now injection H | now f_equal].
      * unfold activeIn in *. simpl.
        destruct (String.eqb (dev_status d) "on"); simpl; lia.
      * simpl. now rewrite Hl.
    + rewrite IH. reflexivity.
Qed.

Lemma fold_left_count {A} (f : A -> nat) (l : list A) (a : nat) :
  fold_left (fun total x => (total + f x)%nat) l a
  = (a + fold_left (fun total x => (total + f x)%nat) l 0)%nat.
Proof.
  revert a. induction l as [|x r IH]; intro a; simpl; [lia|].
  rewrite IH. rewrite (IH (f x)). lia.
Qed.

Lemma countActiveDevices_cons (h : Household) (hs : list Household) :
  countActiveDevices (h :: hs)
  = (activeIn (hh_devices h) + countActiveDevices hs)%nat.
Proof.
  unfold countActiveDevices. simpl.
  rewrite (fold_left_count
             (fun h => List.length
                         (filter (fun d => String.eqb (dev_status d) "on")
                                 (hh_devices h)))).
  reflexivity.
Qed.

Lemma toggle_in_households_twice (householdId deviceName : string)
    (hs : list Household) :
  match
    match find (fun h => String.eqb (hh_id h) householdId) hs with
    | Some h => find (fun d => String.eqb (dev_name d) deviceName) (hh_devices h)
    | None => None
    end
  with
  | Some d =>
      exists hs' hs'',
        toggle_in_households householdId deviceName hs = Some hs' /\
        toggle_in_households householdId deviceName hs' = Some hs'' /\
        (hs'' = hs <-> (dev_status d = "on" \/ dev_status d = "off")) /\
        (countActiveDevices hs'
         + (if String.eqb (dev_status d) "on" then 1 else 0)
         = countActiveDevices hs
           + (if String.eqb (dev_status d) "on" then 0 else 1))%nat
  | None => toggle_in_households householdId deviceName hs = None
  end.
Proof.
  induction hs as [|h r IH]; simpl; [reflexivity|].
  destruct (String.eqb (hh_id h) householdId) eqn:E.
  - pose proof (toggle_in_devices_twice deviceName (hh_devices h)) as D.
    destruct (find _ (hh_devices h)) as [d|].
    + destruct D as (ds' & ds'' & -> & T2 & Heq & Hc & _).
      eexists. eexists. split; [reflexivity|]. simpl. rewrite E, T2.
      split; [reflexivity|]. split.
      * rewrite <- Heq. split; intro H.
        -- injection H as H. destruct h; unfold set_devices in H; simpl in *.
           now injection H.
        -- f_equal. destruct h; unfold set_devices; simpl in *. now rewrite H.
      * rewrite !countActiveDevices_cons. simpl. lia.
    + rewrite D. reflexivity.
  - destruct (find (fun h0 => String.eqb (hh_id h0) householdId) r) as [h0|].
    + destruct (find _ (hh_devices h0)) as [d|].
      * destruct IH as (r' & r'' & -> & T2 & Heq & Hc).
        eexists. eexists. split; [reflexivity|]. simpl. rewrite E, T2.
        split; [reflexivity|]. split.
        -- rewrite <- Heq. split; intro H; [now injection H | now f_equal].
        -- rewrite !countActiveDevices_cons. lia.
      * rewrite IH. reflexivity.
    + rewrite IH. reflexivity.
Qed.

Lemma set_householdData_same (m : EnergyDataManager) (hs hs' : list Household) :
  set_householdData (set_householdData m hs) hs' = m <-> hs' = householdData m.
Proof.
  destruct m. unfold set_householdData. simpl. split; intro H.
  - now injection H.
  - now subst.
Qed.

(** X8.  Two [toggleDevice] calls on the same device give back the manager
    as it was exactly when the device's status was 'on' or 'off'; from
    any other status, 'auto' included, the device ends 'off' and the
    status it had is lost.  When the device is not found both calls
    leave the manager unchanged. *)
Theorem toggleDevice_twice (m : EnergyDataManager)
    (householdId deviceName : string) :
  let m2 :=
    snd (toggleDevice (snd (toggleDevice m householdId deviceName))
                      householdId deviceName) in
  match find_device m householdId deviceName with
  | Some d =>
      (m2 = m <-> (dev_status d = "on" \/ dev_status d = "off")) /\
      (dev_status d <> "on" ->
       option_map dev_status (find_device m2 householdId deviceName)
       = Some "off")
  | None => m2 = m
  end.
Proof.
  intro m2. subst m2.
  pose proof (toggleDevice_find m householdId deviceName) as F1.
  unfold find_device in *.
  pose proof (toggle_in_households_twice householdId deviceName
                (householdData m)) as H.
  destruct (match find _ (householdData m) with
            | Some h => _ | None => None end) as [d|].
  - destruct H as (hs' & hs'' & T1 & T2 & Heq & _).
    destruct F1 as [_ F1].
    pose proof (toggleDevice_find (snd (toggleDevice m householdId deviceName))
                  householdId deviceName) as F2.
    unfold find_device in F2. rewrite F1 in F2. destruct F2 as [_ F2].
    split.
    + unfold toggleDevice. rewrite T1. simpl. rewrite T2. simpl.
      rewrite set_householdData_same. exact Heq.
    + intro Hn. rewrite F2. simpl.
      destruct (toggledStatus_cases (dev_status d)) as [[Hs _] | [_ ->]];
        [contradiction|reflexivity].
  - unfold toggleDevice. rewrite H. simpl. rewrite H. reflexivity.
Qed.

Lemma toggle_in_households_filtered (selected householdId deviceName : string)
    (hs : list Household) :
  let shown := filter (fun h => String.eqb (hh_id h) selected) in
  let seen := String.eqb householdId selected in
  match
    match find (fun h => String.eqb (hh_id h) householdId) hs with
    | Some h => find (fun d => String.eqb (dev_name d) deviceName) (hh_devices h)
    | None => None
    end
  with
  | Some d =>
      exists hs',
        toggle_in_households householdId deviceName hs = Some hs' /\
        List.length hs' = List.length hs /\
        List.length (shown hs') = List.length (shown hs) /\
        (countActiveDevices (shown hs')
         + (if seen && String.eqb (dev_status d) "on" then 1 else 0)
         = countActiveDevices (shown hs)
           + (if seen && negb (String.eqb (dev_status d) "on") then 1 else 0))%nat
  | None => toggle_in_households householdId deviceName hs = None
  end.
Proof.
  intros shown seen. subst shown seen.
  induction hs as [|h r IH]; simpl; [reflexivity|].
  destruct (String.eqb (hh_id h) householdId) eqn:E.
  - apply String.eqb_eq in E.
    pose proof (toggle_in_devices_twice deviceName (hh_devices h)) as D.
    destruct (find _ (hh_devices h)) as [d|].
    + destruct D as (ds' & ds'' & -> & _ & _ & Hc & _).
      eexists. split; [reflexivity|]. split; [reflexivity|]. simpl. rewrite E.
      destruct (String.eqb householdId selected); simpl.
      * split; [reflexivity|]. rewrite !countActiveDevices_cons. simpl.
        destruct (String.eqb (dev_status d) "on"); simpl; lia.
      * split; [reflexivity|]. lia.
    + rewrite D. reflexivity.
  - destruct (find (fun h0 => String.eqb (hh_id h0) householdId) r) as [h0|].
    + destruct (find _ (hh_devices h0)) as [d|].
      * destruct IH as (r' & -> & Hl0 & Hl & Hc).
        eexists. split; [reflexivity|]. split; [simpl; now rewrite Hl0|].
        simpl. destruct (String.eqb (hh_id h) selected); simpl.
        -- split; [now rewrite Hl|]. rewrite !countActiveDevices_cons. lia.
        -- split; [exact Hl|exact Hc].
      * rewrite IH. reflexivity.
    + rewrite IH. reflexivity.
Qed.

(** X9.  The household page shows the households that pass its selection
    and counts their devices that are 'on'.  A [toggleDevice] never
    changes the number of households shown.  When it finds its device
    and the device's household is shown (the selection is 'all' or the
    household's id), the count of active devices moves by exactly one:
    down when the device was 'on', up otherwise.  When the household is
    not shown, or no device is found, the count stays. *)
Theorem toggleDevice_active_count (m : EnergyDataManager)
    (selectedHousehold householdId deviceName : string) :
  let m' := snd (toggleDevice m householdId deviceName) in
  let page x := updateUsageOverview selectedHousehold x in
  ov_totalHouseholds (page m') = ov_totalHouseholds (page m) /\
  match find_device m householdId deviceName with
  | Some d =>
      (selectedHousehold = "all" \/ selectedHousehold = householdId ->
       (dev_status d = "on" ->
        S (ov_activeDevices (page m')) = ov_activeDevices (page m)) /\
       (dev_status d <> "on" ->
        ov_activeDevices (page m') = S (ov_activeDevices (page m)))) /\
      (selectedHousehold <> "all" -> selectedHousehold <> householdId ->
       ov_activeDevices (page m') = ov_activeDevices (page m))
  | None => ov_activeDevices (page m') = ov_activeDevices (page m)
  end.
Proof.
  intros m' page. subst m' page.
  unfold updateUsageOverview, getFilteredHouseholds, find_device, toggleDevice.
  cbn [ov_totalHouseholds ov_activeDevices].
  pose proof (toggle_in_households_twice householdId deviceName
                (householdData m)) as H.
  pose proof (toggle_in_households_filtered selectedHousehold householdId
                deviceName (householdData m)) as F.
  cbv zeta in F.
  destruct (match find _ (householdData m) with
            | Some h => _ | None => None end) as [d|].
  - destruct H as (hs' & hs'' & T & _ & _ & Hc).
    destruct F as (hs1 & T1 & Fl0 & Fl & Fc). rewrite T in T1.
    injection T1 as <-. rewrite T. cbn [snd householdData set_householdData].
    destruct (String.eqb selectedHousehold "all") eqn:Ea.
    + apply String.eqb_eq in Ea. split; [exact Fl0|]. split.
      * intros _. destruct (String.eqb (dev_status d) "on") eqn:Es.
        -- apply String.eqb_eq in Es. split; [intros _; lia|].
           intro; contradiction.
        -- apply String.eqb_neq in Es. split; [intro; contradiction|].
           intros _; lia.
      * intro; contradiction.
    + apply String.eqb_neq in Ea. split; [exact Fl|]. split.
      * intros [Hs | Hs]; [contradiction|]. subst selectedHousehold.
        rewrite String.eqb_refl in Fc. simpl in Fc.
        destruct (String.eqb (dev_status d) "on") eqn:Es.
        -- apply String.eqb_eq in Es. split; [intros _; simpl in Fc; lia|].
           intro; contradiction.
        -- apply String.eqb_neq in Es. split; [intro; contradiction|].
           intros _; simpl in Fc; lia.
      * intros _ Hs.
        assert (En : String.eqb householdId selectedHousehold = false).
        { apply String.eqb_neq. intro E. apply Hs. now symmetry. }
        rewrite En in Fc. simpl in Fc. lia.
  - rewrite H. simpl. auto.
Qed.

(** ** What a snapshot does to households and devices *)

Lemma mapM_Forall2 {A B} (R : A -> B -> Prop) (f : A -> M B) (l : list A) :
  (forall a w, R a (fst (f a w))) ->
  forall w, Forall2 R l (fst (mapM f l w)).
Proof.
  intro H. induction l as [|a r IH]; intro w; simpl.
  - constructor.
  - unfold bind. specialize (H a w). destruct (f a w) as [b w1].
    specialize (IH w1). destruct (mapM f r w1) as [bs w2]. simpl in *.
    now constructor.
Qed.

Lemma mapM_Forall {A B} (P : B -> Prop) (f : A -> M B) (l : list A) :
  (forall a w, P (fst (f a w))) ->
  forall w, Forall P (fst (mapM f l w)).
Proof.
  intro H. induction l as [|a r IH]; intro w; simpl.
  - constructor.
  - unfold bind. specialize (H a w). destruct (f a w) as [b w1].
    specialize (IH w1). destruct (mapM f r w1) as [bs w2]. simpl in *.
    now constructor.
Qed.

Lemma updateHistoricalData_householdData (rt : Runtime) (m : EnergyDataManager) :
  householdData (updateHistoricalData rt m) = householdData m.
Proof.
  unfold updateHistoricalData, updatePeriod.
  repeat match goal with
  | |- context [if shouldUpdateData rt ?a ?b ?c then _ else _] =>
      destruct (shouldUpdateData rt a b c)
  end; reflexivity.
Qed.

(** The households a generation leaves are those [mapM] makes of the
    households it found, at the hour of the clock reading. *)
Lemma generateCurrentData_households (rt : Runtime) (m : EnergyDataManager)
    (w : World) :
  exists w2,
    householdData (fst (generateCurrentData rt m w))
    = fst (mapM (updateHousehold rt
                   (getHours rt (system_clock rt (clock_ix w))))
                (householdData m) w2).
Proof.
  destruct (generateCurrentData_shape rt m w) as (rtemp & alerts & E).
  simpl in E. rewrite E. simpl. rewrite updateHistoricalData_householdData.
  simpl. clear E.
  unfold computeLocals, bind, Date_now. simpl.
  destruct (solar_generation rt _ _) as [sol w1]. simpl.
  unfold updateHouseholdConsumption, bind.
  match goal with
  | |- context [mapM ?f ?l ?w0] => exists w0; destruct (mapM f l w0) as [hs w3]
  end.
  reflexivity.
Qed.

Lemma updateHousehold_refreshed (rt : Runtime) (hour : Z) (h : Household)
    (w : World) :
  household_refreshed h (fst (updateHousehold rt hour h w)).
Proof.
  unfold updateHousehold, bind.
  pose proof (mapM_Forall2 device_refreshed (updateDevice rt hour)
                (hh_devices h)) as F.
  assert (Hd : forall d w0,
             device_refreshed d (fst (updateDevice rt hour d w0))).
  { intros d w0. unfold updateDevice, bind.
    destruct (devicePower rt hour d w0) as [p w1]. simpl.
    repeat split. }
  specialize (F Hd w).
  destruct (mapM (updateDevice rt hour) (hh_devices h) w) as [ds w1].
  simpl in *. repeat split; auto.
Qed.

Lemma generateCurrentData_households_refreshed (rt : Runtime)
    (m : EnergyDataManager) (w : World) :
  Forall2 household_refreshed (householdData m)
          (householdData (fst (generateCurrentData rt m w))).
Proof.
  destruct (generateCurrentData_households rt m w) as [w2 ->].
  apply mapM_Forall2. apply updateHousehold_refreshed.
Qed.

(** The consumption of a generation is the sum of the usages it leaves
    in the households. *)
Lemma generateCurrentData_consumption (rt : Runtime) (m : EnergyDataManager)
    (w : World) :
  let m' := fst (generateCurrentData rt m w) in
  let sum :=
    fold_left (fun total h => total + hh_currentUsage h) (householdData m') 0 in
  l_totalConsumption (fst (fst (computeLocals rt m w))) = sum /\
  cons_total (consumption (currentData m')) = round2 sum /\
  households (consumption (currentData m')) = round2 sum.
Proof.
  intros m' sum. subst m' sum.
  destruct (generateCurrentData_shape rt m w) as (rtemp & alerts & E).
  simpl in E. rewrite E. simpl.
  rewrite updateHistoricalData_householdData,
          updateHistoricalData_currentData. simpl.
  destruct (computeLocals_shape rt m w) as (hs & k & k' & Hl).
  simpl in Hl. rewrite Hl. simpl. repeat split; reflexivity.
Qed.


Lemma household_refreshed_status (hs hs' : list Household) (i j : nat) :
  Forall2 household_refreshed hs hs' ->
  match nth_error hs' i with
  | Some h => option_map dev_status (nth_error (hh_devices h) j)
  | None => None
  end
  = match nth_error hs i with
    | Some h => option_map dev_status (nth_error (hh_devices h) j)
    | None => None
    end.
Proof.
  intro F. revert i. induction F as [|h h' r r' Hh F IH]; intro i.
  - destruct i; reflexivity.
  - destruct i as [|i]; simpl; [|apply IH].
    destruct Hh as (_ & _ & _ & Fd & _). clear - Fd. revert j.
    induction Fd as [|d d' ds ds' Hd Fd IHd]; intro j.
    + destruct j; reflexivity.
    + destruct j as [|j]; simpl; [|apply IHd].
      destruct Hd as (_ & Hs & _). now rewrite Hs.
Qed.

Lemma step_status (rt : Runtime) (op : Op) (m : EnergyDataManager) (w : World)
    (i j : nat) :
  match op with
  | OpToggleDevice _ _ => True
  | _ => status_at (fst (step rt op m w)) i j = status_at m i j
  end.
Proof.
  destruct op; simpl; auto.
  - unfold status_at. apply household_refreshed_status.
    apply generateCurrentData_households_refreshed.
  - unfold status_at.
    now rewrite (proj2 (proj2 (proj2 (updateControlSetting_fields m s)))).
  - unfold status_at.
    now rewrite (proj1 (proj2 (proj2 (dismissAlert_fields m alertId)))).
Qed.

(** X11.  The status of a device changes by [toggleDevice] alone: every other
    call of the class leaves every status as it is.  So, over calls of
    all kinds, a device whose status is not 'auto' never has the status
    'auto' again. *)
Theorem status_changed_by_toggle_only (rt : Runtime) :
  (forall op m w i j,
     match op with
     | OpToggleDevice _ _ => True
     | _ => status_at (fst (step rt op m w)) i j = status_at m i j
     end)
  /\
  (forall ops m w i j,
     status_at m i j <> Some "auto" ->
     status_at (fst (run rt ops m w)) i j <> Some "auto").
Proof.
  split; [intros; apply step_status|].
  induction ops as [|op ops IH]; simpl; intros m w i j H; [exact H|].
  unfold bind. destruct (step rt op m w) as [m' w'] eqn:E.
  apply IH.
  pose proof (step_status rt op m w i j) as S. rewrite E in S. simpl in S.
  destruct op; try (rewrite S; exact H).
  simpl in E. injection E as <- _.
  intro Ha. apply H. now apply toggleDevice_auto in Ha.
Qed.

(** ** Device powers *)

Lemma devicePower_bounds (rt : Runtime) (hour : Z) (d : Device) (w : World) :
  random_in_range rt ->
  power_in_bounds (set_power d (fst (devicePower rt hour d w))).
Proof.
  intro Hr. destruct (Hr (rand_ix w)) as [R0 R1].
  unfold power_in_bounds, devicePower. simpl.
  destruct (String.eqb (dev_status d) "on") eqn:Eon.
  - apply String.eqb_eq in Eon.
    assert (Na : dev_status d <> "auto") by (rewrite Eon; discriminate).
    repeat match goal with
    | |- context [if ?b then _ else _] => destruct b
    end; simpl; repeat split; try lra; intros; try contradiction.
  - destruct (String.eqb (dev_status d) "auto") eqn:Eauto.
    + apply String.eqb_eq in Eauto.
      destruct (dark hour); simpl; repeat split; try lra;
        intros; try contradiction.
    + apply String.eqb_neq in Eauto. simpl.
      repeat split; try lra; intros; try contradiction; reflexivity.
Qed.

Lemma totalUsage_nonneg (ds : list Device) :
  Forall power_in_bounds ds -> 0 <= totalUsage ds.
Proof.
  unfold totalUsage. intro F.
  assert (G : forall a, 0 <= a ->
              0 <= fold_left (fun total d => total + dev_power d) ds a).
  { induction F as [|d r Hd F IH]; intros a Ha; simpl; [exact Ha|].
    apply IH. destruct Hd as [H0 _]. lra. }
  apply G. lra.
Qed.

Lemma usage_sum_nonneg (hs : list Household) :
  Forall (fun h => 0 <= hh_currentUsage h) hs ->
  0 <= fold_left (fun total h => total + hh_currentUsage h) hs 0.
Proof.
  intro F.
  assert (G : forall a, 0 <= a ->
              0 <= fold_left (fun total h => total + hh_currentUsage h) hs a).
  { induction F as [|h r Hh F IH]; intros a Ha; simpl; [exact Ha|].
    apply IH. lra. }
  apply G. lra.
Qed.

Lemma updateHousehold_bounds (rt : Runtime) (hour : Z) (h : Household)
    (w : World) :
  random_in_range rt ->
  household_in_bounds (fst (updateHousehold rt hour h w)).
Proof.
  intro Hr. unfold updateHousehold, bind.
  pose proof (mapM_Forall power_in_bounds (updateDevice rt hour)
                (hh_devices h)) as F.
  assert (Hd : forall d w0, power_in_bounds (fst (updateDevice rt hour d w0))).
  { intros d w0. pose proof (devicePower_bounds rt hour d w0 Hr) as B.
    unfold updateDevice, bind.
    destruct (devicePower rt hour d w0) as [p w1]. exact B. }
  specialize (F Hd w).
  destruct (mapM (updateDevice rt hour) (hh_devices h) w) as [ds w1].
  simpl in *. split; [|exact F].
  apply (round2_lower _ 0). now apply totalUsage_nonneg.
Qed.

Lemma generateCurrentData_households_bounds (rt : Runtime)
    (m : EnergyDataManager) (w : World) :
  random_in_range rt ->
  Forall household_in_bounds
         (householdData (fst (generateCurrentData rt m w))).
Proof.
  intro Hr. destruct (generateCurrentData_households rt m w) as [w2 ->].
  apply mapM_Forall. intros h w0. now apply updateHousehold_bounds.
Qed.

Lemma locals_consumption_nonneg (rt : Runtime) (m : EnergyDataManager)
    (w : World) :
  random_in_range rt ->
  0 <= l_totalConsumption (fst (fst (computeLocals rt m w))).
Proof.
  intro Hr.
  rewrite (proj1 (generateCurrentData_consumption rt m w)).
  apply usage_sum_nonneg.
  eapply Forall_impl; [|exact (generateCurrentData_households_bounds rt m w Hr)].
  intros h [H _]. exact H.
Qed.

(** X12.  With random numbers in [0, 1), after a snapshot generation every
    device draws between 0 and 8 kW, a device that is neither 'on' nor
    'auto' draws exactly 0, an 'auto' device at most 0.3; every usage
    and the stored consumption are non-negative. *)
Theorem device_power_bounds (rt : Runtime) (m : EnergyDataManager) (w : World) :
  random_in_range rt ->
  let m' := fst (generateCurrentData rt m w) in
  Forall household_in_bounds (householdData m') /\
  0 <= cons_total (consumption (currentData m')).
Proof.
  intros Hr m'. subst m'.
  split; [now apply generateCurrentData_households_bounds|].
  rewrite (proj1 (proj2 (generateCurrentData_consumption rt m w))).
  apply (round2_lower _ 0).
  rewrite <- (proj1 (generateCurrentData_consumption rt m w)).
  now apply locals_consumption_nonneg.
Qed.

Lemma device_power_bounds_witness :
  let rt := Sample.runtime in
  let m := fst (constructor rt Sample.world0) in
  let w := snd (constructor rt Sample.world0) in
  let m' := fst (generateCurrentData rt m w) in
  random_in_range rt /\
  Forall household_in_bounds (householdData m') /\
  0 <= cons_total (consumption (currentData m')).
Proof.
  intros rt m w m'.
  split; [apply sample_random_in_range|].
  exact (device_power_bounds rt m w (sample_random_in_range Sample.clock)).
Defined.

(** ** The battery across snapshots *)


Lemma Math_round_whole (x : Q) :
  0 <= x -> x <= 100 ->
  exists z, (0 <= z <= 100)%Z /\ Math_round x = inject_Z z.
Proof.
  intros H0 H1. exists (Qfloor (x + (1 # 2))). split; [|reflexivity].
  destruct (Math_round_between 0 100 x H0 H1) as [A B].
  unfold Math_round in A, B. rewrite <- Zle_Qle in A, B. lia.
Qed.

Lemma gridLoadOf_range (g : GridStatus) (net : Q) :
  0 <= gridLoadOf g net /\ gridLoadOf g net <= 100.
Proof.
  unfold gridLoadOf. destruct g; [|split; lra].
  assert (A : 0 <= Math_abs net).
  { unfold Math_abs. destruct (Qle_bool 0 net) eqn:E.
    - now apply Qle_bool_iff.
    - apply Qle_bool_false in E. lra. }
  destruct (Math_min_spec 100 (Math_abs net * 10)) as [[H ->] | [H ->]];
    split; lra.
Qed.

Lemma generateCurrentData_whole (rt : Runtime) (m : EnergyDataManager)
    (w : World) :
  percentage_in_range m ->
  whole_percentages (fst (generateCurrentData rt m w)).
Proof.
  intros [H0 H1]. unfold whole_percentages.
  destruct (generateCurrentData_currentData rt m w) as [rtemp ->].
  destruct (computeLocals_shape rt m w) as (hs & k & k' & Hl).
  simpl in Hl. rewrite Hl. simpl.
  match goal with
  | |- context [Math_round (batteryStep ?p ?n)] =>
      destruct (batteryStep_range p n H0 H1) as [B0 B1];
      destruct (Math_round_whole _ B0 B1) as (zp & Hp & ->)
  end.
  match goal with
  | |- context [Math_round (gridLoadOf ?g ?n)] =>
      destruct (gridLoadOf_range g n) as [G0 G1];
      destruct (Math_round_whole _ G0 G1) as (zl & Hzl & ->)
  end.
  exists zp, zl. auto.
Qed.

(** X13.  Throughout a session the stored battery percentage and the stored
    grid load are whole numbers between 0 and 100. *)
Theorem stored_percentages_whole (rt : Runtime) (ops : list Op) (w : World) :
  exists p l : Z,
    (0 <= p <= 100)%Z /\ (0 <= l <= 100)%Z /\
    percentage (battery (currentData (fst (session rt ops w)))) = inject_Z p /\
    load (grid (currentData (fst (session rt ops w)))) = inject_Z l.
Proof.
  apply (session_invariant rt whole_percentages).
  - intro w0. destruct (constructor_shape rt w0) as (now & h & al & -> & _).
    exists 75%Z, 0%Z. simpl. repeat split; lia.
  - intros op m w0 Hm.
    assert (R : percentage_in_range m).
    { destruct Hm as (p & l & Hp & _ & E & _). unfold percentage_in_range.
      rewrite E. change 0 with (inject_Z 0). change 100 with (inject_Z 100).
      rewrite <- !Zle_Qle. lia. }
    destruct op; simpl.
    + now apply generateCurrentData_whole.
    + unfold whole_percentages.
      now rewrite (proj1 (toggleDevice_fields m householdId deviceName)).
    + unfold whole_percentages.
      now rewrite (proj1 (updateControlSetting_fields m s)).
    + unfold whole_percentages.
      now rewrite (proj1 (dismissAlert_fields m alertId)).
    + exact Hm.
    + exact Hm.
Qed.



(** ** Ranges of the stored snapshot *)

Lemma generateCurrentData_snapshot (rt : Runtime) (m : EnergyDataManager)
    (w : World) :
  exists k,
    currentData (fst (generateCurrentData rt m w))
    = makeSnapshot (snd (fst (computeLocals rt m w)))
                   (fst (fst (computeLocals rt m w))) (Math_random rt k).
Proof.
  unfold generateCurrentData, bind.
  destruct (computeLocals rt m w) as [[l m1] w1]. simpl.
  exists (rand_ix w1).
  match goal with
  | |- currentData (fst (checkAlerts rt ?a ?b)) = _ =>
      destruct (checkAlerts_shape rt a b) as [al ->]
  end.
  simpl. now rewrite updateHistoricalData_currentData.
Qed.

Lemma round1_le (x y : Q) : x <= y -> round1 x <= round1 y.
Proof.
  intro H. unfold round1.
  assert (Hm : Math_round (x * 10) <= Math_round (y * 10))
    by (apply Math_round_le; lra).
  unfold Qdiv. change (/ 10) with (1 # 10). lra.
Qed.

Lemma round1_Z (z : Z) : round1 (inject_Z z) == inject_Z z.
Proof.
  unfold round1.
  rewrite (Math_round_comp _ (inject_Z (z * 10))).
  - rewrite Math_round_Z, inject_Z_mult. change (inject_Z 10) with 10. field.
  - rewrite inject_Z_mult. reflexivity.
Qed.

Lemma round1_between (a b : Z) (x : Q) :
  inject_Z a <= x -> x <= inject_Z b ->
  inject_Z a <= round1 x /\ round1 x <= inject_Z b.
Proof.
  intros Ha Hb. split.
  - rewrite <- (round1_Z a). now apply round1_le.
  - rewrite <- (round1_Z b). now apply round1_le.
Qed.

(** The solar and wind terms of a generation. *)
Lemma locals_generation_range (rt : Runtime) (m : EnergyDataManager)
    (w : World) :
  random_in_range rt ->
  sine_in_range rt ->
  let l := fst (fst (computeLocals rt m w)) in
  0 <= l_solar l /\ l_solar l <= 12 /\ 3 <= l_wind l /\ l_wind l < 9 /\
  l_totalGeneration l = l_solar l + l_wind l.
Proof.
  intros Hr Hs l. subst l.
  destruct (computeLocals_shape rt m w) as (hs & k & k' & Hl).
  simpl in Hl. rewrite Hl. simpl. clear Hl.
  destruct (Hr k) as [Rk0 Rk1]. destruct (Hr k') as [Rk'0 Rk'1].
  set (hour := getHours rt (system_clock rt (clock_ix w))).
  assert (Hsol : 0 <= (if hour_between 6 18 hour
                       then Math_sin_pi rt (inject_Z (hour - 6) / 12)
                            * (8 + Math_random rt k * 4)
                       else 0)
                 /\ (if hour_between 6 18 hour
                     then Math_sin_pi rt (inject_Z (hour - 6) / 12)
                          * (8 + Math_random rt k * 4)
                     else 0) <= 12).
  { destruct (hour_between 6 18 hour) eqn:E.
    - apply hour_between_spec in E. destruct E as [E1 E2].
      destruct (daylight_fraction hour E1 E2) as [F0 F1].
      destruct (Hs _ F0 F1) as [S0 S1].
      set (s := Math_sin_pi rt _) in *.
      set (r := Math_random rt k) in *.
      split; nra.
    - split; lra. }
  destruct Hsol as [S0 S1].
  repeat split; try assumption; lra.
Qed.

Lemma efficiencyOf_range (tg tc : Q) :
  0 < tg -> 0 <= tc ->
  exists e, efficiencyOf tg tc = Fin e /\ 0 <= e /\ e <= 100.
Proof.
  intros Hg Hc. unfold efficiencyOf.
  apply Qltb_lt in Hg. rewrite Hg. apply Qltb_lt in Hg.
  unfold num_div. destruct (Qeq_bool tc 0) eqn:E.
  - apply Qltb_lt in Hg. rewrite Hg. simpl.
    exists 100. split; [reflexivity|]. split; lra.
  - simpl. eexists. split; [reflexivity|].
    assert (Hpos : 0 < tc).
    { apply Qeq_bool_neq in E. apply Qle_lteq in Hc.
      destruct Hc as [Hc | Hc]; [exact Hc|]. symmetry in Hc. contradiction. }
    assert (Hd : 0 <= tg / tc) by (apply Qle_shift_div_l; [exact Hpos|]; lra).
    destruct (Math_min_spec 100 (tg / tc * 100)) as [[H ->] | [H ->]];
      split; lra.
Qed.

(** X15.  With random numbers in [0, 1), the sine in [0, 1] and a stored
    battery percentage in [0, 100], the snapshot a generation stores has
    an efficiency that is a finite whole number in [0, 100], also when
    nothing is consumed; a generation total in [3, 21]; a voltage in
    [48, 54]; a temperature in [25, 35]; and a grid load in [0, 100]. *)
Theorem snapshot_ranges (rt : Runtime) (m : EnergyDataManager) (w : World) :
  random_in_range rt ->
  sine_in_range rt ->
  percentage_in_range m ->
  let c := currentData (fst (generateCurrentData rt m w)) in
  (exists e : Z,
     efficiency (dailySummary c) = Fin (inject_Z e) /\ (0 <= e <= 100)%Z) /\
  3 <= gen_total (generation c) /\ gen_total (generation c) <= 21 /\
  48 <= voltage (battery c) /\ voltage (battery c) <= 54 /\
  25 <= temperature (battery c) /\ temperature (battery c) <= 35 /\
  0 <= load (grid c) /\ load (grid c) <= 100.
Proof.
  intros Hr Hs [P0 P1] c. subst c.
  destruct (generateCurrentData_snapshot rt m w) as [k ->].
  pose proof (locals_generation_range rt m w Hr Hs) as (S0 & S1 & W0 & W1 & Tg).
  pose proof (locals_consumption_nonneg rt m w Hr) as Tc.
  destruct (Hr k) as [R0 R1].
  destruct (computeLocals_shape rt m w) as (hs & k1 & k2 & Hl).
  simpl in Hl. rewrite Hl in *. simpl in *. clear Hl.
  set (sol := if hour_between 6 18 _ then _ else _) in *.
  set (wnd := 3 + Math_random rt k2 * 6) in *.
  set (tc := getTotalHouseholdConsumption _) in *.
  split.
  { destruct (efficiencyOf_range (sol + wnd) tc) as (e & -> & E0 & E1);
      [lra | exact Tc |].
    simpl. destruct (Math_round_whole e E0 E1) as (z & Hz & ->).
    exists z. auto. }
  split; [apply (round2_lower _ 3); change (3 <= sol + wnd); lra|].
  split; [apply (round2_upper _ 21); change (sol + wnd <= 21); lra|].
  match goal with
  | |- context [batteryStep ?p ?n] =>
      destruct (batteryStep_range p n P0 P1) as [B0 B1];
      set (bp := batteryStep p n) in *
  end.
  assert (V : inject_Z 48 <= 48 + bp / 100 * 6 /\ 48 + bp / 100 * 6 <= inject_Z 54).
  { change (inject_Z 48) with 48. change (inject_Z 54) with 54.
    unfold Qdiv. change (/ 100) with (1 # 100). split; lra. }
  destruct (round1_between 48 54 _ (proj1 V) (proj2 V)) as [V0 V1].
  split; [exact V0|]. split; [exact V1|].
  assert (T : inject_Z 25 <= 25 + Math_random rt k * 10
              /\ 25 + Math_random rt k * 10 <= inject_Z 35).
  { change (inject_Z 25) with 25. change (inject_Z 35) with 35. split; lra. }
  destruct (round1_between 25 35 _ (proj1 T) (proj2 T)) as [T0 T1].
  split; [exact T0|]. split; [exact T1|].
  match goal with
  | |- context [gridLoadOf ?g ?n] =>
      destruct (gridLoadOf_range g n) as [G0 G1]
  end.
  apply (Math_round_between 0 100); assumption.
Qed.

Lemma snapshot_ranges_witness :
  let rt := Sample.runtime in
  let m := fst (constructor rt Sample.world0) in
  let w := snd (constructor rt Sample.world0) in
  let c := currentData (fst (generateCurrentData rt m w)) in
  random_in_range rt /\
  sine_in_range rt /\
  percentage_in_range m /\
  (exists e : Z,
     efficiency (dailySummary c) = Fin (inject_Z e) /\ (0 <= e <= 100)%Z) /\
  3 <= gen_total (generation c) /\ gen_total (generation c) <= 21 /\
  48 <= voltage (battery c) /\ voltage (battery c) <= 54 /\
  25 <= temperature (battery c) /\ temperature (battery c) <= 35 /\
  0 <= load (grid c) /\ load (grid c) <= 100.
Proof.
  intros rt m w c.
  assert (P : percentage_in_range m).
  { unfold percentage_in_range.
    destruct (constructor_shape rt Sample.world0) as (now & h & al & E & _).
    subst m. rewrite E. simpl. split; lra. }
  split; [apply sample_random_in_range|].
  split; [apply sample_sine_in_range|].
  split; [exact P|].
  exact (snapshot_ranges rt m w (sample_random_in_range Sample.clock)
           (sample_sine_in_range Sample.random_numbers Sample.clock) P).
Defined.

(** ** The running totals *)

Lemma round2_near (x : Q) : x - (1 # 200) < round2 x.
Proof.
  unfold round2, Math_round.
  pose proof (Qlt_floor (x * 100 + (1 # 2))) as H.
  rewrite inject_Z_plus in H. change (inject_Z 1) with 1 in H.
  unfold Qdiv. change (/ 100) with (1 # 100). lra.
Qed.

(** X16.  With random numbers in [0, 1) and the sine in [0, 1], every snapshot
    raises the running total of generation by more than 0.05, whatever
    the clock reads: the total is never reset at the turn of a day.  The
    running total of consumption after a snapshot is at least the
    previous one rounded to 2 decimals. *)
Theorem daily_totals_grow (rt : Runtime) (m : EnergyDataManager) (w : World) :
  random_in_range rt ->
  sine_in_range rt ->
  let old := dailySummary (currentData m) in
  let new := dailySummary (currentData (fst (generateCurrentData rt m w))) in
  totalGenerated old + (5 # 100) < totalGenerated new /\
  round2 (totalConsumed old) <= totalConsumed new.
Proof.
  intros Hr Hs old new. subst old new.
  destruct (generateCurrentData_snapshot rt m w) as [k ->].
  pose proof (locals_generation_range rt m w Hr Hs) as (S0 & S1 & W0 & W1 & Tg).
  pose proof (locals_consumption_nonneg rt m w Hr) as Tc.
  destruct (computeLocals_shape rt m w) as (hs & k1 & k2 & Hl).
  simpl in Hl. rewrite Hl in *. simpl in *. clear Hl.
  set (sol := if hour_between 6 18 _ then _ else _) in *.
  set (wnd := 3 + Math_random rt k2 * 6) in *.
  set (tc := getTotalHouseholdConsumption _) in *.
  set (g0 := totalGenerated (dailySummary (currentData m))).
  set (c0 := totalConsumed (dailySummary (currentData m))).
  split.
  - pose proof (round2_near (g0 + (sol + wnd) / 48)) as N.
    assert (D : 3 # 48 <= (sol + wnd) / 48).
    { unfold Qdiv. change (/ 48) with (1 # 48). lra. }
    lra.
  - apply round2_le.
    assert (D : 0 <= tc / 48).
    { unfold Qdiv. change (/ 48) with (1 # 48). lra. }
    lra.
Qed.

Lemma daily_totals_grow_witness :
  let rt := Sample.runtime in
  let m := fst (constructor rt Sample.world0) in
  let w := snd (constructor rt Sample.world0) in
  let old := dailySummary (currentData m) in
  let new := dailySummary (currentData (fst (generateCurrentData rt m w))) in
  random_in_range rt /\
  sine_in_range rt /\
  totalGenerated old + (5 # 100) < totalGenerated new /\
  round2 (totalConsumed old) <= totalConsumed new.
Proof.
  intros rt m w old new.
  split; [apply sample_random_in_range|].
  split; [apply sample_sine_in_range|].
  exact (daily_totals_grow rt m w (sample_random_in_range Sample.clock)
           (sample_sine_in_range Sample.random_numbers Sample.clock)).
Defined.

(** ** Report statistics over a series that is not empty *)

Lemma num_round2_Fin (x : Q) : num_round2 (Fin x) = Fin (round2 x).
Proof. reflexivity. Qed.

Lemma max_fold_from (l : list Q) (a : Q) :
  exists mx,
    fold_left (fun acc x => num_max acc (Fin x)) l (Fin a) = Fin mx /\
    a <= mx /\ (forall x, In x l -> x <= mx).
Proof.
  revert a. induction l as [|y r IH]; intro a; simpl.
  - exists a. repeat split; auto; try lra. intros x [].
  - destruct (IH (Math_max a y)) as (mx & E & Ha & Hall).
    exists mx. split; [exact E|].
    destruct (Math_max_spec a y) as [[Hc Em] | [Hc Em]]; rewrite Em in Ha.
    + split; [lra|]. intros x [<- | Hin]; auto.
    + split; [lra|]. intros x [<- | Hin]; auto. lra.
Qed.

Lemma Math_max_spread_spec (l : list Q) :
  l <> [] ->
  exists mx, Math_max_spread l = Fin mx /\ (forall x, In x l -> x <= mx).
Proof.
  destruct l as [|y r]; [contradiction|]. intros _.
  unfold Math_max_spread. simpl.
  destruct (max_fold_from r y) as (mx & E & Ha & Hall).
  exists mx. split; [exact E|]. intros x [<- | Hin]; auto.
Qed.

Lemma sum_reduce_le (l : list Q) (mx : Q) :
  (forall x, In x l -> x <= mx) ->
  sum_reduce l <= inject_Z (Z.of_nat (List.length l)) * mx.
Proof.
  unfold sum_reduce. intro H.
  assert (G : forall a,
             fold_left Qplus l a
             <= a + inject_Z (Z.of_nat (List.length l)) * mx).
  { induction l as [|y r IH]; intro a.
    - simpl. change (inject_Z 0) with 0. lra.
    - simpl fold_left. specialize (IH (fun x Hx => H x (or_intror Hx)) (a + y)).
      assert (Hy : y <= mx) by (apply H; left; reflexivity).
      replace (Z.of_nat (List.length (y :: r)))
        with (Z.of_nat (List.length r) + 1)%Z by (simpl List.length; lia).
      rewrite inject_Z_plus. change (inject_Z 1) with 1. lra. }
  specialize (G 0). lra.
Qed.

(** The statistics of a series of [n] points, [n] not zero. *)
Lemma report_statistics_of_series (m : EnergyDataManager) (p : Period) (n : nat) :
  series_lengths (get_series (historicalData m) p) (S n) ->
  let st := statistics (getReportData m p) in
  exists ag ac pg pc tg tc,
    avgGeneration st = Fin ag /\ avgConsumption st = Fin ac /\
    peakGeneration st = Fin pg /\ peakConsumption st = Fin pc /\
    totalGeneration st = Fin tg /\ totalConsumption st = Fin tc /\
    ag <= pg /\ ac <= pc /\
    (st_efficiency st = PInf \/ exists e, st_efficiency st = Fin e).
Proof.
  intros (L1 & L2 & L3) st. subst st.
  unfold getReportData, getHistoricalData.
  set (d := get_series (historicalData m) p) in *.
  cbn [statistics avgGeneration avgConsumption peakGeneration peakConsumption
       totalGeneration totalConsumption st_efficiency].
  assert (Ng : s_generation d <> []) by (apply (length_nonempty _ n); exact L2).
  assert (Nc : s_consumption d <> []) by (apply (length_nonempty _ n); exact L3).
  destruct (length_num_div (sum_reduce (s_generation d)) _ Ng) as [Pg ->].
  destruct (length_num_div (sum_reduce (s_consumption d)) _ Nc) as [Pc ->].
  destruct (Math_max_spread_spec _ Ng) as (mg & -> & Hmg).
  destruct (Math_max_spread_spec _ Nc) as (mc & -> & Hmc).
  rewrite !num_round2_Fin.
  do 6 eexists. do 6 (split; [reflexivity|]).
  split; [|split].
  - apply round2_le. apply Qle_shift_div_r; [exact Pg|].
    rewrite Qmult_comm. now apply sum_reduce_le.
  - apply round2_le. apply Qle_shift_div_r; [exact Pc|].
    rewrite Qmult_comm. now apply sum_reduce_le.
  - cbn [num_gt]. destruct (Qltb 0 _) eqn:Eg.
    + cbn [num_div]. destruct (Qeq_bool _ 0).
      * rewrite Eg. left. reflexivity.
      * right. eexists. reflexivity.
    + right. eexists. reflexivity.
Qed.

(** X17.  At any point of a session, for every period: the averages, the
    peaks and the totals of a report are finite numbers, never NaN or an
    infinity; each average is at most the peak; and the efficiency is
    either a finite number or plus infinity, never NaN. *)
Theorem report_statistics_in_session (rt : Runtime) (ops : list Op) (w : World)
    (p : Period) :
  let st := statistics (getReportData (fst (session rt ops w)) p) in
  exists ag ac pg pc tg tc,
    avgGeneration st = Fin ag /\ avgConsumption st = Fin ac /\
    peakGeneration st = Fin pg /\ peakConsumption st = Fin pc /\
    totalGeneration st = Fin tg /\ totalConsumption st = Fin tc /\
    ag <= pg /\ ac <= pc /\
    (st_efficiency st = PInf \/ exists e, st_efficiency st = Fin e).
Proof.
  assert (F : history_full (fst (session rt ops w))).
  { apply (session_invariant rt history_full).
    - apply constructor_history_full.
    - intros op m w0. apply step_history_full. }
  specialize (F p).
  destruct p; simpl maxPoints in F;
    eapply report_statistics_of_series; exact F.
Qed.

(** ** The history a snapshot leaves *)

Lemma shouldUpdateData_series (rt : Runtime) (a b : EnergyDataManager)
    (p : Period) (t : Z) :
  get_series (historicalData a) p = get_series (historicalData b) p ->
  shouldUpdateData rt a p t = shouldUpdateData rt b p t.
Proof.
  intro H. unfold shouldUpdateData. now rewrite H.
Qed.

Lemma updatePeriod_other (rt : Runtime) (p q : Period) (t : Z)
    (m : EnergyDataManager) :
  p <> q ->
  get_series (historicalData (updatePeriod rt p t m)) q
  = get_series (historicalData m) q.
Proof.
  intro H. unfold updatePeriod.
  destruct (shouldUpdateData rt m p t); [|reflexivity].
  now apply addDataPoint_other.
Qed.

(** The series of [p] after [addDataPoint] depends on the manager only
    through that series and the current snapshot. *)
Lemma updatePeriod_same (rt : Runtime) (p : Period) (t : Z)
    (a b : EnergyDataManager) :
  get_series (historicalData a) p = get_series (historicalData b) p ->
  currentData a = currentData b ->
  get_series (historicalData (updatePeriod rt p t a)) p
  = get_series (historicalData (updatePeriod rt p t b)) p.
Proof.
  intros Hs Hc. unfold updatePeriod.
  rewrite (shouldUpdateData_series rt a b p t Hs).
  destruct (shouldUpdateData rt b p t); [|exact Hs].
  unfold addDataPoint. simpl. rewrite !get_set_series_same, Hs, Hc.
  reflexivity.
Qed.

Lemma updateHistoricalData_period (rt : Runtime) (m : EnergyDataManager)
    (p : Period) :
  get_series (historicalData (updateHistoricalData rt m)) p
  = get_series
      (historicalData (updatePeriod rt p (timestamp (currentData m)) m)) p.
Proof.
  unfold updateHistoricalData.
  set (t := timestamp (currentData m)).
  destruct p.
  - rewrite updatePeriod_other by discriminate.
    rewrite updatePeriod_other by discriminate. reflexivity.
  - rewrite updatePeriod_other by discriminate.
    apply updatePeriod_same.
    + apply updatePeriod_other. discriminate.
    + apply updatePeriod_currentData.
  - apply updatePeriod_same.
    + rewrite updatePeriod_other by discriminate.
      apply updatePeriod_other. discriminate.
    + now rewrite !updatePeriod_currentData.
Qed.

(** X18.  What a snapshot generation does to the series of a period is
    decided by that series alone, whatever happens to the other two: the
    series is left as it is when the test on its last label fails at the
    snapshot's time, and otherwise gets one point, after the oldest has
    gone if it was at its limit.  The point carries the label of the
    snapshot's time and the generation and consumption totals stored in
    the snapshot. *)
Theorem generateCurrentData_history (rt : Runtime) (m : EnergyDataManager)
    (w : World) (p : Period) :
  let m' := fst (generateCurrentData rt m w) in
  let c := currentData m' in
  let s := get_series (historicalData m) p in
  let s' := get_series (historicalData m') p in
  let full := (maxPoints p <=? List.length (s_labels s))%nat in
  timestamp c = system_clock rt (clock_ix w) /\
  if shouldUpdateData rt m p (timestamp c)
  then
    s_labels s'
      = (if full then tl (s_labels s) else s_labels s)
        ++ [formatTimeForPeriod rt (timestamp c) p] /\
    s_generation s'
      = (if full then tl (s_generation s) else s_generation s)
        ++ [gen_total (generation c)] /\
    s_consumption s'
      = (if full then tl (s_consumption s) else s_consumption s)
        ++ [cons_total (consumption c)]
  else s' = s.
Proof.
  intros m' c s s' full. subst m' c s s' full.
  destruct (generateCurrentData_shape rt m w) as (rtemp & alerts & E).
  simpl in E. rewrite E. clear E.
  destruct (computeLocals_shape rt m w) as (hs & k & k' & Hl).
  simpl in Hl. rewrite Hl. clear Hl.
  cbn [currentData historicalData set_alertsData fst snd].
  rewrite updateHistoricalData_currentData, updateHistoricalData_period.
  set (m2 := set_currentData (set_householdData m hs) _).
  change (timestamp (currentData m2)) with (system_clock rt (clock_ix w)).
  split; [reflexivity|].
  set (t := system_clock rt (clock_ix w)).
  assert (Es : get_series (historicalData m2) p
               = get_series (historicalData m) p) by reflexivity.
  unfold updatePeriod.
  rewrite (shouldUpdateData_series rt m2 m p t Es).
  destruct (shouldUpdateData rt m p t); [|exact Es].
  destruct (addDataPoint_series rt m2 p t) as (E1 & E2 & E3).
  rewrite Es in E1, E2, E3. auto.
Qed.

(** ** The history right after construction *)

Lemma consumptionBase_range (hour day : Z) :
  4 <= consumptionBase hour day /\ consumptionBase hour day <= 8.
Proof.
  unfold consumptionBase.
  repeat match goal with
  | |- context [if ?b then _ else _] => destruct b
  end; split; lra.
Qed.

Lemma initializePoint_plausible (rt : Runtime) (now : Z) (p : Period) (iv : Z)
    (i : nat) (acc : Series) (w : World) :
  random_in_range rt ->
  sine_in_range rt ->
  series_plausible acc ->
  series_plausible (fst (initializePoint rt now p iv i acc w)).
Proof.
  intros Hr Hs [Fg Fc]. unfold initializePoint, bind.
  set (time := (now - Z.of_nat i * iv * 60 * 1000)%Z).
  pose proof (solar_generation_value rt (getHours rt time) w) as V.
  destruct (solar_generation rt (getHours rt time) w) as [sg w1].
  simpl in V. simpl.
  destruct (Hr (rand_ix w)) as [A0 A1].
  destruct (Hr (rand_ix w1)) as [B0 B1].
  destruct (Hr (S (rand_ix w1))) as [C0 C1].
  assert (Sg : 0 <= sg /\ sg <= 12).
  { rewrite V. destruct (hour_between 6 18 (getHours rt time)) eqn:E.
    - apply hour_between_spec in E. destruct E as [E1 E2].
      destruct (daylight_fraction _ E1 E2) as [F0 F1].
      destruct (Hs _ F0 F1) as [S0 S1].
      set (s := Math_sin_pi rt _) in *.
      set (r := Math_random rt (rand_ix w)) in *.
      split; nra.
    - split; lra. }
  destruct (consumptionBase_range (getHours rt time) (getDay rt time))
    as [K0 K1].
  split; simpl; apply Forall_app; split; auto; constructor; auto.
  - split.
    + apply (round2_lower _ 3). change (inject_Z 3) with 3. lra.
    + apply (round2_upper _ 21). change (inject_Z 21) with 21. lra.
  - split.
    + apply (round2_lower _ 4). change (inject_Z 4) with 4. lra.
    + apply (round2_upper _ 11). change (inject_Z 11) with 11. lra.
Qed.

Lemma initializeLoop_plausible (rt : Runtime) (now : Z) (p : Period) (iv : Z)
    (n : nat) :
  random_in_range rt ->
  sine_in_range rt ->
  forall acc w,
    series_plausible acc ->
    series_plausible (fst (initializeLoop rt now p iv n acc w)).
Proof.
  intros Hr Hs. induction n as [|n IH]; intros acc w H; simpl; [exact H|].
  unfold bind.
  pose proof (initializePoint_plausible rt now p iv n acc w Hr Hs H) as P.
  destruct (initializePoint rt now p iv n acc w) as [acc' w'].
  now apply IH.
Qed.

Lemma initializePeriodData_plausible (rt : Runtime) (p : Period) (points : nat)
    (iv : Z) (h : HistoricalData) (w : World) :
  random_in_range rt ->
  sine_in_range rt ->
  exists s,
    fst (initializePeriodData rt p points iv h w) = set_series h p s /\
    series_plausible s.
Proof.
  intros Hr Hs. unfold initializePeriodData, bind, Date_now. simpl.
  pose proof (initializeLoop_plausible rt (system_clock rt (clock_ix w)) p iv
                points Hr Hs (mkSeries [] [] [])
                (mkWorld (rand_ix w) (S (clock_ix w)))) as H.
  destruct (initializeLoop rt _ p iv points _ _) as [s w'].
  exists s. split; [reflexivity|]. apply H. split; constructor.
Qed.

(** X19.  With random numbers in [0, 1) and the sine in [0, 1], every point of
    the history a new manager starts with has a generation in [3, 21]
    and a consumption in [4, 11]. *)
Theorem initial_history_plausible (rt : Runtime) (w : World) (p : Period) :
  random_in_range rt ->
  sine_in_range rt ->
  series_plausible (get_series (historicalData (fst (constructor rt w))) p).
Proof.
  intros Hr Hs.
  destruct (constructor_shape rt w) as (now & h & al & -> & Hh).
  cbn [historicalData]. subst h.
  unfold initializeHistoricalData, bind.
  set (w0 := mkWorld (rand_ix w) (S (clock_ix w))).
  destruct (initializePeriodData_plausible rt P24h 48 30 emptyHistorical w0
              Hr Hs) as (s1 & E1 & L1).
  destruct (initializePeriodData rt P24h 48 30 emptyHistorical w0) as [h1 w1].
  simpl in E1. subst h1.
  destruct (initializePeriodData_plausible rt P7d 168 60
              (set_series emptyHistorical P24h s1) w1 Hr Hs) as (s2 & E2 & L2).
  destruct (initializePeriodData rt P7d 168 60 _ w1) as [h2 w2].
  simpl in E2. subst h2.
  destruct (initializePeriodData_plausible rt P30d 720 60
              (set_series (set_series emptyHistorical P24h s1) P7d s2) w2
              Hr Hs) as (s3 & E3 & L3).
  simpl in E3. simpl. rewrite E3. destruct p; simpl; assumption.
Qed.

Lemma initial_history_plausible_witness :
  random_in_range Sample.runtime /\
  sine_in_range Sample.runtime /\
  series_plausible
    (get_series (historicalData (fst (constructor Sample.runtime Sample.world0)))
                P7d).
Proof.
  split; [apply sample_random_in_range|].
  split; [apply sample_sine_in_range|].
  exact (initial_history_plausible Sample.runtime Sample.world0 P7d
           (sample_random_in_range Sample.clock)
           (sample_sine_in_range Sample.random_numbers Sample.clock)).
Defined.

(** ** The trends chart and the performance summary *)

Lemma mapIndexed_nth {A B} (f : nat -> A -> B) (l : list A) (k i : nat) :
  nth_error (mapIndexed f k l) i = option_map (f (k + i)%nat) (nth_error l i).
Proof.
  revert k i. induction l as [|a r IH]; intros k i.
  - destruct i; reflexivity.
  - destruct i as [|i]; simpl.
    + now rewrite Nat.add_0_r.
    + rewrite IH. now replace (S k + i)%nat with (k + S i)%nat by lia.
Qed.

Lemma mapIndexed_length {A B} (f : nat -> A -> B) (l : list A) (k : nat) :
  List.length (mapIndexed f k l) = List.length l.
Proof.
  revert k. induction l as [|a r IH]; intro k; simpl; [reflexivity|].
  now rewrite IH.
Qed.

Lemma pointEfficiency_range (consumption : list Q) (i : nat) (gen : Q) :
  0 <= gen ->
  0 <= pointEfficiency consumption i gen /\
  pointEfficiency consumption i gen <= 100.
Proof.
  intro Hg. unfold pointEfficiency.
  destruct (nth_error consumption i) as [c|]; [|split; lra].
  destruct (Qltb 0 c) eqn:E; [|split; lra].
  apply Qltb_lt in E.
  assert (Hd : 0 <= gen / c) by (apply Qle_shift_div_l; [exact E|]; lra).
  destruct (Math_min_spec 100 (gen / c * 100)) as [[H ->] | [H ->]];
    split; lra.
Qed.

(** X20.  The efficiency data of the trends chart has one value for each
    generation point.  The value is 0 where the consumption is zero,
    negative or missing, so that no division by zero takes place; and
    where the generation is not negative the value lies in [0, 100]. *)
Theorem trends_efficiency_data (m : EnergyDataManager) (period : Period) :
  let s := getHistoricalData m period in
  let data := trendsEfficiencyData m period in
  List.length data = List.length (s_generation s) /\
  forall i gen,
    nth_error (s_generation s) i = Some gen ->
    exists e,
      nth_error data i = Some e /\
      (match nth_error (s_consumption s) i with
       | Some c => c <= 0
       | None => True
       end -> e == 0) /\
      (0 <= gen -> 0 <= e /\ e <= 100).
Proof.
  intros s data. subst s data. unfold trendsEfficiencyData, getReportData.
  cbn [rep_data]. set (s := getHistoricalData m period).
  split; [now rewrite length_map, mapIndexed_length|].
  intros i gen Hg.
  rewrite nth_error_map, mapIndexed_nth, Hg. simpl.
  eexists. split; [reflexivity|]. split.
  - intro Hc. unfold pointEfficiency.
    destruct (nth_error (s_consumption s) i) as [c|];
      [|vm_compute; reflexivity].
    destruct (Qltb 0 c) eqn:E; [|vm_compute; reflexivity].
    apply Qltb_lt in E. lra.
  - intro H0. destruct (pointEfficiency_range (s_consumption s) i gen H0)
      as [A B].
    split.
    + apply (round2_lower _ 0). exact A.
    + apply (round2_upper _ 100). exact B.
Qed.

Lemma Qltb_iff_eq (a b c d : Q) :
  (a < b <-> c < d) -> Qltb a b = Qltb c d.
Proof.
  intro H. destruct (Qltb a b) eqn:E1; destruct (Qltb c d) eqn:E2; auto.
  - apply Qltb_lt in E1. apply H in E1. apply Qltb_lt in E1. congruence.
  - apply Qltb_lt in E2. apply H in E2. apply Qltb_lt in E2. congruence.
Qed.

(** X21.  The efficiency trend is shown as positive, with a plus sign and in
    green, exactly when the efficiency is above the baseline of 75, for
    every number the efficiency can be: an infinite efficiency gives an
    infinite trend, shown as positive, and NaN gives NaN, shown as not
    positive.  The rating of an infinite efficiency is 'Excellent' and
    that of NaN 'Needs Improvement'. *)
Theorem efficiency_trend_sign :
  (forall e, num_gt (calculateTrend e (Fin 75)) (Fin 0) = num_gt e (Fin 75)) /\
  (forall m period,
     trendShownPositive m period
     = num_gt (st_efficiency (statistics (getReportData m period))) (Fin 75)) /\
  calculateTrend PInf (Fin 75) = PInf /\
  calculateTrend NaN (Fin 75) = NaN /\
  getEfficiencyRating PInf = "Excellent" /\
  getEfficiencyRating NaN = "Needs Improvement".
Proof.
  assert (S : forall e,
             num_gt (calculateTrend e (Fin 75)) (Fin 0) = num_gt e (Fin 75)).
  { intros [x | | |]; try reflexivity.
    unfold calculateTrend. simpl. apply Qltb_iff_eq.
    unfold Qdiv. change (/ 75) with (1 # 75). split; intro H; lra. }
  split; [exact S|]. split; [intros; apply S|].
  repeat split.
Qed.

(** ** The emergency stop *)

Lemma stopDevice_stopped (d : Device) : device_stopped d (stopDevice d).
Proof.
  unfold device_stopped, stopDevice.
  destruct (String.eqb (dev_priority d) "low") eqn:E.
  - apply String.eqb_eq in E. simpl. repeat split; auto. intro; contradiction.
  - apply String.eqb_neq in E. repeat split; auto. intro; contradiction.
Qed.

Lemma stopDevice_idempotent (d : Device) : stopDevice (stopDevice d) = stopDevice d.
Proof.
  unfold stopDevice. destruct (String.eqb (dev_priority d) "low") eqn:E.
  - simpl. rewrite E. reflexivity.
  - rewrite E. reflexivity.
Qed.

Lemma Forall2_map_r {A} (R : A -> A -> Prop) (f : A -> A) (l : list A) :
  (forall a, R a (f a)) -> Forall2 R l (map f l).
Proof.
  intro H. induction l; simpl; constructor; auto.
Qed.

Lemma mapM_Forall_pre {A B} (P : A -> Prop) (Q' : B -> Prop) (f : A -> M B)
    (l : list A) :
  (forall a w, P a -> Q' (fst (f a w))) ->
  Forall P l ->
  forall w, Forall Q' (fst (mapM f l w)).
Proof.
  intros H F. induction F as [|a r Ha F IH]; intro w; simpl.
  - constructor.
  - unfold bind. specialize (H a w Ha). destruct (f a w) as [b w1].
    specialize (IH w1). destruct (mapM f r w1) as [bs w2]. simpl in *.
    now constructor.
Qed.

Lemma updateHousehold_idle (rt : Runtime) (hour : Z) (h : Household)
    (w : World) :
  low_priority_off h ->
  low_priority_idle (fst (updateHousehold rt hour h w)).
Proof.
  intro H. unfold updateHousehold, bind.
  pose proof (mapM_Forall_pre
                (fun d => dev_priority d = "low" -> dev_status d = "off")
                (fun d => dev_priority d = "low" ->
                          dev_status d = "off" /\ dev_power d = 0)
                (updateDevice rt hour) (hh_devices h)) as F.
  assert (Hd : forall d w0,
             (dev_priority d = "low" -> dev_status d = "off") ->
             dev_priority (fst (updateDevice rt hour d w0)) = "low" ->
             dev_status (fst (updateDevice rt hour d w0)) = "off" /\
             dev_power (fst (updateDevice rt hour d w0)) = 0).
  { intros d w0 Hoff. unfold updateDevice, bind, devicePower.
    destruct (String.eqb (dev_priority d) "low") eqn:E.
    - apply String.eqb_eq in E. specialize (Hoff E). rewrite Hoff. simpl.
      intros _. auto.
    - apply String.eqb_neq in E.
      destruct (devicePower rt hour d w0) as [pw w1] eqn:Ep.
      unfold devicePower in Ep. rewrite Ep. simpl. intro; contradiction. }
  specialize (F Hd H w).
  destruct (mapM (updateDevice rt hour) (hh_devices h) w) as [ds w1].
  exact F.
Qed.

(** X22.  A confirmed emergency stop switches the grid connection and the
    automatic load balancing off and sets every low-priority device to
    'off', the 'auto' ones included; battery charging, the energy limits,
    every other device and all the rest of the manager stay as they are.
    A second stop changes nothing more, a declined one changes nothing.
    At the next snapshot every low-priority device is still 'off' and
    draws exactly 0. *)
Theorem emergency_stop (m : EnergyDataManager) :
  let m' := handleEmergencyStop true m in
  gridConnection (systemControls (controlsData m')) = false /\
  autoLoadBalancing (systemControls (controlsData m')) = false /\
  batteryCharging (systemControls (controlsData m'))
    = batteryCharging (systemControls (controlsData m)) /\
  energyLimits (controlsData m') = energyLimits (controlsData m) /\
  currentData m' = currentData m /\
  historicalData m' = historicalData m /\
  alertsData m' = alertsData m /\
  schedules m' = schedules m /\
  Forall2 household_stopped (householdData m) (householdData m') /\
  handleEmergencyStop true m' = m' /\
  handleEmergencyStop false m = m /\
  forall rt w,
    Forall low_priority_idle
           (householdData (fst (generateCurrentData rt m' w))).
Proof.
  intro m'. subst m'. unfold handleEmergencyStop. simpl.
  do 8 (split; [reflexivity|]).
  split; [|split; [|split; [reflexivity|]]].
  - apply Forall2_map_r. intro h. unfold household_stopped, set_devices. simpl.
    repeat split. apply Forall2_map_r. apply stopDevice_stopped.
  - unfold set_householdData, set_controlsData. simpl. f_equal.
    rewrite map_map. apply map_ext. intro h. unfold set_devices. simpl.
    f_equal. rewrite map_map. apply map_ext. apply stopDevice_idempotent.
  - intros rt w.
    match goal with
    | |- context [generateCurrentData rt ?mm w] =>
        destruct (generateCurrentData_households rt mm w) as [w2 E]
    end.
    simpl in E. rewrite E.
    apply mapM_Forall_pre
      with (P := low_priority_off).
    + intros h w0. apply updateHousehold_idle.
    + apply Forall_forall. intros h' Hin. apply in_map_iff in Hin.
      destruct Hin as (h & <- & _). unfold low_priority_off, set_devices.
      simpl. apply Forall_forall. intros d' Hd. apply in_map_iff in Hd.
      destruct Hd as (d & <- & _).
      pose proof (stopDevice_stopped d) as (_ & _ & Hp & Hoff & _).
      intro Hl. apply Hoff. now rewrite <- Hp.
Qed.

(** ** The number of devices *)

Lemma getDeviceCount_counts (m m' : EnergyDataManager) :
  deviceCounts (householdData m') = deviceCounts (householdData m) ->
  getDeviceCount m' = getDeviceCount m.
Proof.
  unfold getDeviceCount, deviceCounts. generalize 0%nat.
  generalize (householdData m'), (householdData m).
  induction l as [|h r IH]; intros [|h0 r0] k E; simpl in *; try discriminate.
  - reflexivity.
  - injection E as E1 E2. rewrite E1. now apply IH.
Qed.

Lemma household_refreshed_counts (hs hs' : list Household) :
  Forall2 household_refreshed hs hs' -> deviceCounts hs' = deviceCounts hs.
Proof.
  induction 1 as [|h h' r r' Hh F IH]; simpl; [reflexivity|].
  destruct Hh as (_ & _ & _ & Fd & _).
  rewrite IH. f_equal. symmetry. exact (Forall2_length Fd).
Qed.

Lemma toggle_in_households_counts (householdId deviceName : string)
    (hs hs' : list Household) :
  toggle_in_households householdId deviceName hs = Some hs' ->
  deviceCounts hs' = deviceCounts hs.
Proof.
  intro E.
  pose proof (toggle_in_households_spec householdId deviceName hs) as S.
  rewrite E in S. destruct S as (hs1 & h & hs2 & ds' & -> & _ & _ & Ed & ->).
  pose proof (toggle_in_devices_spec deviceName (hh_devices h)) as Sd.
  rewrite Ed in Sd. destruct Sd as (ds1 & d & ds2 & Eh & _ & _ & ->).
  unfold deviceCounts. rewrite !map_app. simpl. rewrite Eh.
  rewrite !length_app. reflexivity.
Qed.

(** X23.  No call of the class adds or removes a device, and neither does the
    emergency stop: the device count of the control page is the same
    after every call, and is 12 at every point of a session. *)
Theorem device_count_constant (rt : Runtime) :
  (forall op m w, getDeviceCount (fst (step rt op m w)) = getDeviceCount m) /\
  (forall confirmed m,
     getDeviceCount (handleEmergencyStop confirmed m) = getDeviceCount m) /\
  (forall ops w, getDeviceCount (fst (session rt ops w)) = 12%nat).
Proof.
  assert (S : forall op m w,
             getDeviceCount (fst (step rt op m w)) = getDeviceCount m).
  { intros op m w. apply getDeviceCount_counts. destruct op; simpl.
    - apply household_refreshed_counts.
      apply generateCurrentData_households_refreshed.
    - unfold toggleDevice.
      destruct (toggle_in_households householdId deviceName (householdData m))
        as [hs'|] eqn:E; simpl; [|reflexivity].
      eapply toggle_in_households_counts. exact E.
    - now rewrite (proj2 (proj2 (proj2 (updateControlSetting_fields m s)))).
    - now rewrite (proj1 (proj2 (proj2 (dismissAlert_fields m alertId)))).
    - reflexivity.
    - reflexivity. }
  split; [exact S|]. split.
  - intros [] m; [|reflexivity]. apply getDeviceCount_counts.
    unfold handleEmergencyStop, deviceCounts. simpl.
    rewrite map_map. apply map_ext. intro h. simpl. apply length_map.
  - apply (session_invariant rt (fun m => getDeviceCount m = 12%nat)).
    + intro w. destruct (constructor_shape rt w) as (now & h & alerts & E & _).
      rewrite E. reflexivity.
    + intros op m w H. now rewrite S.
Qed.
